(** * dpLGAR: layered Green-Ampt with redistribution, torch port.

    A shallow embedding of the parts of the repository that its
    specification talks about:

    - [lgartorch/models/physics/lgar/aet.py]   ([Module AET]),
    - [dpLGAR/agents/SyntheticAgent.py]        ([Module SyntheticAgent]),
    - [lgartorch/data/Data.py]                 ([Module Data]),
    - [src/data/read.py]                       ([Module Read]),
    - [src/LGARBmi.py]                         ([Module LGARBmi]),
    - the wetting-front merge of the specification ([Module Ledger]).

    [Module Sample] holds concrete inputs on which the statements are run.

    Conventions.  Tensors of [torch.float64] are embedded as exact
    rationals [Q]; where a statement depends on it, the values torch
    gives outside the finite numbers ([inf], [nan]) are kept
    ([Module Torch]).  The arithmetic of Python floats on configuration
    entries is rounded to the nearest double ([Module Float64]).  Python
    exceptions are values of [exn]; a computation that may raise returns
    a [result]. *)

From Stdlib Require Import QArith Qminmax Qround Qpower Qabs Qfield Lqa Lia ZArith.
From Stdlib Require Import Ascii String.
From stdpp Require Import gmap strings list.

Local Open Scope Q_scope.

(** ** Python floats *)

Module Float64.

(** 2^e. *)
Definition pow2 (e : Z) : Q := (2 # 1) ^ e.

(** The binary exponent of a non-zero number: the [e] with
    2^e <= |q| < 2^(e+1). *)
Definition exponent (q : Q) : Z :=
  let e0 := (Z.log2 (Z.abs (Qnum q)) - Z.log2 (Z.pos (Qden q)))%Z in
  if Qle_bool (pow2 e0) (Qabs q) then e0 else (e0 - 1)%Z.

(** The nearest integer, a tie going to the even one. *)
Definition round_half_even (x : Q) : Z :=
  let f := Qfloor x in
  match Qcompare (x - inject_Z f) (1 # 2) with
  | Lt => f
  | Gt => (f + 1)%Z
  | Eq => if Z.even f then f else (f + 1)%Z
  end.

(** The double nearest to [q]: 53 significant bits, round to nearest,
    ties to even.  The exponent is not bounded, so this is the IEEE
    result wherever that is a normal number. *)
Definition round (q : Q) : Q :=
  if Qeq_bool q 0 then 0
  else
    let s := (exponent q - 52)%Z in
    Qred (inject_Z (round_half_even (q / pow2 s)) * pow2 s).

(** [x * y] and [x / y] (for a non-zero [y]) on floats.  On Python
    integers below 2^26 they give the same numbers. *)
Definition mul (x y : Q) : Q := round (x * y).
Definition div (x y : Q) : Q := round (x / y).

(** [q] is a double. *)
Definition representable (q : Q) : bool := Qeq_bool (round q) q.

(** A double of moderate size, 2^-26 <= |q| <= 2^26: the products and
    quotients of a few such numbers neither overflow nor underflow, and
    an integer among them is exact as a float. *)
Definition moderate (q : Q) : bool :=
  representable q && Qle_bool (pow2 (-26)) (Qabs q) && Qle_bool (Qabs q) (pow2 26).

Definition moderate_or_zero (q : Q) : bool := Qeq_bool q 0 || moderate q.

End Float64.

(** ** Python values that may raise *)

Module Py.

(** The exception classes that the embedded code can raise.  A class
    defined by the repository itself is [UserDefined] with its name. *)
Inductive exn : Type :=
| AttributeError (attribute : string)
| NameError (name : string)
| KeyError
| IndexError
| ValueError
| TypeError
| RuntimeError
| ZeroDivisionError
| FileNotFoundError
| UserDefined (class_name : string).

Inductive result (A : Type) : Type :=
| Ok (a : A)
| Raise (e : exn).
Arguments Ok {A} a.
Arguments Raise {A} e.

Definition bind {A B} (r : result A) (k : A -> result B) : result B :=
  match r with
  | Ok a => k a
  | Raise e => Raise e
  end.

(** [int(x)] of a float: truncation toward zero. *)
Definition int (x : Q) : Z := Z.quot (Qnum x) (Z.pos (Qden x)).

(** [a / b] on Python floats. *)
Definition truediv (a b : Q) : result Q :=
  if Qeq_bool b 0 then Raise ZeroDivisionError else Ok (Float64.div a b).

(** Computations that also leave a trace of events of type [E]
    (method calls, log lines); the trace survives an exception. *)
Definition traced (E A : Type) : Type := (list E * result A)%type.

Definition tret {E A} (a : A) : traced E A := ([], Ok a).

Definition tbind {E A B} (m : traced E A) (k : A -> traced E B) : traced E B :=
  match m with
  | (tr, Ok a) => let '(tr', r) := k a in (tr ++ tr', r)
  | (tr, Raise e) => (tr, Raise e)
  end.

Definition emit {E} (e : E) : traced E unit := ([e], Ok tt).

Definition lift {E A} (r : result A) : traced E A := ([], r).

End Py.

Notation "x <- c1 ;; c2" := (Py.bind c1 (fun x => c2))
  (at level 100, c1 at next level, right associativity).
Notation "x <~ c1 ;; c2" := (Py.tbind c1 (fun x => c2))
  (at level 100, c1 at next level, right associativity).

(** ** lgartorch/models/physics/lgar/aet.py *)

Module AET.

(** [torch.clamp(x, min=lo, max=hi)]: [min(max(x, lo), hi)]. *)
Definition clamp (x lo hi : Q) : Q := Qmin (Qmax x lo) hi.

(** [torch.pow(x, 3.0)]. *)
Definition pow3 (x : Q) : Q := x ^ 3.

(** The two fields of [global_params] that [calculate_aet] reads. *)
Record global_params : Type := {
  relative_moisture_at_which_PET_equals_AET : Q;
  wilting_point_psi_cm : Q
}.

Section WithRetentionRelation.

(** The retention helpers live in [lgartorch/models/physics/utils.py],
    which is not part of the sources at hand; [calculate_aet] is
    embedded over them. *)
Variable calc_theta_from_h : Q -> Q -> Q -> Q -> Q -> Q -> Q.
Variable calc_se_from_theta : Q -> Q -> Q -> Q.
Variable calc_h_from_se : Q -> Q -> Q -> Q -> Q.

(** [theta_fc]: moisture at which AET equals PET. *)
Definition theta_fc (gp : global_params) (theta_e theta_r : Q) : Q :=
  (theta_e - theta_r) * relative_moisture_at_which_PET_equals_AET gp + theta_r.

(** [wp_head_theta]: moisture at the wilting-point head. *)
Definition wp_head_theta (gp : global_params) (theta_e theta_r m alpha n : Q) : Q :=
  calc_theta_from_h (wilting_point_psi_cm gp) alpha n m theta_e theta_r.

(** [theta_wp], the "theta_50" of the code's comment: the moisture
    half-way between the two. *)
Definition theta_wp (gp : global_params) (theta_e theta_r m alpha n : Q) : Q :=
  (theta_fc gp theta_e theta_r - wp_head_theta gp theta_e theta_r m alpha n) * (1 # 2)
  + wp_head_theta gp theta_e theta_r m alpha n.

(** [psi_wp_cm] of the code: the head h_50. *)
Definition psi_wp_cm (gp : global_params) (theta_e theta_r m alpha n : Q) : Q :=
  let se := calc_se_from_theta (theta_wp gp theta_e theta_r m alpha n) theta_e theta_r in
  calc_h_from_se se alpha m n.

Definition h_ratio (gp : global_params) (psi_cm theta_e theta_r m alpha n : Q) : Q :=
  1 + pow3 (psi_cm / psi_wp_cm gp theta_e theta_r m alpha n).

Definition actual_ET_demand_ (gp : global_params) (pet psi_cm theta_e theta_r m alpha n : Q) : Q :=
  pet * (1 / h_ratio gp psi_cm theta_e theta_r m alpha n).

Definition calculate_aet (gp : global_params) (pet psi_cm theta_e theta_r m alpha n : Q) : Q :=
  clamp (actual_ET_demand_ gp pet psi_cm theta_e theta_r m alpha n) 0 pet.

End WithRetentionRelation.

(** The demand-reduction curve as the specification prints it:
    PET * 1 / (1 + (h / h50))^3, the cube taken of the whole bracket. *)
Definition spec_curve (pet h h50 : Q) : Q := pet * (1 / (1 + h / h50) ^ 3).

(** The curve the code evaluates: PET * 1 / (1 + (h / h50)^3). *)
Definition code_curve (pet h h50 : Q) : Q := pet * (1 / (1 + (h / h50) ^ 3)).

End AET.

(** ** dpLGAR/agents/SyntheticAgent.py *)

Module SyntheticAgent.
Import Py.

(** The entries of the OmegaConf configuration that [__init__] reads,
    and the three it writes ([None] while unset). *)
Record DictConfig : Type := {
  local_rank : Q;
  subcycle_length : Q;          (* cfg.models.subcycle_length, seconds *)
  forcing_resolution : Q;       (* cfg.models.forcing_resolution, seconds *)
  hr_to_sec : Q;                (* cfg.conversions.hr_to_sec *)
  minibatch : Q;                (* cfg.models.hyperparameters.minibatch *)
  subcycle_length_h : option Q;
  forcing_resolution_h : option Q;
  num_subcycles : option Z
}.

(** Lines 39-47 of [__init__]: "Configuring subcycles". *)
Definition configure_subcycles (cfg : DictConfig) : result DictConfig :=
  inv <- truediv 1 (hr_to_sec cfg) ;;
  let sl_h := Float64.mul (subcycle_length cfg) inv in
  fr_h <- truediv (forcing_resolution cfg) (hr_to_sec cfg) ;;
  ratio <- truediv fr_h sl_h ;;
  Ok {| local_rank := local_rank cfg;
        subcycle_length := subcycle_length cfg;
        forcing_resolution := forcing_resolution cfg;
        hr_to_sec := hr_to_sec cfg;
        minibatch := minibatch cfg;
        subcycle_length_h := Some sl_h;
        forcing_resolution_h := Some fr_h;
        num_subcycles := Some (int ratio) |}.

(** What the loop of [run] does, in order. *)
Inductive event : Type :=
| Forward (i : nat)       (* self.model(i, x.squeeze()) *)
| ChangeMass              (* self.mass_balance.change_mass(self.model) *)
| Sleep                   (* time.sleep(0.01) *)
| ReportMass              (* self.mass_balance.report_mass(self.model) *)
| SaveData.               (* self.save_data(y_hat_) *)

Global Instance event_eq_dec : EqDecision event.
Proof. solve_decision. Defined.

Section WithModel.

(** [dpLGAR.data.Data], [dpLGAR.modelzoo.SyntheticLGAR] and
    [dpLGAR.modelzoo.physics.MassBalance] are not among the sources at
    hand; the agent is embedded over them. *)
Variable X Y : Type.                 (* one forcing row, one observation *)
Variable Model : Type.               (* state of SyntheticLGAR *)
Variable MassBalance : Type.         (* state of the global ledger *)
Variable Data : DictConfig -> result (list (X * Y)).
Variable SyntheticLGAR : DictConfig -> result Model.
Variable new_MassBalance : DictConfig -> Model -> result MassBalance.
Variable forward : nat -> list X -> Model -> result (Q * Model).
Variable change_mass : MassBalance -> Model -> result MassBalance.
Variable report_mass : MassBalance -> Model -> result unit.
Variable save_data : DictConfig -> list Q -> result unit.

(** [DataLoader(data, batch_size, shuffle=False)]: consecutive batches
    of [batch_size] items, the last one possibly shorter. *)
Fixpoint batches_fuel {A} (fuel batch_size : nat) (l : list A) : list (list A) :=
  match fuel, l with
  | O, _ | _, [] => []
  | S fuel', _ :: _ => take batch_size l :: batches_fuel fuel' batch_size (drop batch_size l)
  end.

Definition DataLoader {A} (data : list A) (batch_size : Z) : result (list (list A)) :=
  if (batch_size <=? 0)%Z then Raise ValueError
  else Ok (batches_fuel (length data) (Z.to_nat batch_size) data).

Record agent : Type := {
  cfg : DictConfig;
  rank : Z;
  hourly_mini_batch : Z;
  data_loader : list (list (X * Y));
  model : Model;
  mass_balance : MassBalance;
  current_epoch : nat
}.

Definition __init__ (cfg0 : DictConfig) : result agent :=
  let rank0 := int (local_rank cfg0) in
  cfg1 <- configure_subcycles cfg0 ;;
  let hmb := int (Float64.mul (minibatch cfg1) 24) in
  data <- Data cfg1 ;;
  loader <- DataLoader data hmb ;;
  mdl <- SyntheticLGAR cfg1 ;;
  mb <- new_MassBalance cfg1 mdl ;;
  Ok {| cfg := cfg1; rank := rank0; hourly_mini_batch := hmb;
        data_loader := loader; model := mdl; mass_balance := mb;
        current_epoch := 0 |}.

(** The mutable part of the agent during [run], with the two output
    vectors [y_hat_] and [y_t_] (index [i] written at iteration [i]). *)
Record run_state : Type := {
  rs_model : Model;
  rs_mass_balance : MassBalance;
  y_hat_ : list Q;
  y_t_ : list (list Y)
}.

(** One iteration of the [for] loop of [run]. *)
Definition iteration (i : nat) (batch : list (X * Y)) (st : run_state)
  : traced event run_state :=
  _ <~ emit (Forward i) ;;
  out <~ lift (forward i (batch.*1) (rs_model st)) ;;
  let '(runoff, mdl) := out in
  let y_hat' := <[i := runoff]> (y_hat_ st) in
  let y_t' := <[i := batch.*2]> (y_t_ st) in
  _ <~ emit ChangeMass ;;
  mb <~ lift (change_mass (rs_mass_balance st) mdl) ;;
  _ <~ emit Sleep ;;
  tret {| rs_model := mdl; rs_mass_balance := mb; y_hat_ := y_hat'; y_t_ := y_t' |}.

(** [for i, (x, y_t) in enumerate(self.data_loader)], from index [i]. *)
Fixpoint loop (i : nat) (loader : list (list (X * Y))) (st : run_state)
  : traced event run_state :=
  match loader with
  | [] => tret st
  | batch :: rest =>
      st' <~ iteration i batch st ;;
      loop (S i) rest st'
  end.

(** [run], without the asynchronous [KeyboardInterrupt] branch. *)
Definition run (a : agent) : traced event agent :=
  let n := length (data_loader a) in
  let st0 := {| rs_model := model a; rs_mass_balance := mass_balance a;
                y_hat_ := replicate n 0; y_t_ := replicate n [] |} in
  st <~ loop 0 (data_loader a) st0 ;;
  _ <~ emit ReportMass ;;
  _ <~ lift (report_mass (rs_mass_balance st) (rs_model st)) ;;
  _ <~ emit SaveData ;;
  _ <~ lift (save_data (cfg a) (y_hat_ st)) ;;
  tret {| cfg := cfg a; rank := rank a;
          hourly_mini_batch := hourly_mini_batch a;
          data_loader := data_loader a;
          model := rs_model st;
          mass_balance := rs_mass_balance st;
          current_epoch := current_epoch a |}.

(** The model and the ledger after the batches of [loader]: [change_mass]
    applied once after each forward pass, to the ledger left by the batch
    before. *)
Fixpoint ledger_after (i : nat) (loader : list (list (X * Y)))
    (mdl : Model) (mb : MassBalance) : result (Model * MassBalance) :=
  match loader with
  | [] => Ok (mdl, mb)
  | batch :: rest =>
      out <- forward i (batch.*1) mdl ;;
      mb' <- change_mass mb (snd out) ;;
      ledger_after (S i) rest (snd out) mb'
  end.

(** The forcing rows a run consumes, and the subcycles they stand for:
    every row is one outer timestep of [num_subcycles] subcycles. *)
Definition forcing_rows (a : agent) : nat := length (concat (data_loader a)).

Definition subcycles_of_run (a : agent) : option Z :=
  n ← num_subcycles (cfg a); Some (n * Z.of_nat (forcing_rows a))%Z.

Definition count_event (e : event) (tr : list event) : nat :=
  length (filter (fun e' => e' = e) tr).

End WithModel.

Arguments cfg {X Y Model MassBalance} a.
Arguments rank {X Y Model MassBalance} a.
Arguments hourly_mini_batch {X Y Model MassBalance} a.
Arguments data_loader {X Y Model MassBalance} a.
Arguments model {X Y Model MassBalance} a.
Arguments mass_balance {X Y Model MassBalance} a.
Arguments current_epoch {X Y Model MassBalance} a.
Arguments rs_model {Y Model MassBalance} r.
Arguments rs_mass_balance {Y Model MassBalance} r.
Arguments y_hat_ {Y Model MassBalance} r.
Arguments y_t_ {Y Model MassBalance} r.
Arguments __init__ {X Y Model MassBalance} Data SyntheticLGAR new_MassBalance cfg0.
Arguments iteration {X Y Model MassBalance} forward change_mass i batch st.
Arguments loop {X Y Model MassBalance} forward change_mass i loader st.
Arguments run {X Y Model MassBalance} forward change_mass report_mass save_data a.
Arguments ledger_after {X Y Model MassBalance} forward change_mass i loader mdl mb.
Arguments forcing_rows {X Y Model MassBalance} a.
Arguments subcycles_of_run {X Y Model MassBalance} a.

(** The events of [n] complete loop iterations, the first with index [i]. *)
Fixpoint iterations_trace (i n : nat) : list event :=
  match n with
  | O => []
  | S n' => Forward i :: ChangeMass :: Sleep :: iterations_trace (S i) n'
  end.

End SyntheticAgent.

(** ** lgartorch/data/Data.py *)

Module Data.
Import Py.

(** A pandas column: numeric ([float64]) or of strings ([object]). *)
Inductive column : Type :=
| Float64 (v : list Q)
| Object (v : list string).

(** A pandas frame: column label to column. *)
Abbreviation DataFrame := (gmap string column).

(** Keys of the dictionaries built from a column's [.values]. *)
Inductive key : Type :=
| KNum (q : Q)
| KStr (s : string).

Global Instance Q_eq_dec : EqDecision Q.
Proof. solve_decision. Defined.

Global Instance key_eq_dec : EqDecision key.
Proof. solve_decision. Defined.

Global Instance key_countable : Countable key.
Proof.
  refine (inj_countable'
    (fun k => match k with
              | KNum q => inl (Qnum q, Qden q)
              | KStr s => inr s
              end)
    (fun c => match c with
              | inl (n, d) => KNum (n # d)
              | inr s => KStr s
              end) _).
  intros [[n d]|s]; reflexivity.
Defined.

(** The values an attribute of a [Data] object can hold. *)
Inductive value : Type :=
| VFrame (df : DataFrame)
| VTensor (t : list Q)              (* 1-D tensor *)
| VMatrix (t : list (list Q))       (* 2-D tensor, a list of rows *)
| VDict (d : gmap key nat).

(** An instance: its attribute dictionary.  Neither [Data] nor
    [torch.utils.data.Dataset] defines class-level data attributes. *)
Abbreviation object := (gmap string value).

Definition getattr (self : object) (name : string) : result value :=
  match self !! name with
  | Some v => Ok v
  | None => Raise (AttributeError name)
  end.

(** The configuration entries [Data] reads. *)
Record DictConfig : Type := {
  device : string;
  forcing_file : string;          (* cfg.data.forcing_file *)
  soil_params_file : string;      (* cfg.data.soil_params_file *)
  wilting_point_psi : Q;          (* cfg.data.wilting_point_psi *)
  frozen_factor : Q               (* cfg.constants.frozen_factor *)
}.

(** Method calls and log records issued while a method of [Data] runs. *)
Inductive call : Type :=
| Call_read_df (file : string)
| Call_generate_soil_metrics
| Log_error (file detail : string).

Global Instance call_eq_dec : EqDecision call.
Proof. solve_decision. Defined.

(** *** pathlib, pandas and torch primitives *)

Definition slash : Ascii.ascii := "/"%char.
Definition dot : Ascii.ascii := "."%char.

Fixpoint index_of (c : Ascii.ascii) (l : list Ascii.ascii) : option nat :=
  match l with
  | a :: r => if Ascii.eqb a c then Some O else S <$> index_of c r
  | [] => None
  end.

(** The pieces of a path between its slashes; [cur] holds the piece
    being read, reversed. *)
Fixpoint split_path (l cur : list Ascii.ascii) : list (list Ascii.ascii) :=
  match l with
  | a :: r => if Ascii.eqb a slash then rev cur :: split_path r [] else split_path r (a :: cur)
  | [] => [rev cur]
  end.

(** A piece that [Path] keeps: neither empty nor a single dot. *)
Definition is_component (p : list Ascii.ascii) : bool :=
  match p with
  | [] => false
  | [c] => negb (Ascii.eqb c dot)
  | _ => true
  end.

(** [Path(file).name], reversed: the last component that [Path]
    keeps (POSIX paths). *)
Definition rev_name (file : string) : list Ascii.ascii :=
  match last (List.filter is_component (split_path (String.list_ascii_of_string file) [])) with
  | Some p => rev p
  | None => []
  end.

(** [Path(file).suffix]: from the last dot of the final component,
    unless that dot is its first or its last character. *)
Definition suffix (file : string) : string :=
  let rn := rev_name file in
  match index_of dot rn with
  | Some j =>
      if (0 <? j)%nat && (S j <? length rn)%nat
      then String.string_of_list_ascii (rev (take (S j) rn))
      else ""%string
  | None => ""%string
  end.

(** [pd.read_csv]: the file system maps a path to the frame pandas
    parses from it. *)
Definition read_csv (fs : gmap string DataFrame) (file : string) : result DataFrame :=
  match fs !! file with
  | Some df => Ok df
  | None => Raise FileNotFoundError
  end.

(** [df[label]]. *)
Definition df_getitem (df : DataFrame) (label : string) : result column :=
  match df !! label with
  | Some c => Ok c
  | None => Raise KeyError
  end.

(** [column.values] as dictionary keys. *)
Definition values (c : column) : list key :=
  match c with
  | Float64 v => KNum <$> v
  | Object v => KStr <$> v
  end.

(** [torch.tensor(column.values)]: a column of strings is refused, with
    [TypeError] when pandas hands over an array of objects. *)
Definition torch_tensor (c : column) : result (list Q) :=
  match c with
  | Float64 v => Ok v
  | Object _ => Raise TypeError
  end.

Definition same_length (n : nat) (rows : list (list Q)) : bool :=
  forallb (fun r => (length r =? n)%nat) rows.

(** [torch.stack(rows)]: all rows must have one size. *)
Definition torch_stack (rows : list (list Q)) : result (list (list Q)) :=
  match rows with
  | [] => Raise RuntimeError
  | r :: _ => if same_length (length r) rows then Ok rows else Raise RuntimeError
  end.

(** [{v: idx for idx, v in enumerate(values)}], counting from [i]. *)
Fixpoint enumerate_dict (i : nat) (vs : list key) (d : gmap key nat) : gmap key nat :=
  match vs with
  | [] => d
  | v :: rest => enumerate_dict (S i) rest (<[v := i]> d)
  end.

(** [d[k]] on a Python dict. *)
Definition dict_getitem (d : gmap key nat) (k : key) : result nat :=
  match d !! k with
  | Some i => Ok i
  | None => Raise KeyError
  end.

(** An integer index into a dimension of size [n], negative ones
    counting from the end. *)
Definition normalize_index (n : nat) (i : Z) : result nat :=
  if ((0 <=? i) && (i <? Z.of_nat n))%Z then Ok (Z.to_nat i)
  else if ((- Z.of_nat n <=? i) && (i <? 0))%Z then Ok (Z.to_nat (i + Z.of_nat n))
  else Raise IndexError.

(** [v[index, :]]. *)
Definition getitem_row (v : value) (index : Z) : result (list Q) :=
  match v with
  | VMatrix rows =>
      i <- normalize_index (length rows) index ;;
      match rows !! i with
      | Some r => Ok r
      | None => Raise IndexError
      end
  | VTensor _ => Raise IndexError     (* too many indices *)
  | VFrame _ => Raise KeyError
  | VDict _ => Raise TypeError        (* unhashable slice *)
  end.

(** [len(v)]. *)
Definition len (v : value) : nat :=
  match v with
  | VMatrix rows => length rows
  | VTensor t => length t
  | VFrame df =>
      match map_to_list df with
      | (_, Float64 c) :: _ => length c
      | (_, Object c) :: _ => length c
      | [] => O
      end
  | VDict d => size d
  end.

(** [t[r][i]] of a 2-D tensor. *)
Definition item (t : list (list Q)) (r i : nat) : option Q :=
  row ← t !! r; row !! i.


Definition as_frame (v : value) : result DataFrame :=
  match v with
  | VFrame df => Ok df
  | _ => Raise TypeError
  end.

Definition column_map : gmap key nat :=
  list_to_map
    [ (KStr "theta_e", 0%nat); (KStr "theta_r", 1%nat); (KStr "theta_wp", 2%nat);
      (KStr "alpha", 3%nat); (KStr "n", 4%nat); (KStr "m", 5%nat);
      (KStr "k_sat", 6%nat); (KStr "ksat_cm_per_h", 7%nat);
      (KStr "bc_lambda", 8%nat); (KStr "bc_psib_cm", 9%nat);
      (KStr "h_min_cm", 10%nat) ].

(** *** The class *)

Section WithUtils.

(** From [lgartorch/models/physics/utils.py], not among the sources
    at hand; they act elementwise on tensors. *)
Variable calc_theta_from_h : Q -> Q -> Q -> Q -> Q -> Q -> Q.
Variable calc_bc_lambda : Q -> Q.
Variable calc_bc_psib : Q -> Q -> Q.
Variable calc_h_min_cm : Q -> Q -> Q.

Variable fs : gmap string DataFrame.

Definition read_df (file : string) : traced call DataFrame :=
  _ <~ emit (Call_read_df file) ;;
  let sfx := suffix file in
  if String.eqb sfx ".csv" then lift (read_csv fs file)
  else if String.eqb sfx ".dat" then lift (read_csv fs file)
  else
    _ <~ emit (Log_error file "has an invalid type") ;;
    lift (Raise ValueError).

(** The eleven rows stacked by [generate_soil_metrics], from the six
    tensors read off the soils frame. *)
Definition soil_rows (cfg : DictConfig) (alpha n m theta_e theta_r k_sat : list Q)
  : list (list Q) :=
  let h := wilting_point_psi cfg in
  let ksat_cm_per_h := (fun k => k * frozen_factor cfg) <$> k_sat in
  let theta_wp :=
    zip_with (fun '(a, n', m', te) tr => calc_theta_from_h h a n' m' te tr)
             (zip (zip (zip alpha n) m) theta_e) theta_r in
  let bc_lambda := calc_bc_lambda <$> n in
  let bc_psib_cm := zip_with calc_bc_psib alpha n in
  let h_min_cm := zip_with calc_h_min_cm bc_lambda bc_psib_cm in
  [theta_e; theta_r; theta_wp; alpha; n; m; k_sat; ksat_cm_per_h;
   bc_lambda; bc_psib_cm; h_min_cm].

Definition generate_soil_metrics (self : object) (cfg : DictConfig)
  : traced call (list (list Q)) :=
  _ <~ emit Call_generate_soil_metrics ;;
  lift (
    soils_df <- (v <- getattr self "soils_df" ;; as_frame v) ;;
    alpha <- (c <- df_getitem soils_df "alpha(cm^-1)" ;; torch_tensor c) ;;
    n <- (c <- df_getitem soils_df "n" ;; torch_tensor c) ;;
    m <- (c <- df_getitem soils_df "m" ;; torch_tensor c) ;;
    theta_e <- (c <- df_getitem soils_df "theta_e" ;; torch_tensor c) ;;
    theta_r <- (c <- df_getitem soils_df "theta_r" ;; torch_tensor c) ;;
    k_sat <- (c <- df_getitem soils_df "Ks(cm/h)" ;; torch_tensor c) ;;
    torch_stack (soil_rows cfg alpha n m theta_e theta_r k_sat)).

Definition __init__ (cfg : DictConfig) : traced call object :=
  let self : object := ∅ in
  forcing_df <~ read_df (forcing_file cfg) ;;
  let self := <["forcing_df" := VFrame forcing_df]> self in
  time_values <~ lift (c <- df_getitem forcing_df "Time" ;; Ok (values c)) ;;
  let self := <["timestep_map" := VDict (enumerate_dict 0 time_values ∅)]> self in
  precip <~ lift (c <- df_getitem forcing_df "P(mm/h)" ;; torch_tensor c) ;;
  pet <~ lift (c <- df_getitem forcing_df "PET(mm/h)" ;; torch_tensor c) ;;
  x <~ lift (torch_stack [precip; pet]) ;;
  let self := <["x" := VMatrix x]> self in
  soils_df <~ read_df (soil_params_file cfg) ;;
  let self := <["soils_df" := VFrame soils_df]> self in
  texture_values <~ lift (c <- df_getitem soils_df "Texture" ;; Ok (values c)) ;;
  let self := <["texture_map" := VDict (enumerate_dict 0 texture_values ∅)]> self in
  c <~ generate_soil_metrics self cfg ;;
  let self := <["c" := VMatrix c]> self in
  let self := <["column_map" := VDict column_map]> self in
  tret self.

Definition __getitem__ (self : object) (index : Z)
  : traced call (list Q * list Q) :=
  lift (
    x <- getattr self "x" ;;
    xi <- getitem_row x index ;;
    y <- getattr self "y" ;;
    yi <- getitem_row y index ;;
    Ok (xi, yi)).

Definition __len__ (self : object) : traced call nat :=
  lift (x <- getattr self "x" ;; Ok (len x)).

End WithUtils.

End Data.

(** ** src/data/read.py *)

Module Read.
Import Py.

Definition DataError : exn := UserDefined "DataError".

Section WithUtils.

(** From [src/physics/LGAR/utils.py], not among the sources at hand:
    each takes the whole frame. *)
Variable calc_theta_from_h : Q -> Data.DataFrame -> Data.column.
Variable calc_bc_lambda_psib_cm : Data.DataFrame -> Data.DataFrame.
Variable calc_h_min_cm : Data.DataFrame -> Data.DataFrame.

Variable fs : gmap string Data.DataFrame.

Definition read_soils_file (soil_params_file : string) (wilting_point_psi_cm : Q)
  : result Data.DataFrame :=
  match fs !! soil_params_file with
  | None => Raise DataError                       (* not soils_file_path.is_file() *)
  | Some parsed =>
      let sfx := Data.suffix soil_params_file in
      if String.eqb sfx ".csv" || String.eqb sfx ".dat" then
        let df := <["theta_wp" := calc_theta_from_h wilting_point_psi_cm parsed]> parsed in
        let df := calc_bc_lambda_psib_cm df in
        let df := calc_h_min_cm df in
        Ok df
      else Raise DataError
  end.

End WithUtils.

End Read.

(** ** src/LGARBmi.py *)

Module LGARBmi.
Import Py.

(** The attributes [finalize] touches; [__init__] sets
    [_start_time = 0.0] and [_end_time = None]. *)
Record bmi : Type := {
  _start_time : Q;
  _end_time : option Q
}.

Definition __init__ : bmi := {| _start_time := 0; _end_time := None |}.

(** A Python object a bare name can evaluate to. *)
Inductive pyobject : Type :=
| Local (name : string)
| Global (name : string)
| Builtin (name : string).

(** The pieces of a formatted log message. *)
Inductive piece : Type :=
| Text (s : string)
| Fixed6 (x : Q)             (* a float under the format [:.6f] *)
| Str (o : pyobject).        (* [str(o)] *)

Inductive event : Type :=
| SetEndTime (t : Q)
| LogInfo (message : list piece).

(** The names bound at module level in [LGARBmi.py]. *)
Definition module_globals : list string :=
  [ "Bmi"; "logging"; "OmegaConf"; "DictConfig"; "time"; "torch"; "tqdm";
    "Tuple"; "read_forcing_data"; "LGAR"; "log"; "LGARBmi" ]%string.

(** The local names of [finalize]. *)
Definition finalize_locals : list string := [ "self" ]%string.

Section WithBuiltins.

(** The names of the interpreter's [builtins] module. *)
Variable builtins : list string.

(** Evaluation of a bare name inside [finalize]: local, then global,
    then builtin scope. *)
Definition load_name (name : string) : result pyobject :=
  if bool_decide (name ∈ finalize_locals) then Ok (Local name)
  else if bool_decide (name ∈ module_globals) then Ok (Global name)
  else if bool_decide (name ∈ builtins) then Ok (Builtin name)
  else Raise (NameError name).

(** [log.info(message)]: the name [log] is looked up, then the message
    is built, then the record is logged. *)
Definition log_info (message : result (list piece)) : traced event unit :=
  _ <~ lift (load_name "log") ;;
  msg <~ lift message ;;
  emit (LogInfo msg).

(** The message [f"<label>{name}<unit>"]. *)
Definition fstring (label name unit_ : string) : result (list piece) :=
  v <- load_name name ;;
  Ok [Text label; Str v; Text unit_].

(** [finalize]; [now] is the reading of [time.perf_counter()].  The
    line breaks of the messages are left out. *)
Definition finalize (self : bmi) (now : Q) : traced event bmi :=
  _ <~ lift (load_name "time") ;;
  _ <~ lift (load_name "self") ;;
  _ <~ emit (SetEndTime now) ;;
  let self := {| _start_time := _start_time self; _end_time := Some now |} in
  _ <~ log_info
         (Ok [Text "---------------------- Simulation Summary  ------------------------ "]) ;;
  _ <~ log_info
         (_ <- load_name "self" ;;
          Ok [Text "Time (sec)                 = ";
              Fixed6 (now - _start_time self); Text " "]) ;;
  _ <~ log_info
         (Ok [Text "-------------------------- Mass balance ------------------- "]) ;;
  _ <~ log_info (fstring "initial water in soil      = " "volstart" " cm") ;;
  _ <~ log_info (fstring "total precipitation input  = " "volprecip" "cm") ;;
  _ <~ log_info (fstring "total infiltration         = " "volin" " cm") ;;
  _ <~ log_info (fstring "final water in soil        = " "volend" " cm") ;;
  _ <~ log_info (fstring "water remaining on surface = " "volon" " cm") ;;
  _ <~ log_info (fstring "surface runoff             = " "volrunoff" " cm") ;;
  _ <~ log_info (fstring "total percolation          = " "volrech" " cm") ;;
  _ <~ log_info (fstring "total AET                  = " "volAET" " cm") ;;
  _ <~ log_info (fstring "total PET                  = " "volPET" " cm") ;;
  _ <~ log_info (fstring "global balance             = " "global_error_cm" " cm") ;;
  tret self.

End WithBuiltins.

(** The lines of the closure report: those that print a ledger value. *)
Definition is_report_line (e : event) : bool :=
  match e with
  | LogInfo [Text _; Str _; Text _] => true
  | _ => false
  end.

(** The builtin functions of Python 3. *)
Definition builtin_functions : list string :=
  [ "abs"; "aiter"; "all"; "anext"; "any"; "ascii"; "bin"; "bool";
    "breakpoint"; "bytearray"; "bytes"; "callable"; "chr"; "classmethod";
    "compile"; "complex"; "delattr"; "dict"; "dir"; "divmod"; "enumerate";
    "eval"; "exec"; "filter"; "float"; "format"; "frozenset"; "getattr";
    "globals"; "hasattr"; "hash"; "help"; "hex"; "id"; "input"; "int";
    "isinstance"; "issubclass"; "iter"; "len"; "list"; "locals"; "map";
    "max"; "memoryview"; "min"; "next"; "object"; "oct"; "open"; "ord";
    "pow"; "print"; "property"; "range"; "repr"; "reversed"; "round";
    "set"; "setattr"; "slice"; "sorted"; "staticmethod"; "str"; "sum";
    "super"; "tuple"; "type"; "vars"; "zip"; "__import__" ]%string.

End LGARBmi.

(** ** The wetting-front ledger of the specification *)

Module Ledger.

(** Modelled from the spec: the wetting front and the merge of the
    wetting-front ledger (section 4.2) and the column storage of the
    mass-balance ledger (section 4.5); the classes that implement them
    are not among the sources at hand. *)
Record front : Type := {
  depth : Q;       (* cm below the surface *)
  theta : Q        (* volumetric moisture content *)
}.

(** Modelled from the spec: "sum over all fronts of theta x the depth
    span each controls"; a front controls the span between the front
    above it ([above], the surface at 0) and its own depth. *)
Fixpoint storage_below (above : Q) (fronts : list front) : Q :=
  match fronts with
  | [] => 0
  | f :: rest => theta f * (depth f - above) + storage_below (depth f) rest
  end.

Definition storage (fronts : list front) : Q := storage_below 0 fronts.

(** Modelled from the spec: [merge(shallow, deep)] "combines two
    adjacent fronts into one at the deeper front's depth, with moisture
    content set to the thickness-weighted average of the two fronts'
    water content over the depth span each previously occupied". *)
Definition merge (above : Q) (shallow deep : front) : front :=
  {| depth := depth deep;
     theta := (theta shallow * (depth shallow - above)
               + theta deep * (depth deep - depth shallow))
              / (depth deep - above) |}.

(** The merge of the fronts at positions [i] and [i+1] of a ledger;
    the shallow front is removed. *)
Fixpoint merge_at (above : Q) (i : nat) (fronts : list front) {struct fronts}
  : list front :=
  match fronts with
  | shallow :: rest =>
      match i, rest with
      | O, deep :: rest' => merge above shallow deep :: rest'
      | S i', _ => shallow :: merge_at (depth shallow) i' rest
      | O, [] => fronts
      end
  | [] => []
  end.

(** Front depths strictly increasing from [above] downward. *)
Fixpoint ordered (above : Q) (fronts : list front) : Prop :=
  match fronts with
  | [] => True
  | f :: rest => above < depth f /\ ordered (depth f) rest
  end.

End Ledger.


(** ** torch scalars outside the finite numbers *)

Module Torch.

(** A [float64] scalar: a finite number, an infinity or [nan].  The
    arithmetic of finite numbers is exact, and a zero carries no sign. *)
Inductive scalar : Type :=
| Finite (q : Q)
| Inf (negative : bool)
| NaN.

Definition negative (q : Q) : bool := negb (Qle_bool 0 q).

(** [a / b]. *)
Definition div (a b : scalar) : scalar :=
  match a, b with
  | NaN, _ | _, NaN => NaN
  | Finite x, Finite y =>
      if Qeq_bool y 0 then
        if Qeq_bool x 0 then NaN else Inf (negative x)
      else Finite (x / y)
  | Finite _, Inf _ => Finite 0
  | Inf s, Finite y => Inf (xorb s (negative y))
  | Inf _, Inf _ => NaN
  end.

(** [torch.pow(a, 3.0)]. *)
Definition pow3 (a : scalar) : scalar :=
  match a with
  | Finite x => Finite (AET.pow3 x)
  | Inf s => Inf s
  | NaN => NaN
  end.

(** [a + b]. *)
Definition add (a b : scalar) : scalar :=
  match a, b with
  | NaN, _ | _, NaN => NaN
  | Finite x, Finite y => Finite (x + y)
  | Finite _, Inf s | Inf s, Finite _ => Inf s
  | Inf s, Inf t => if Bool.eqb s t then Inf s else NaN
  end.

(** [a * b]. *)
Definition mul (a b : scalar) : scalar :=
  match a, b with
  | NaN, _ | _, NaN => NaN
  | Finite x, Finite y => Finite (x * y)
  | Finite x, Inf s | Inf s, Finite x =>
      if Qeq_bool x 0 then NaN else Inf (xorb s (negative x))
  | Inf s, Inf t => Inf (xorb s t)
  end.

(** [torch.clamp(a, min=lo, max=hi)] with finite bounds:
    [min(max(a, lo), hi)], and [nan] stays [nan]. *)
Definition clamp (a : scalar) (lo hi : Q) : scalar :=
  match a with
  | Finite x => Finite (AET.clamp x lo hi)
  | Inf false => Finite hi
  | Inf true => Finite (Qmin lo hi)
  | NaN => NaN
  end.

End Torch.

(** ** aet.py on torch scalars *)

Module AETSpecial.
Import Torch.

Section WithRetentionRelation.

Variable calc_theta_from_h : Q -> Q -> Q -> Q -> Q -> Q -> Q.
Variable calc_se_from_theta : Q -> Q -> Q -> Q.
Variable calc_h_from_se : Q -> Q -> Q -> Q -> Q.

(** [calculate_aet] from the head [psi_wp_cm] on, with the values the
    two divisions give when their divisor is zero. *)
Definition calculate_aet (gp : AET.global_params)
    (pet psi_cm theta_e theta_r m alpha n : Q) : scalar :=
  let psi_wp_cm :=
    AET.psi_wp_cm calc_theta_from_h calc_se_from_theta calc_h_from_se
      gp theta_e theta_r m alpha n in
  let h_ratio := add (Finite 1) (pow3 (div (Finite psi_cm) (Finite psi_wp_cm))) in
  let actual_ET_demand_ := mul (Finite pet) (div (Finite 1) h_ratio) in
  clamp actual_ET_demand_ 0 pet.

End WithRetentionRelation.

End AETSpecial.

(** ** Well-formed input files of [Data] *)

Module WellFormed.

(** The six numeric columns of a soils frame, all of one length. *)
Definition soil_columns (soils_df : Data.DataFrame)
    (alpha n m theta_e theta_r k_sat : list Q) : Prop :=
  soils_df !! "alpha(cm^-1)" = Some (Data.Float64 alpha)
  /\ soils_df !! "n" = Some (Data.Float64 n)
  /\ soils_df !! "m" = Some (Data.Float64 m)
  /\ soils_df !! "theta_e" = Some (Data.Float64 theta_e)
  /\ soils_df !! "theta_r" = Some (Data.Float64 theta_r)
  /\ soils_df !! "Ks(cm/h)" = Some (Data.Float64 k_sat).

(** A path that [read_df] accepts by its extension. *)
Definition accepted_suffix (file : string) : Prop :=
  Data.suffix file = ".csv"%string \/ Data.suffix file = ".dat"%string.

End WellFormed.

(** ** The outputs of a run of the synthetic agent *)

Module SyntheticOutputs.
Import Py.

(** The builtin [KeyboardInterrupt], carried by name: the one exception
    that [SyntheticAgent.run] catches. *)
Definition KeyboardInterrupt : exn := UserDefined "KeyboardInterrupt".

Section WithModel.

Variable X Y Model MassBalance : Type.
Variable forward : nat -> list X -> Model -> result (Q * Model).
Variable change_mass : MassBalance -> Model -> result MassBalance.

(** The runoff values returned by the successive forward passes over the
    batches of [loader], the first with index [i]. *)
Fixpoint runoffs (i : nat) (loader : list (list (X * Y)))
    (mdl : Model) (mb : MassBalance) : result (list Q) :=
  match loader with
  | [] => Ok []
  | batch :: rest =>
      out <- forward i (batch.*1) mdl ;;
      mb' <- change_mass mb (snd out) ;;
      rs <- runoffs (S i) rest (snd out) mb' ;;
      Ok (fst out :: rs)
  end.

End WithModel.

Arguments runoffs {X Y Model MassBalance} forward change_mass i loader mdl mb.

End SyntheticOutputs.

(** ** src/data/read.py: the forcing reader *)

Module ReadForcing.
Import Py.

(** [read_forcing_data]: the [Time] values and the precipitation and PET
    series of the forcing file; [fs] maps a path to the frame pandas
    parses from it. *)
Definition read_forcing_data (fs : gmap string Data.DataFrame) (forcing_file : string)
  : traced Data.call (list Data.key * list Q * list Q) :=
  match fs !! forcing_file with
  | None =>                                  (* not forcing_file_path.is_file() *)
      _ <~ emit (Data.Log_error forcing_file "doesn't exist") ;;
      lift (Raise Read.DataError)
  | Some df =>
      lift (
        time <- (c <- Data.df_getitem df "Time" ;; Ok (Data.values c)) ;;
        precip <- (c <- Data.df_getitem df "P(mm/h)" ;; Data.torch_tensor c) ;;
        pet <- (c <- Data.df_getitem df "PET(mm/h)" ;; Data.torch_tensor c) ;;
        Ok (time, precip, pet))
  end.

End ReadForcing.

(** ** Objects with attributes that methods update in place *)

Module PyState.
Import Py.

(** A method body: it may update the state and it may raise; an update made
    before an exception stays. *)
Definition stateful (S A : Type) : Type := S -> S * result A.

Definition sret {S A} (a : A) : stateful S A := fun s => (s, Ok a).

Definition sbind {S A B} (m : stateful S A) (k : A -> stateful S B) : stateful S B :=
  fun s =>
    match m s with
    | (s', Ok a) => k a s'
    | (s', Raise e) => (s', Raise e)
    end.

Definition slift {S A} (r : result A) : stateful S A := fun s => (s, r).

Definition sget {S} : stateful S S := fun s => (s, Ok s).

Definition smodify {S} (f : S -> S) : stateful S unit := fun s => (f s, Ok tt).

End PyState.

Notation "x <-- c1 ;; c2" := (PyState.sbind c1 (fun x => c2))
  (at level 100, c1 at next level, right associativity).

(** ** src/LGARBmi.py: the state of the adapter and its time loop *)

Module BmiAdapter.
Import Py PyState.

(** The configuration entries the adapter reads, and the one it writes. *)
Record DictConfig : Type := {
  device : string;
  forcing_file : string;       (* cfg.data.forcing_file *)
  endtime : Q;                 (* cfg.data.endtime *)
  timestep : Q;                (* cfg.data.timestep *)
  variables : option (option Z)
    (* the node cfg.variables, if there is one, and nsteps in it *)
}.

(** The builtin [AssertionError], carried by name. *)
Definition AssertionError : exn := UserDefined "AssertionError".

Section WithLGAR.

(** [src.physics.Lgar.LGAR] is not among the sources at hand, nor is the
    text of a configuration; the adapter is embedded over them. *)
Variable Model : Type.
Variable LGAR : DictConfig -> result Model.
Variable sft_coupled : Model -> bool.
Variable frozen_factor_hydraulic_conductivity : Model -> result Model.
Variable fs : gmap string Data.DataFrame.

(** Python's [__debug__]: false under [python -O], which skips [assert]. *)
Variable __debug__ : bool.

(** The values an attribute of the adapter can hold. *)
Inductive value : Type :=
| VNone
| VFloat (q : Q)
| VInt (z : Z)
| VStr (s : string)
| VTensor (t : list Q)
| VKeys (l : list Data.key)
| VValues (d : gmap string (option (list Q)))
| VUnits (d : gmap string (option string))
| VGrid (d : gmap Z string)
| VModel (m : Model)
| VCfg (c : DictConfig).

(** An instance: its attribute dictionary. *)
Abbreviation object := (gmap string value).

(** [OmegaConf.create(eval(s))]: the string is evaluated inside the
    method, where [self] is in scope, so the evaluation may also change
    attributes of the instance. *)
Variable eval_config : string -> stateful object DictConfig.

Definition getattr (name : string) : stateful object value :=
  fun self =>
    match self !! name with
    | Some v => (self, Ok v)
    | None => (self, Raise (AttributeError name))
    end.

Definition setattr (name : string) (v : value) : stateful object unit :=
  smodify (fun self : object => <[name := v]> self).

(** [LGARBmi()]: the attributes [__init__] sets. *)
Definition __init__ : object :=
  <["_time_units" := VStr "s"]>
  (<["timestep" := VNone]>
  (<["_end_time" := VNone]>
  (<["_start_time" := VFloat 0]>
  (<["_grid_type" := VGrid ∅]>
  (<["_var_grid_id" := VInt 0]>
  (<["_var_loc" := VStr "node"]>
  (<["_var_units" := VUnits ∅]>
  (<["_values" := VValues ∅]>
  (<["device" := VNone]>
  (<["_model" := VNone]> ∅)))))))))).

Definition input_values : gmap string (option (list Q)) :=
  <["soil_depth_wetting_fronts" := None]>
  (<["soil_moisture_wetting_fronts" := None]>
  (<["potential_evapotranspiration_rate" := None]>
  (<["precipitation_rate" := None]> ∅))).

Definition input_units : gmap string (option string) :=
  <["soil_depth_wetting_fronts" := None]>
  (<["soil_moisture_wetting_fronts" := None]>
  (<["potential_evapotranspiration_rate" := Some "(mm / h)"%string]>
  (<["precipitation_rate" := Some "(mm / h)"%string]> ∅))).

(** [x.shape[0]] of an attribute value. *)
Definition shape0 (v : value) : result Z :=
  match v with
  | VTensor t => Ok (Z.of_nat (length t))
  | _ => Raise (AttributeError "shape")
  end.

(** [initialize(config_file)]; the two closing [log.debug] lines are
    left out. *)
Definition initialize (config_file : string) : stateful object unit :=
  cfg <-- eval_config config_file ;;
  _ <-- setattr "cfg" (VCfg cfg) ;;
  _ <-- setattr "_grid_type" (VGrid {[ 0%Z := "scalar"%string ]}) ;;
  _ <-- setattr "device" (VStr (device cfg)) ;;
  mdl <-- slift (LGAR cfg) ;;
  _ <-- setattr "_model" (VModel mdl) ;;
  forcing <-- slift (snd (ReadForcing.read_forcing_data fs (forcing_file cfg))) ;;
  let '(dates, precipitation, PET) := forcing in
  _ <-- setattr "dates" (VKeys dates) ;;
  _ <-- setattr "precipitation" (VTensor precipitation) ;;
  _ <-- setattr "PET" (VTensor PET) ;;
  _ <-- setattr "_values" (VValues input_values) ;;
  _ <-- setattr "_var_units" (VUnits input_units) ;;
  _ <-- setattr "_end_time" (VFloat (endtime cfg)) ;;
  _ <-- setattr "timestep" (VFloat (timestep cfg)) ;;
  ratio <-- slift (truediv (endtime cfg) (timestep cfg)) ;;
  let n := int ratio in
  _ <-- setattr "nsteps" (VInt n) ;;
  (* self.cfg.variables.nsteps = self.nsteps *)
  _ <-- match variables cfg with
        | Some _ =>
            setattr "cfg" (VCfg {| device := device cfg; forcing_file := forcing_file cfg;
                                   endtime := endtime cfg; timestep := timestep cfg;
                                   variables := Some (Some n) |})
        | None => slift (Raise (AttributeError "variables"))
        end ;;
  (* assert (self.nsteps <= int(self.x.shape[0])) *)
  if __debug__ then
    _ <-- getattr "nsteps" ;;
    x <-- getattr "x" ;;
    rows <-- slift (shape0 x) ;;
    if (n <=? rows)%Z then sret tt else slift (Raise AssertionError)
  else sret tt.

(** [update()]. *)
Definition update : stateful object unit :=
  m <-- getattr "_model" ;;
  match m with
  | VModel mdl =>
      if sft_coupled mdl then
        mdl' <-- slift (frozen_factor_hydraulic_conductivity mdl) ;;
        setattr "_model" (VModel mdl')
      else sret tt
  | _ => slift (Raise (AttributeError "sft_coupled"))
  end.

(** [set_value(name, src)]: the body of the method is its docstring. *)
Definition set_value (name : string) (src : Q) : stateful object unit := sret tt.

(** [tensor[index]] of an attribute value. *)
Definition getitem (v : value) (index : Z) : result Q :=
  match v with
  | VTensor t =>
      i <- Data.normalize_index (length t) index ;;
      match t !! i with
      | Some q => Ok q
      | None => Raise IndexError
      end
  | _ => Raise TypeError
  end.

(** The body of the loop of [update_until]: it reads element [time], not
    element [i], of both series. *)
Definition update_until_body (time : Z) : stateful object unit :=
  p <-- getattr "precipitation" ;;
  pt <-- slift (getitem p time) ;;
  _ <-- set_value "precipitation_rate" pt ;;
  e <-- getattr "PET" ;;
  et <-- slift (getitem e time) ;;
  _ <-- set_value "potential_evapotranspiration_rate" et ;;
  update.

Fixpoint repeat_body (n : nat) (body : stateful object unit) : stateful object unit :=
  match n with
  | O => sret tt
  | S n' => _ <-- body ;; repeat_body n' body
  end.

(** [update_until(time)]: [for i in range(time)]. *)
Definition update_until (time : Z) : stateful object unit :=
  repeat_body (Z.to_nat time) (update_until_body time).

(** [get_value_ptr(name)]: [self._values[name]]. *)
Definition get_value_ptr (name : string) : stateful object (option (list Q)) :=
  v <-- getattr "_values" ;;
  match v with
  | VValues d =>
      match d !! name with
      | Some t => sret t
      | None => slift (Raise KeyError)
      end
  | _ => slift (Raise TypeError)
  end.

(** [get_end_time()]. *)
Definition get_end_time : stateful object value := getattr "_end_time".

End WithLGAR.

Arguments VNone {Model}.
Arguments VFloat {Model} q.
Arguments VInt {Model} z.
Arguments VStr {Model} s.
Arguments VTensor {Model} t.
Arguments VKeys {Model} l.
Arguments VValues {Model} d.
Arguments VUnits {Model} d.
Arguments VGrid {Model} d.
Arguments VCfg {Model} c.
Arguments VModel {Model} m.

End BmiAdapter.

(** ** lgartorch/agents/DifferentiableLGAR.py *)

Module DifferentiableLGAR.
Import Py.

(** The builtin [NotImplementedError], carried by name. *)
Definition NotImplementedError : exn := UserDefined "NotImplementedError".

(** The configuration entries the agent reads (those of [Data] among
    them), and the four it writes. *)
Record DictConfig : Type := {
  data_cfg : Data.DictConfig;
  endtime : Q;                    (* cfg.models.endtime *)
  forcing_resolution : Q;         (* cfg.models.forcing_resolution *)
  hr_to_sec : Q;                  (* cfg.conversions.hr_to_sec *)
  epochs : Z;                     (* cfg.models.hyperparameters.epochs *)
  warmup : Z;                     (* cfg.data.hyperparameters.warmup *)
  endtime_s : option Q;
  forcing_resolution_h : option Q;
  time_per_step : option Q;
  nsteps : option Z
}.

(** The first statements of [__init__]: the four derived entries. *)
Definition configure_steps (cfg : DictConfig) : result DictConfig :=
  let end_s := Float64.mul (endtime cfg) (hr_to_sec cfg) in
  fr_h <- truediv (forcing_resolution cfg) (hr_to_sec cfg) ;;
  let per_step := Float64.mul fr_h (hr_to_sec cfg) in
  ratio <- truediv end_s per_step ;;
  Ok {| data_cfg := data_cfg cfg; endtime := endtime cfg;
        forcing_resolution := forcing_resolution cfg; hr_to_sec := hr_to_sec cfg;
        epochs := epochs cfg; warmup := warmup cfg;
        endtime_s := Some end_s;
        forcing_resolution_h := Some fr_h;
        time_per_step := Some per_step;
        nsteps := Some (int ratio) |}.

(** A positional argument of a call. *)
Inductive argument : Type :=
| ACfg (c : DictConfig)
| AParameter (p : list Q).       (* a tensor such as model.alpha *)

(** What [train_one_epoch] does, in order. *)
Inductive event : Type :=
| ZeroGrad          (* self.optimizer.zero_grad() *)
| Forward           (* self.model(x, self.data.c) *)
| LogNSE            (* log.info(trained NSE) *)
| Backward          (* loss.backward() *)
| Step.             (* self.optimizer.step() *)

Global Instance event_eq_dec : EqDecision event.
Proof. solve_decision. Defined.

(** [t[start:]] on the first dimension. *)
Definition slice_from {A} (start : Z) (t : list A) : list A :=
  if (0 <=? start)%Z then drop (Z.to_nat start) t
  else drop (Z.to_nat (Z.of_nat (length t) + start)) t.

Section WithModel.

(** The helpers of [utils.py], the model [dpLGAR], the loss, the optimizer
    and [calculate_nse] are not among the sources at hand. *)
Variable calc_theta_from_h : Q -> Q -> Q -> Q -> Q -> Q -> Q.
Variable calc_bc_lambda : Q -> Q.
Variable calc_bc_psib : Q -> Q -> Q.
Variable calc_h_min_cm : Q -> Q -> Q.
Variable fs : gmap string Data.DataFrame.

Variable Model : Type.                      (* the model with its optimizer *)
Variable dpLGAR : DictConfig -> result Model.
Variable alpha n ksat : Model -> list Q.
Variable forward : Model -> list (list Q) -> list (list Q) -> result (list (list Q)).
Variable train_mode : Model -> Model.        (* self.model.train() *)
Variable zero_grad : Model -> Model.
Variable calculate_nse : list (list Q) -> list (list Q) -> result Q.
Variable criterion : list (list Q) -> list (list Q) -> result Q.
Variable backward : Model -> Q -> result Model.
Variable step : Model -> result Model.

(** A call of [Data] with positional arguments: [Data.__init__] of [lgartorch/data/Data.py] has
    the parameters [(self, cfg)]. *)
Definition new_Data (args : list argument) : result Data.object :=
  match args with
  | [ACfg c] =>
      snd (Data.__init__ calc_theta_from_h calc_bc_lambda calc_bc_psib
             calc_h_min_cm fs (data_cfg c))
  | [AParameter _] => Raise (AttributeError "forcing_file")
  | _ => Raise TypeError
  end.

Record agent : Type := {
  cfg : DictConfig;
  model : Model;
  data : Data.object;
  current_epoch : Z
}.

Definition __init__ (cfg0 : DictConfig) : result agent :=
  cfg1 <- configure_steps cfg0 ;;
  mdl <- dpLGAR cfg1 ;;
  d <- new_Data [ACfg cfg1; AParameter (alpha mdl); AParameter (n mdl);
                 AParameter (ksat mdl)] ;;
  Ok {| cfg := cfg1; model := mdl; data := d; current_epoch := 0 |}.

(** [validate(y_hat_, y_t_)]. *)
Definition validate (c : DictConfig) (mdl : Model) (y_hat_ y_t_ : list (list Q))
  : traced event Model :=
  let y_hat := slice_from (warmup c) y_hat_ in
  let y_t := slice_from (warmup c) y_t_ in
  _ <~ lift (calculate_nse y_hat y_t) ;;
  _ <~ emit LogNSE ;;
  loss <~ lift (criterion y_hat y_t) ;;
  _ <~ emit Backward ;;
  mdl1 <~ lift (backward mdl loss) ;;
  _ <~ emit Step ;;
  lift (step mdl1).

(** The loop of [train_one_epoch] over the items [indices] of the data
    set, fetched one by one ([batch_size=1], [shuffle=False]). *)
Fixpoint epoch_loop (c : DictConfig) (d : Data.object) (indices : list nat)
    (mdl : Model) : traced event Model :=
  match indices with
  | [] => tret mdl
  | i :: rest =>
      item <~ lift (snd (Data.__getitem__ d (Z.of_nat i))) ;;
      let '(x, y_t) := item in
      _ <~ emit ZeroGrad ;;
      let mdl := zero_grad mdl in
      cv <~ lift (Data.getattr d "c") ;;
      cm <~ lift (match cv with
                  | Data.VMatrix t => Ok t
                  | _ => Raise TypeError
                  end) ;;
      _ <~ emit Forward ;;
      y_hat <~ lift (forward mdl [x] cm) ;;
      mdl' <~ validate c mdl y_hat [y_t] ;;
      epoch_loop c d rest mdl'
  end.

(** [train_one_epoch()]: the loader walks the indices [0 .. len(data)-1]. *)
Definition train_one_epoch (a : agent) : traced event agent :=
  len <~ lift (snd (Data.__len__ (data a))) ;;
  mdl <~ epoch_loop (cfg a) (data a) (seq 0 len) (model a) ;;
  tret {| cfg := cfg a; model := mdl; data := data a;
          current_epoch := current_epoch a |}.

Fixpoint train_epochs (k : nat) (a : agent) : traced event agent :=
  match k with
  | O => tret a
  | S k' =>
      a1 <~ train_one_epoch a ;;
      train_epochs k' {| cfg := cfg a1; model := model a1; data := data a1;
                         current_epoch := (current_epoch a1 + 1)%Z |}
  end.

(** [train()]: [for epoch in range(1, epochs + 1)]. *)
Definition train (a : agent) : traced event agent :=
  train_epochs (Z.to_nat (epochs (cfg a)))
    {| cfg := cfg a; model := train_mode (model a); data := data a;
       current_epoch := current_epoch a |}.

(** [run()], without the asynchronous [KeyboardInterrupt] branch. *)
Definition run (a : agent) : traced event agent := train a.

(** [finalize()]. *)
Definition finalize (a : agent) : result unit := Raise NotImplementedError.

End WithModel.

Arguments cfg {Model} a.
Arguments model {Model} a.
Arguments data {Model} a.
Arguments current_epoch {Model} a.

End DifferentiableLGAR.
(** ** Concrete stand-ins used to exercise the embedded code *)

Module Sample.

(** A retention relation with rational values: the van Genuchten shape
    at n = m = 1.  It instantiates the helpers of [utils.py] where a
    statement is run on numbers. *)
Definition calc_theta_from_h (h alpha n m theta_e theta_r : Q) : Q :=
  theta_r + (theta_e - theta_r) / (1 + alpha * h).

Definition calc_se_from_theta (theta theta_e theta_r : Q) : Q :=
  (theta - theta_r) / (theta_e - theta_r).

Definition calc_h_from_se (se alpha m n : Q) : Q :=
  (1 / alpha) * (1 / se - 1).

Definition gp : AET.global_params :=
  {| AET.relative_moisture_at_which_PET_equals_AET := 3 # 4;
     AET.wilting_point_psi_cm := 15495 |}.


Definition theta_e : Q := 1 # 2.
Definition theta_r : Q := 1 # 10.
Definition alpha : Q := 1 # 100.

(** The head h_50 of this soil. *)
Definition h50 : Q :=
  Eval vm_compute in
    Qred (AET.psi_wp_cm calc_theta_from_h calc_se_from_theta calc_h_from_se
            gp theta_e theta_r 1 alpha 1).

Definition aet (pet psi_cm : Q) : Q :=
  AET.calculate_aet calc_theta_from_h calc_se_from_theta calc_h_from_se
    gp pet psi_cm theta_e theta_r 1 alpha 1.



(** The double nearest to 1/24, and the double that 300 * (1 / 3600)
    yields. *)
Definition one_24th : Q := 6004799503160661 # 144115188075855872.
Definition one_12th : Q := 6004799503160661 # 72057594037927936.

(** A run of the synthetic agent: two hourly forcing rows in batches of
    one, five-minute subcycles; the ledger stand-in counts its updates. *)
Definition cfg0 : SyntheticAgent.DictConfig :=
  {| SyntheticAgent.local_rank := 0;
     SyntheticAgent.subcycle_length := 300;
     SyntheticAgent.forcing_resolution := 3600;
     SyntheticAgent.hr_to_sec := 3600;
     SyntheticAgent.minibatch := one_24th;
     SyntheticAgent.subcycle_length_h := None;
     SyntheticAgent.forcing_resolution_h := None;
     SyntheticAgent.num_subcycles := None |}.

(** Five-minute forcing in ten-second subcycles. *)
Definition cfg_ten_seconds : SyntheticAgent.DictConfig :=
  {| SyntheticAgent.local_rank := 0;
     SyntheticAgent.subcycle_length := 10;
     SyntheticAgent.forcing_resolution := 300;
     SyntheticAgent.hr_to_sec := 3600;
     SyntheticAgent.minibatch := one_24th;
     SyntheticAgent.subcycle_length_h := None;
     SyntheticAgent.forcing_resolution_h := None;
     SyntheticAgent.num_subcycles := None |}.

Definition forcing : list ((Q * Q) * Q) :=
  [ ((1 # 10, 0), 0); ((0, 1 # 20), 0) ].

Definition Dataset (_ : SyntheticAgent.DictConfig) : Py.result (list ((Q * Q) * Q)) :=
  Py.Ok forcing.
Definition SyntheticLGAR (_ : SyntheticAgent.DictConfig) : Py.result unit := Py.Ok tt.
Definition new_MassBalance (_ : SyntheticAgent.DictConfig) (_ : unit) : Py.result nat :=
  Py.Ok O.
Definition forward (_ : nat) (_ : list (Q * Q)) (mdl : unit) : Py.result (Q * unit) :=
  Py.Ok (0, mdl).
Definition change_mass (updates : nat) (_ : unit) : Py.result nat := Py.Ok (S updates).
Definition report_mass (_ : nat) (_ : unit) : Py.result unit := Py.Ok tt.
Definition save_data (_ : SyntheticAgent.DictConfig) (_ : list Q) : Py.result unit :=
  Py.Ok tt.

Definition init : Py.result (SyntheticAgent.agent (Q * Q) Q unit nat) :=
  SyntheticAgent.__init__ Dataset SyntheticLGAR new_MassBalance cfg0.

Definition run (a : SyntheticAgent.agent (Q * Q) Q unit nat) :=
  SyntheticAgent.run forward change_mass report_mass save_data a.

(** The agent [init] builds, the events of its run and the agent the
    run leaves. *)
Definition agent0 : SyntheticAgent.agent (Q * Q) Q unit nat :=
  {| SyntheticAgent.cfg :=
       {| SyntheticAgent.local_rank := 0;
          SyntheticAgent.subcycle_length := 300;
          SyntheticAgent.forcing_resolution := 3600;
          SyntheticAgent.hr_to_sec := 3600;
          SyntheticAgent.minibatch := one_24th;
          SyntheticAgent.subcycle_length_h := Some one_12th;
          SyntheticAgent.forcing_resolution_h := Some 1;
          SyntheticAgent.num_subcycles := Some 12%Z |};
     SyntheticAgent.rank := 0;
     SyntheticAgent.hourly_mini_batch := 1;
     SyntheticAgent.data_loader := [ [((1 # 10, 0), 0)]; [((0, 1 # 20), 0)] ];
     SyntheticAgent.model := tt;
     SyntheticAgent.mass_balance := 0%nat;
     SyntheticAgent.current_epoch := 0%nat |}.

Definition trace0 : list SyntheticAgent.event :=
  [ SyntheticAgent.Forward 0; SyntheticAgent.ChangeMass; SyntheticAgent.Sleep;
    SyntheticAgent.Forward 1; SyntheticAgent.ChangeMass; SyntheticAgent.Sleep;
    SyntheticAgent.ReportMass; SyntheticAgent.SaveData ].

Definition agent1 : SyntheticAgent.agent (Q * Q) Q unit nat :=
  {| SyntheticAgent.cfg := SyntheticAgent.cfg agent0;
     SyntheticAgent.rank := 0;
     SyntheticAgent.hourly_mini_batch := 1;
     SyntheticAgent.data_loader := SyntheticAgent.data_loader agent0;
     SyntheticAgent.model := tt;
     SyntheticAgent.mass_balance := 2%nat;
     SyntheticAgent.current_epoch := 0%nat |}.

(** A forcing file of three hours and a soils file of two textures. *)
Definition forcing_df : Data.DataFrame :=
  list_to_map
    [ ("Time"%string, Data.Object [ "2016-10-14 14:00:00"; "2016-10-14 15:00:00";
                                    "2016-10-14 16:00:00" ]%string);
      ("P(mm/h)"%string, Data.Float64 [ 0; 1 # 10; 0 ]);
      ("PET(mm/h)"%string, Data.Float64 [ 1 # 20; 0; 1 # 25 ]) ].

Definition soils_df : Data.DataFrame :=
  list_to_map
    [ ("Texture"%string, Data.Object [ "Sand"; "Clay" ]%string);
      ("theta_r"%string, Data.Float64 [ 1 # 20; 1 # 10 ]);
      ("theta_e"%string, Data.Float64 [ 2 # 5; 1 # 2 ]);
      ("alpha(cm^-1)"%string, Data.Float64 [ 1 # 25; 1 # 100 ]);
      ("n"%string, Data.Float64 [ 3; 5 # 4 ]);
      ("m"%string, Data.Float64 [ 2 # 3; 1 # 5 ]);
      ("Ks(cm/h)"%string, Data.Float64 [ 20; 1 # 20 ]) ].

Definition fs : gmap string Data.DataFrame :=
  list_to_map [ ("data/forcing.csv"%string, forcing_df);
                ("data/soils.dat"%string, soils_df) ].

Definition data_cfg : Data.DictConfig :=
  {| Data.device := "cpu";
     Data.forcing_file := "data/forcing.csv";
     Data.soil_params_file := "data/soils.dat";
     Data.wilting_point_psi := 15495;
     Data.frozen_factor := 1 # 2 |}.

(** Rational stand-ins for the Brooks-Corey helpers of [utils.py]. *)
Definition calc_bc_lambda (n : Q) : Q := n - 1.
Definition calc_bc_psib (alpha n : Q) : Q := (1 / alpha) * (n / (n + 1)).
Definition calc_h_min_cm (bc_lambda bc_psib_cm : Q) : Q := bc_psib_cm * (1 + bc_lambda).

Definition data_init : Py.traced Data.call Data.object :=
  Data.__init__ calc_theta_from_h calc_bc_lambda calc_bc_psib calc_h_min_cm fs data_cfg.

(** The instance [data_init] builds. *)
Definition data : Data.object :=
  <["column_map" := Data.VDict Data.column_map]>
  (<["c" := Data.VMatrix
              (Data.soil_rows calc_theta_from_h calc_bc_lambda calc_bc_psib
                 calc_h_min_cm data_cfg
                 [ 1 # 25; 1 # 100 ] [ 3; 5 # 4 ] [ 2 # 3; 1 # 5 ]
                 [ 2 # 5; 1 # 2 ] [ 1 # 20; 1 # 10 ] [ 20; 1 # 20 ])]>
  (<["texture_map" :=
       Data.VDict (Data.enumerate_dict 0 [ Data.KStr "Sand"; Data.KStr "Clay" ] ∅)]>
  (<["soils_df" := Data.VFrame soils_df]>
  (<["x" := Data.VMatrix [ [ 0; 1 # 10; 0 ]; [ 1 # 20; 0; 1 # 25 ] ]]>
  (<["timestep_map" :=
       Data.VDict (Data.enumerate_dict 0
                     [ Data.KStr "2016-10-14 14:00:00"; Data.KStr "2016-10-14 15:00:00";
                       Data.KStr "2016-10-14 16:00:00" ] ∅)]>
  (<["forcing_df" := Data.VFrame forcing_df]> ∅)))))).

Definition texture_map : gmap Data.key nat :=
  Data.enumerate_dict 0 [ Data.KStr "Sand"; Data.KStr "Clay" ] ∅.

Definition data_trace : list Data.call :=
  [ Data.Call_read_df "data/forcing.csv"; Data.Call_read_df "data/soils.dat";
    Data.Call_generate_soil_metrics ].

(** Three fronts of one layer, and the clock reading of a finished run. *)
Definition fronts : list Ledger.front :=
  [ {| Ledger.depth := 2; Ledger.theta := 2 # 5 |};
    {| Ledger.depth := 5; Ledger.theta := 3 # 10 |};
    {| Ledger.depth := 20; Ledger.theta := 1 # 5 |} ].

Definition now : Q := 125 # 10.

End Sample.



(** ** Further stand-ins: a broken soils file, a failing forward pass, an
    adapter instance and a training agent *)

Module Scenario.

(** The soils file of [Sample] with its column [n] missing, and an
    instance that holds it. *)
Definition soils_df_without_n : Data.DataFrame := delete "n"%string Sample.soils_df.

Definition data_without_n : Data.object :=
  <["soils_df" := Data.VFrame soils_df_without_n]> ∅.

(** The configuration of [Sample] with a minibatch of 1/64, less than an
    hour of forcing per batch. *)
Definition cfg_small : SyntheticAgent.DictConfig :=
  {| SyntheticAgent.local_rank := 0;
     SyntheticAgent.subcycle_length := 300;
     SyntheticAgent.forcing_resolution := 3600;
     SyntheticAgent.hr_to_sec := 3600;
     SyntheticAgent.minibatch := 1 # 64;
     SyntheticAgent.subcycle_length_h := None;
     SyntheticAgent.forcing_resolution_h := None;
     SyntheticAgent.num_subcycles := None |}.

Definition cfg_small_configured : SyntheticAgent.DictConfig :=
  {| SyntheticAgent.local_rank := 0;
     SyntheticAgent.subcycle_length := 300;
     SyntheticAgent.forcing_resolution := 3600;
     SyntheticAgent.hr_to_sec := 3600;
     SyntheticAgent.minibatch := 1 # 64;
     SyntheticAgent.subcycle_length_h := Some Sample.one_12th;
     SyntheticAgent.forcing_resolution_h := Some 1;
     SyntheticAgent.num_subcycles := Some 12%Z |}.

(** A forward pass that raises on the second batch. *)
Definition RuntimeError : Py.exn := Py.UserDefined "RuntimeError".

Definition forward_failing (i : nat) (_ : list (Q * Q)) (mdl : unit)
  : Py.result (Q * unit) :=
  if Nat.eqb i 1 then Py.Raise RuntimeError else Py.Ok (0, mdl).

(** An adapter over a model that is its own [sft_coupled] flag. *)
Definition bmi_cfg : BmiAdapter.DictConfig :=
  {| BmiAdapter.device := "cpu";
     BmiAdapter.forcing_file := "data/forcing.csv";
     BmiAdapter.endtime := 3;
     BmiAdapter.timestep := 1;
     BmiAdapter.variables := Some None |}.

(** A configuration string that evaluates to [bmi_cfg] and touches
    nothing. *)
Definition eval_config (_ : string)
  : PyState.stateful (gmap string (BmiAdapter.value bool)) BmiAdapter.DictConfig :=
  PyState.sret bmi_cfg.
Definition LGAR (_ : BmiAdapter.DictConfig) : Py.result bool := Py.Ok false.
Definition sft_coupled (mdl : bool) : bool := mdl.
Definition frozen_factor_hydraulic_conductivity (mdl : bool) : Py.result bool := Py.Ok mdl.

Definition initialize :=
  BmiAdapter.initialize bool LGAR Sample.fs true eval_config.
Definition update_until :=
  BmiAdapter.update_until bool sft_coupled frozen_factor_hydraulic_conductivity.

(** A fresh instance, and one that holds a model and the forcing series. *)
Definition bmi0 : gmap string (BmiAdapter.value bool) := BmiAdapter.__init__ bool.

Definition bmi1 : gmap string (BmiAdapter.value bool) :=
  <["PET" := BmiAdapter.VTensor [ 1 # 20; 0; 1 # 25 ]]>
  (<["precipitation" := BmiAdapter.VTensor [ 0; 1 # 10; 0 ]]>
  (<["_model" := BmiAdapter.VModel false]> bmi0)).



(** A training agent over the instance of [Sample]; its model does
    nothing. *)
Definition train_cfg : DifferentiableLGAR.DictConfig :=
  {| DifferentiableLGAR.data_cfg := Sample.data_cfg;
     DifferentiableLGAR.endtime := 3;
     DifferentiableLGAR.forcing_resolution := 3600;
     DifferentiableLGAR.hr_to_sec := 3600;
     DifferentiableLGAR.epochs := 2;
     DifferentiableLGAR.warmup := 0;
     DifferentiableLGAR.endtime_s := None;
     DifferentiableLGAR.forcing_resolution_h := None;
     DifferentiableLGAR.time_per_step := None;
     DifferentiableLGAR.nsteps := None |}.

Definition train_cfg_configured : DifferentiableLGAR.DictConfig :=
  {| DifferentiableLGAR.data_cfg := Sample.data_cfg;
     DifferentiableLGAR.endtime := 3;
     DifferentiableLGAR.forcing_resolution := 3600;
     DifferentiableLGAR.hr_to_sec := 3600;
     DifferentiableLGAR.epochs := 2;
     DifferentiableLGAR.warmup := 0;
     DifferentiableLGAR.endtime_s := Some 10800;
     DifferentiableLGAR.forcing_resolution_h := Some 1;
     DifferentiableLGAR.time_per_step := Some 3600;
     DifferentiableLGAR.nsteps := Some 3%Z |}.

(** Seven hours of forcing at a resolution of 63 seconds. *)
Definition train_cfg_63 : DifferentiableLGAR.DictConfig :=
  {| DifferentiableLGAR.data_cfg := Sample.data_cfg;
     DifferentiableLGAR.endtime := 7;
     DifferentiableLGAR.forcing_resolution := 63;
     DifferentiableLGAR.hr_to_sec := 3600;
     DifferentiableLGAR.epochs := 2;
     DifferentiableLGAR.warmup := 0;
     DifferentiableLGAR.endtime_s := None;
     DifferentiableLGAR.forcing_resolution_h := None;
     DifferentiableLGAR.time_per_step := None;
     DifferentiableLGAR.nsteps := None |}.

Definition dpLGAR (_ : DifferentiableLGAR.DictConfig) : Py.result unit := Py.Ok tt.
Definition parameter (_ : unit) : list Q := [ 1 # 25; 1 # 100 ].
Definition forward (_ : unit) (x _ : list (list Q)) : Py.result (list (list Q)) := Py.Ok x.
Definition loss (_ _ : list (list Q)) : Py.result Q := Py.Ok 0.
Definition backward (mdl : unit) (_ : Q) : Py.result unit := Py.Ok mdl.
Definition step (mdl : unit) : Py.result unit := Py.Ok mdl.

Definition new_agent : Py.result (DifferentiableLGAR.agent unit) :=
  DifferentiableLGAR.__init__ Sample.calc_theta_from_h Sample.calc_bc_lambda
    Sample.calc_bc_psib Sample.calc_h_min_cm Sample.fs unit dpLGAR
    parameter parameter parameter train_cfg.

Definition training_agent : DifferentiableLGAR.agent unit :=
  {| DifferentiableLGAR.cfg := train_cfg_configured;
     DifferentiableLGAR.model := tt;
     DifferentiableLGAR.data := Sample.data;
     DifferentiableLGAR.current_epoch := 0 |}.

Definition train_one_epoch :=
  DifferentiableLGAR.train_one_epoch unit forward (fun m => m) loss loss backward step.
Definition train :=
  DifferentiableLGAR.train unit forward (fun m => m) (fun m => m) loss loss backward step.

(** Frame-wise stand-ins for the helpers [read_soils_file] calls. *)
Definition calc_theta_from_h_df (_ : Q) (df : Data.DataFrame) : Data.column :=
  Data.Float64 [].
Definition calc_bc_lambda_psib_cm (df : Data.DataFrame) : Data.DataFrame := df.
Definition calc_h_min_cm_df (df : Data.DataFrame) : Data.DataFrame := df.

Definition read_soils_file :=
  Read.read_soils_file calc_theta_from_h_df calc_bc_lambda_psib_cm calc_h_min_cm_df
    Sample.fs.

End Scenario.
(** * Properties *)

(** ** Inversion of the two monads *)

Lemma bind_ok_inv {A B} (r : Py.result A) (k : A -> Py.result B) (b : B) :
  Py.bind r k = Py.Ok b -> exists a, r = Py.Ok a /\ k a = Py.Ok b.
Proof. destruct r as [a|e]; cbn; [eauto|discriminate]. Qed.

Lemma tbind_ok_inv {E A B} (m : Py.traced E A) (k : A -> Py.traced E B)
    (tr : list E) (b : B) :
  Py.tbind m k = (tr, Py.Ok b) ->
  exists tr1 a tr2, m = (tr1, Py.Ok a) /\ k a = (tr2, Py.Ok b) /\ tr = tr1 ++ tr2.
Proof.
  destruct m as [tr1 [a|e]]; cbn; [|discriminate].
  destruct (k a) as [tr2 r] eqn:Hk. intros H. inversion H; subst.
  exists tr1, a, tr2. auto.
Qed.

Lemma lift_ok_inv {E A} (r : Py.result A) (tr : list E) (a : A) :
  Py.lift r = (tr, Py.Ok a) -> tr = [] /\ r = Py.Ok a.
Proof. unfold Py.lift. intros H. inversion H. auto. Qed.

(** ** Rounding to a double *)

Lemma pow2_pos (e : Z) : 0 < Float64.pow2 e.
Proof. unfold Float64.pow2. apply Qpower_0_lt. reflexivity. Qed.

Lemma pow2_minus (a b : Z) : Float64.pow2 (a - b) == Float64.pow2 a / Float64.pow2 b.
Proof. unfold Float64.pow2. apply Qpower_minus. discriminate. Qed.

Lemma pow2_le (a b : Z) : (a <= b)%Z -> Float64.pow2 a <= Float64.pow2 b.
Proof.
  intros H. unfold Float64.pow2. apply Qpower_le_compat_l; [exact H|discriminate].
Qed.

Lemma pow2_inject (a : Z) : (0 <= a)%Z -> inject_Z (2 ^ a) == Float64.pow2 a.
Proof. intros H. unfold Float64.pow2. rewrite Zpower_Qpower by exact H. reflexivity. Qed.

Lemma Qabs_ge_pow2_log2 (q : Q) :
  ~ q == 0 ->
  Float64.pow2 (Z.log2 (Z.abs (Qnum q)) - Z.log2 (Z.pos (Qden q)) - 1) <= Qabs q.
Proof.
  intros Hq. destruct q as [n d]. cbn [Qnum Qden].
  assert (Hn : (0 < Z.abs n)%Z).
  { destruct n; [exfalso; apply Hq; reflexivity|lia|lia]. }
  set (a := Z.log2 (Z.abs n)). set (b := Z.log2 (Z.pos d)).
  assert (Ha : (2 ^ a <= Z.abs n)%Z) by (apply Z.log2_spec; exact Hn).
  assert (Hb : (Z.pos d < 2 ^ (b + 1))%Z).
  { replace (b + 1)%Z with (Z.succ b) by lia. apply Z.log2_spec. lia. }
  assert (Ha0 : (0 <= a)%Z) by apply Z.log2_nonneg.
  assert (Hb0 : (0 <= b)%Z) by apply Z.log2_nonneg.
  replace (a - b - 1)%Z with (a - (b + 1))%Z by lia.
  rewrite pow2_minus, <- (pow2_inject a), <- (pow2_inject (b + 1)) by lia.
  assert (Habs : Qabs (n # d) == inject_Z (Z.abs n) / inject_Z (Z.pos d)).
  { unfold Qabs. rewrite (Qmake_Qdiv (Z.abs n) d). reflexivity. }
  rewrite Habs.
  assert (H1 : inject_Z (2 ^ a) <= inject_Z (Z.abs n)) by (rewrite <- Zle_Qle; exact Ha).
  assert (H2 : inject_Z (Z.pos d) <= inject_Z (2 ^ (b + 1)))
    by (rewrite <- Zle_Qle; lia).
  assert (H3 : 0 < inject_Z (Z.pos d)) by reflexivity.
  assert (H4 : 0 < inject_Z (2 ^ a)).
  { rewrite pow2_inject by lia. apply pow2_pos. }
  set (A := inject_Z (2 ^ a)) in *. set (B := inject_Z (2 ^ (b + 1))) in *.
  set (D := inject_Z (Z.pos d)) in *. set (N := inject_Z (Z.abs n)) in *.
  clearbody A B D N.
  apply Qle_shift_div_l; [exact H3|].
  assert (Ht : D / B <= 1) by (apply Qle_shift_div_r; lra).
  assert (E : A / B * D == A * (D / B)) by (field; lra).
  rewrite E. set (t := D / B) in *. clearbody t. nra.
Qed.

Lemma Qabs_ge_pow2_exponent (q : Q) :
  ~ q == 0 -> Float64.pow2 (Float64.exponent q - 1) <= Qabs q.
Proof.
  intros Hq. unfold Float64.exponent.
  set (e0 := (Z.log2 (Z.abs (Qnum q)) - Z.log2 (Z.pos (Qden q)))%Z).
  destruct (Qle_bool (Float64.pow2 e0) (Qabs q)) eqn:E.
  - apply Qle_bool_iff in E. apply Qle_trans with (Float64.pow2 e0); [|exact E].
    apply pow2_le. lia.
  - apply Qle_trans with (Float64.pow2 (e0 - 1)); [apply pow2_le; lia|].
    apply Qabs_ge_pow2_log2. exact Hq.
Qed.

Lemma round_half_even_nonzero (x : Q) :
  1 <= Qabs x -> Float64.round_half_even x <> 0%Z.
Proof.
  intros Hx. unfold Float64.round_half_even.
  pose proof (Qfloor_le x) as Hlo. pose proof (Qlt_floor x) as Hhi.
  set (f := Qfloor x) in *.
  assert (Hf1 : inject_Z (f + 1) == inject_Z f + 1).
  { rewrite inject_Z_plus. reflexivity. }
  rewrite Hf1 in Hhi.
  destruct (Qlt_le_dec x 0) as [Hneg|Hpos].
  - rewrite Qabs_neg in Hx by lra.
    assert (Hfle : (f <= -1)%Z).
    { apply Z.lt_succ_r. rewrite Zlt_Qlt. change (inject_Z (Z.succ (-1)%Z)) with 0. lra. }
    destruct (Z.eq_dec f (-1)%Z) as [E|E].
    + assert (Hx1 : Qcompare (x - inject_Z f) (1 # 2) = Lt).
      { apply -> Qlt_alt. rewrite E in Hlo |- *.
        change (inject_Z (-1)%Z) with (-1) in *. lra. }
      rewrite Hx1. lia.
    + destruct (Qcompare _ _); [destruct (Z.even f)| |]; lia.
  - rewrite Qabs_pos in Hx by exact Hpos.
    assert (Hfge : (1 <= f)%Z).
    { apply Z.lt_succ_r. rewrite Zlt_Qlt.
      replace (Z.succ f) with (f + 1)%Z by lia. rewrite Hf1.
      change (inject_Z 1) with 1. lra. }
    destruct (Qcompare _ _); [destruct (Z.even f)| |]; lia.
Qed.

(** Rounding sends zero, and nothing else, to zero. *)
Lemma round_zero (q : Q) : q == 0 -> Float64.round q = 0.
Proof.
  intros Hq. unfold Float64.round.
  apply Qeq_bool_iff in Hq. rewrite Hq. reflexivity.
Qed.

Lemma round_nonzero (q : Q) : ~ q == 0 -> ~ Float64.round q == 0.
Proof.
  intros Hq. unfold Float64.round.
  destruct (Qeq_bool q 0) eqn:E; [apply Qeq_bool_iff in E; contradiction|].
  set (s := (Float64.exponent q - 52)%Z). rewrite Qred_correct.
  assert (Hs : 0 < Float64.pow2 s) by apply pow2_pos.
  assert (Hm : Float64.round_half_even (q / Float64.pow2 s) <> 0%Z).
  { apply round_half_even_nonzero.
    assert (Habs : Qabs (q / Float64.pow2 s) == Qabs q / Float64.pow2 s).
    { unfold Qdiv. rewrite Qabs_Qmult.
      rewrite (Qabs_pos (/ Float64.pow2 s)); [reflexivity|].
      apply Qlt_le_weak, Qinv_lt_0_compat, Hs. }
    rewrite Habs. apply Qle_shift_div_l; [exact Hs|]. rewrite Qmult_1_l.
    apply Qle_trans with (Float64.pow2 (Float64.exponent q - 1));
      [apply pow2_le; subst s; lia|].
    apply Qabs_ge_pow2_exponent. exact Hq. }
  intros Hz. apply Qmult_integral in Hz as [Hz|Hz].
  - apply Hm. unfold Qeq in Hz. simpl in Hz. lia.
  - rewrite Hz in Hs. discriminate.
Qed.

Lemma mul_nonzero (x y : Q) : ~ x == 0 -> ~ y == 0 -> ~ Float64.mul x y == 0.
Proof.
  intros Hx Hy. apply round_nonzero. intros H.
  apply Qmult_integral in H as [H|H]; contradiction.
Qed.

Lemma div_nonzero (x y : Q) : ~ x == 0 -> ~ y == 0 -> ~ Float64.div x y == 0.
Proof.
  intros Hx Hy. apply round_nonzero. intros H. unfold Qdiv in H.
  apply Qmult_integral in H as [H|H]; [contradiction|].
  apply Hy. rewrite <- (Qinv_involutive y), H. reflexivity.
Qed.

Lemma moderate_nonzero (q : Q) : Float64.moderate q = true -> ~ q == 0.
Proof.
  unfold Float64.moderate. intros H Hq.
  apply andb_true_iff in H as [H _]. apply andb_true_iff in H as [_ H].
  apply Qle_bool_iff in H. rewrite Hq in H.
  pose proof (pow2_pos (-26)) as Hpos. change (Qabs 0) with 0 in H. lra.
Qed.

(** ** The AET extractor *)


Section AET_facts.

Variable calc_theta_from_h : Q -> Q -> Q -> Q -> Q -> Q -> Q.
Variable calc_se_from_theta : Q -> Q -> Q -> Q.
Variable calc_h_from_se : Q -> Q -> Q -> Q -> Q.

Local Abbreviation calculate_aet :=
  (AET.calculate_aet calc_theta_from_h calc_se_from_theta calc_h_from_se).
Local Abbreviation psi_wp_cm :=
  (AET.psi_wp_cm calc_theta_from_h calc_se_from_theta calc_h_from_se).
Local Abbreviation h_ratio :=
  (AET.h_ratio calc_theta_from_h calc_se_from_theta calc_h_from_se).
Local Abbreviation calculate_aet_scalar :=
  (AETSpecial.calculate_aet calc_theta_from_h calc_se_from_theta calc_h_from_se).


Lemma clamp_inside (x lo hi : Q) :
  lo <= x -> x <= hi -> AET.clamp x lo hi == x.
Proof.
  intros Hlo Hhi. unfold AET.clamp.
  destruct (Q.max_spec x lo) as [[? Hmax]|[? Hmax]];
    destruct (Q.min_spec (Qmax x lo) hi) as [[? Hmin]|[? Hmin]];
    rewrite Hmin; lra.
Qed.

Lemma cube_nonneg (x : Q) : 0 <= x -> 0 <= x ^ 3.
Proof.
  intros Hx.
  assert (Hcube : x ^ 3 == x * x * x) by (unfold Qpower; simpl; ring).
  rewrite Hcube.
  apply Qmult_le_0_compat; [apply Qmult_le_0_compat|]; assumption.
Qed.

(** For a non-negative demand and a reduction factor 1/d with d >= 1
    the reduced demand stays between 0 and the demand. *)
Lemma reduced_demand_between (pet d : Q) :
  0 <= pet -> 1 <= d -> 0 <= pet * (1 / d) /\ pet * (1 / d) <= pet.
Proof.
  intros Hpet Hd.
  assert (Hpos : 0 < d) by lra.
  assert (Hinv : 0 < / d) by (apply Qinv_lt_0_compat; exact Hpos).
  assert (Hone : d * / d == 1) by (apply Qmult_inv_r; lra).
  assert (Hle : / d <= 1).
  { apply Qnot_lt_le. intros Hgt.
    assert (1 * 1 < d * / d).
    { apply Qle_lt_trans with (d * 1); [|apply Qmult_lt_l; assumption].
      apply Qmult_le_compat_r; lra. }
    lra. }
  assert (Heq : pet * (1 / d) == pet * / d) by (unfold Qdiv; ring).
  rewrite Heq. clear Heq Hone. set (i := / d) in *. clearbody i.
  split; nra.
Qed.



(** C3, as the code has it.  For PET >= 0 and a head h50 that is not zero,
    the value returned by [calculate_aet] is PET * 1 / (1 + (h / h50)^3)
    clamped to [0, PET], the cube taken of the head ratio alone (where
    that denominator is not zero); h is the argument [psi_cm] and h50 is
    [psi_wp_cm], the head of the moisture half-way between field capacity
    and the wilting-point head.  When h / h50 >= 0 the clamp is idle and
    AET is the curve itself, and at h = h50 the demand is halved. *)
Theorem calculate_aet_curve (gp : AET.global_params)
    (pet psi_cm theta_e theta_r m alpha n : Q) :
  0 <= pet ->
  ~ psi_wp_cm gp theta_e theta_r m alpha n == 0 ->
  let h50 := psi_wp_cm gp theta_e theta_r m alpha n in
  let aet := calculate_aet gp pet psi_cm theta_e theta_r m alpha n in
  (~ 1 + (psi_cm / h50) ^ 3 == 0 ->
     aet == AET.clamp (AET.code_curve pet psi_cm h50) 0 pet)
  /\ (0 <= psi_cm / h50 -> aet == AET.code_curve pet psi_cm h50)
  /\ (psi_cm == h50 -> aet == pet * (1 # 2)).
Proof.
  intros Hpet Hnz h50 aet.
  assert (Hdef : aet == AET.clamp (AET.code_curve pet psi_cm h50) 0 pet)
    by reflexivity.
  assert (Hidle : 0 <= psi_cm / h50 -> aet == AET.code_curve pet psi_cm h50).
  { intros Hratio. rewrite Hdef. unfold AET.code_curve.
    pose proof (cube_nonneg _ Hratio) as Hcube.
    destruct (reduced_demand_between pet (1 + (psi_cm / h50) ^ 3) Hpet)
      as [H0 H1]; [lra|].
    apply clamp_inside; assumption. }
  split; [intros _; exact Hdef|]. split; [exact Hidle|].
  intros Heq.
  assert (Hone : psi_cm / h50 == 1).
  { rewrite Heq. unfold Qdiv. apply Qmult_inv_r. exact Hnz. }
  rewrite Hidle by (rewrite Hone; lra).
  unfold AET.code_curve. rewrite Hone. reflexivity.
Qed.

End AET_facts.



Lemma calculate_aet_curve_witness :
  0 <= 1 /\ ~ Sample.h50 == 0 /\ Sample.aet 1 Sample.h50 == 1 # 2.
Proof.
  split; [lra|]. split; [vm_compute; discriminate|].
  destruct (calculate_aet_curve Sample.calc_theta_from_h Sample.calc_se_from_theta
              Sample.calc_h_from_se Sample.gp 1 Sample.h50 Sample.theta_e
              Sample.theta_r 1 Sample.alpha 1) as (_ & _ & Hhalf);
    [lra|vm_compute; discriminate|].
  unfold Sample.aet. rewrite Hhalf.
  - reflexivity.
  - vm_compute. reflexivity.
Defined.

(** C3, as the specification prints it, fails: at h = h50 the code halves
    the demand, whereas PET * 1 / (1 + h / h50)^3 would leave an eighth. *)
Lemma calculate_aet_not_spec_curve :
  Sample.aet 1 Sample.h50 == 1 # 2
  /\ AET.spec_curve 1 Sample.h50 Sample.h50 == 1 # 8
  /\ ~ Sample.aet 1 Sample.h50 == AET.spec_curve 1 Sample.h50 Sample.h50.
Proof.
  split; [vm_compute; reflexivity|].
  split; [vm_compute; reflexivity|].
  vm_compute. discriminate.
Qed.

(** ** The synthetic agent *)

Lemma truediv_defined (a b : Q) :
  ~ b == 0 -> Py.truediv a b = Py.Ok (Float64.div a b).
Proof.
  intros Hb. unfold Py.truediv.
  destruct (Qeq_bool b 0) eqn:E; [|reflexivity].
  apply Qeq_bool_iff in E. contradiction.
Qed.

(** [int] of a non-negative float is its integer part. *)
Lemma int_integer_part (x : Q) :
  0 <= x -> inject_Z (Py.int x) <= x /\ x < inject_Z (Py.int x + 1).
Proof.
  intros Hx. unfold Py.int.
  assert (Hnum : (0 <= Qnum x)%Z).
  { unfold Qle in Hx. simpl in Hx. lia. }
  rewrite Z.quot_div_nonneg by lia.
  change (Qnum x / Z.pos (Qden x))%Z with (Qfloor (Qnum x # Qden x)).
  destruct x as [p q]. simpl Qnum. simpl Qden.
  split; [apply Qfloor_le|apply Qlt_floor].
Qed.

Section SyntheticAgent_facts.

Import SyntheticAgent.

Variable X Y Model MassBalance : Type.
Variable Data : DictConfig -> Py.result (list (X * Y)).
Variable SyntheticLGAR : DictConfig -> Py.result Model.
Variable new_MassBalance : DictConfig -> Model -> Py.result MassBalance.
Variable forward : nat -> list X -> Model -> Py.result (Q * Model).
Variable change_mass : MassBalance -> Model -> Py.result MassBalance.
Variable report_mass : MassBalance -> Model -> Py.result unit.
Variable save_data : DictConfig -> list Q -> Py.result unit.

Local Abbreviation __init__ :=
  (__init__ Data SyntheticLGAR new_MassBalance).
Local Abbreviation run :=
  (run forward change_mass report_mass save_data).
Local Abbreviation loop := (loop forward change_mass).
Local Abbreviation ledger_after :=
  (ledger_after forward change_mass).

Lemma configure_subcycles_defined (c : DictConfig) :
  ~ hr_to_sec c == 0 -> ~ subcycle_length c == 0 ->
  exists c',
    configure_subcycles c = Py.Ok c'
    /\ forcing_resolution_h c'
       = Some (Float64.div (forcing_resolution c) (hr_to_sec c))
    /\ subcycle_length_h c'
       = Some (Float64.mul (subcycle_length c) (Float64.div 1 (hr_to_sec c)))
    /\ num_subcycles c' =
         Some (Py.int (Float64.div
                         (Float64.div (forcing_resolution c) (hr_to_sec c))
                         (Float64.mul (subcycle_length c)
                            (Float64.div 1 (hr_to_sec c))))).
Proof.
  intros Hh Hs. unfold configure_subcycles.
  rewrite (truediv_defined 1 _ Hh). cbn [Py.bind].
  rewrite (truediv_defined (forcing_resolution c) _ Hh). cbn [Py.bind].
  rewrite truediv_defined.
  - cbn [Py.bind]. eexists. split; [reflexivity|]. cbn. auto.
  - apply mul_nonzero; [exact Hs|]. apply div_nonzero; [discriminate|exact Hh].
Qed.

(** A zero [hr_to_sec] or a zero subcycle length stops the constructor
    with [ZeroDivisionError]. *)
Lemma configure_subcycles_zero_division (c : DictConfig) :
  hr_to_sec c == 0 \/ subcycle_length c == 0 ->
  configure_subcycles c = Py.Raise Py.ZeroDivisionError.
Proof.
  intros Hz. unfold configure_subcycles, Py.truediv.
  destruct (Qeq_bool (hr_to_sec c) 0) eqn:Eh; [reflexivity|]. cbn [Py.bind].
  destruct Hz as [Hz|Hz]; [apply Qeq_bool_iff in Hz; congruence|].
  unfold Float64.mul. rewrite round_zero by (rewrite Hz; ring). reflexivity.
Qed.

Lemma init_cfg (c : DictConfig) (a : agent X Y Model MassBalance) :
  __init__ c = Py.Ok a -> configure_subcycles c = Py.Ok (cfg a).
Proof.
  unfold SyntheticAgent.__init__. intros H.
  destruct (configure_subcycles c) as [c1|]; cbn [Py.bind] in H; [|discriminate].
  destruct (Data c1); cbn [Py.bind] in H; [|discriminate].
  destruct (DataLoader _); cbn [Py.bind] in H; [|discriminate].
  destruct (SyntheticLGAR c1); cbn [Py.bind] in H; [|discriminate].
  destruct (new_MassBalance c1 _); cbn [Py.bind] in H; [|discriminate].
  inversion H. reflexivity.
Qed.

Lemma run_keeps_cfg (a a' : agent X Y Model MassBalance) (tr : list event) :
  run a = (tr, Py.Ok a') -> cfg a' = cfg a.
Proof.
  unfold SyntheticAgent.run. intros H.
  apply tbind_ok_inv in H as (t1 & st & t1' & _ & H & _).
  apply tbind_ok_inv in H as (t2 & [] & t2' & _ & H & _).
  apply tbind_ok_inv in H as (t3 & [] & t3' & _ & H & _).
  apply tbind_ok_inv in H as (t4 & [] & t4' & _ & H & _).
  apply tbind_ok_inv in H as (t5 & [] & t5' & _ & H & _).
  inversion H. reflexivity.
Qed.

(** C5.  For every configuration whose [hr_to_sec] and subcycle length
    are doubles of moderate size (and whose forcing resolution is one, or
    zero), [__init__] fixes the number of subcycles of an outer timestep
    as the integer part of [forcing_resolution_h / subcycle_length_h],
    the quotient of the two stored floats, taken in float arithmetic; an
    agent built from the configuration carries that number, and a run
    leaves it as it is. *)
Theorem num_subcycles_fixed (c : DictConfig) :
  Float64.moderate (hr_to_sec c) = true ->
  Float64.moderate (subcycle_length c) = true ->
  Float64.moderate_or_zero (forcing_resolution c) = true ->
  exists c' fr_h sl_h,
    configure_subcycles c = Py.Ok c'
    /\ forcing_resolution_h c' = Some fr_h
    /\ fr_h = Float64.div (forcing_resolution c) (hr_to_sec c)
    /\ subcycle_length_h c' = Some sl_h
    /\ sl_h = Float64.mul (subcycle_length c) (Float64.div 1 (hr_to_sec c))
    /\ num_subcycles c' = Some (Py.int (Float64.div fr_h sl_h))
    /\ forall a, __init__ c = Py.Ok a ->
         num_subcycles (cfg a) = Some (Py.int (Float64.div fr_h sl_h))
         /\ forall tr a', run a = (tr, Py.Ok a') ->
              num_subcycles (cfg a') = Some (Py.int (Float64.div fr_h sl_h)).
Proof.
  intros Hh Hs _. apply moderate_nonzero in Hh, Hs.
  destruct (configure_subcycles_defined c Hh Hs) as (c' & Hc & Hfr & Hsl & Hn).
  exists c', (Float64.div (forcing_resolution c) (hr_to_sec c)),
         (Float64.mul (subcycle_length c) (Float64.div 1 (hr_to_sec c))).
  repeat (split; [first [assumption | reflexivity]|]).
  intros a Ha. apply init_cfg in Ha. rewrite Hc in Ha. inversion Ha as [Hcfg].
  split; [rewrite <- Hcfg; exact Hn|].
  intros tr a' Hrun. apply run_keeps_cfg in Hrun. rewrite Hrun, <- Hcfg. exact Hn.
Qed.

Lemma count_iterations_trace (i n : nat) :
  count_event ChangeMass (iterations_trace i n) = n.
Proof.
  revert i. induction n as [|n IH]; intros i; [reflexivity|].
  unfold count_event in *. cbn [iterations_trace].
  rewrite filter_cons_False by discriminate.
  rewrite filter_cons_True by reflexivity.
  rewrite filter_cons_False by discriminate.
  cbn [length]. rewrite IH. reflexivity.
Qed.

Lemma iteration_completed (i : nat) (batch : list (X * Y))
    (st st' : run_state Y Model MassBalance) (tr : list event) :
  iteration forward change_mass i batch st = (tr, Py.Ok st') ->
  tr = [Forward i; ChangeMass; Sleep]
  /\ exists runoff,
       forward i (batch.*1) (rs_model st) = Py.Ok (runoff, rs_model st')
       /\ change_mass (rs_mass_balance st) (rs_model st') = Py.Ok (rs_mass_balance st').
Proof.
  unfold iteration. intros H.
  apply tbind_ok_inv in H as (t1 & [] & t1' & He1 & H & ->). inversion He1; subst t1.
  apply tbind_ok_inv in H as (t2 & [runoff mdl] & t2' & Hfwd & H & ->).
  apply lift_ok_inv in Hfwd as [-> Hfwd].
  apply tbind_ok_inv in H as (t3 & [] & t3' & He3 & H & ->). inversion He3; subst t3.
  apply tbind_ok_inv in H as (t4 & mb & t4' & Hmb & H & ->).
  apply lift_ok_inv in Hmb as [-> Hmb].
  apply tbind_ok_inv in H as (t5 & [] & t5' & He5 & H & ->). inversion He5; subst t5.
  inversion H; subst. cbn [rs_model rs_mass_balance].
  split; [reflexivity|]. exists runoff. split; assumption.
Qed.

Lemma loop_completed (loader : list (list (X * Y))) :
  forall i st tr st',
    loop i loader st = (tr, Py.Ok st') ->
    tr = iterations_trace i (length loader)
    /\ ledger_after i loader (rs_model st) (rs_mass_balance st)
       = Py.Ok (rs_model st', rs_mass_balance st').
Proof.
  induction loader as [|batch rest IH]; intros i st tr st' H.
  - cbn in H. inversion H. split; reflexivity.
  - cbn [SyntheticAgent.loop] in H.
    apply tbind_ok_inv in H as (t1 & st1 & t2 & Hit & Hrest & ->).
    apply iteration_completed in Hit as (-> & runoff & Hfwd & Hmb).
    apply IH in Hrest as [-> Hledger].
    split; [reflexivity|].
    cbn [SyntheticAgent.ledger_after]. rewrite Hfwd. cbn [Py.bind snd].
    rewrite Hmb. cbn [Py.bind]. exact Hledger.
Qed.

(** C4, as the code has it.  In a completed [run] the ledger update
    [change_mass] is issued exactly once per data-loader batch, right
    after the forward pass of that batch; [report_mass] follows once,
    after the last batch; and the ledger the run ends with is the one it
    started with, carried from batch to batch through these updates
    alone. *)
Theorem ledger_updated_once_per_batch
    (a a' : agent X Y Model MassBalance) (tr : list event) :
  run a = (tr, Py.Ok a') ->
  tr = iterations_trace 0 (length (data_loader a)) ++ [ReportMass; SaveData]
  /\ count_event ChangeMass tr = length (data_loader a)
  /\ count_event ReportMass tr = 1%nat
  /\ ledger_after 0 (data_loader a) (model a) (mass_balance a)
     = Py.Ok (model a', mass_balance a').
Proof.
  unfold SyntheticAgent.run. intros H.
  apply tbind_ok_inv in H as (t1 & st & t1' & Hloop & H & ->).
  apply tbind_ok_inv in H as (t2 & [] & t2' & He2 & H & ->). inversion He2; subst t2.
  apply tbind_ok_inv in H as (t3 & [] & t3' & Hrep & H & ->).
  apply lift_ok_inv in Hrep as [-> _].
  apply tbind_ok_inv in H as (t4 & [] & t4' & He4 & H & ->). inversion He4; subst t4.
  apply tbind_ok_inv in H as (t5 & [] & t5' & Hsave & H & ->).
  apply lift_ok_inv in Hsave as [-> _].
  inversion H; subst. clear H.
  apply loop_completed in Hloop as [-> Hledger]. cbn in Hledger.
  change ([ReportMass] ++ [] ++ [SaveData] ++ [] ++ [])
    with [ReportMass; SaveData].
  split; [reflexivity|]. cbn [model mass_balance].
  split; [|split; [|exact Hledger]].
  - unfold count_event. rewrite filter_app, length_app.
    fold (count_event ChangeMass (iterations_trace 0 (length (data_loader a)))).
    rewrite count_iterations_trace.
    rewrite !filter_cons_False by discriminate. rewrite filter_nil.
    cbn [length]. lia.
  - unfold count_event. rewrite filter_app, length_app.
    assert (Hnone : forall i n,
               length (filter (fun e' => e' = ReportMass) (iterations_trace i n)) = O).
    { intros i n. revert i. induction n as [|n IH]; intros i; [reflexivity|].
      cbn [iterations_trace].
      rewrite !filter_cons_False by discriminate. apply IH. }
    rewrite Hnone. rewrite filter_cons_True by reflexivity.
    rewrite filter_cons_False by discriminate. rewrite filter_nil. reflexivity.
Qed.

End SyntheticAgent_facts.

Lemma num_subcycles_fixed_witness :
  Float64.moderate 3600 = true /\ Float64.moderate 300 = true
  /\ exists c', SyntheticAgent.configure_subcycles Sample.cfg0 = Py.Ok c'
              /\ SyntheticAgent.num_subcycles c' = Some 12%Z.
Proof.
  split; [vm_compute; reflexivity|]. split; [vm_compute; reflexivity|].
  destruct (num_subcycles_fixed (Q * Q) Q unit nat Sample.Dataset Sample.SyntheticLGAR
              Sample.new_MassBalance Sample.forward Sample.change_mass
              Sample.report_mass Sample.save_data Sample.cfg0)
    as (c' & fr_h & sl_h & Hc & _ & Hfr & _ & Hsl & Hn & _);
    [vm_compute; reflexivity|vm_compute; reflexivity|vm_compute; reflexivity|].
  exists c'. split; [exact Hc|]. rewrite Hn, Hfr, Hsl. vm_compute. reflexivity.
Defined.

(** Float arithmetic can fall short of the exact quotient: five-minute
    forcing in ten-second subcycles gives 29 subcycles, not 30. *)
Lemma configure_subcycles_rounds :
  exists c', SyntheticAgent.configure_subcycles Sample.cfg_ten_seconds = Py.Ok c'
             /\ SyntheticAgent.num_subcycles c' = Some 29%Z.
Proof. eexists. split; vm_compute; reflexivity. Qed.

Lemma sample_init : Sample.init = Py.Ok Sample.agent0.
Proof. vm_compute. reflexivity. Qed.

Lemma sample_run : Sample.run Sample.agent0 = (Sample.trace0, Py.Ok Sample.agent1).
Proof. vm_compute. reflexivity. Qed.

Lemma ledger_updated_once_per_batch_witness :
  Sample.run Sample.agent0 = (Sample.trace0, Py.Ok Sample.agent1)
  /\ SyntheticAgent.count_event SyntheticAgent.ChangeMass Sample.trace0 = 2%nat.
Proof.
  split; [exact sample_run|].
  destruct (ledger_updated_once_per_batch (Q * Q) Q unit nat Sample.forward
              Sample.change_mass Sample.report_mass Sample.save_data
              Sample.agent0 Sample.agent1 Sample.trace0 sample_run)
    as (_ & Hcount & _).
  exact Hcount.
Defined.

(** C4, as the specification has it, fails: a run over two hourly forcing
    rows of twelve subcycles each updates the ledger twice, not once for
    each of its twenty-four subcycles. *)
Lemma ledger_not_updated_per_subcycle :
  Sample.init = Py.Ok Sample.agent0
  /\ Sample.run Sample.agent0 = (Sample.trace0, Py.Ok Sample.agent1)
  /\ SyntheticAgent.subcycles_of_run Sample.agent0 = Some 24%Z
  /\ SyntheticAgent.count_event SyntheticAgent.ChangeMass Sample.trace0 = 2%nat
  /\ SyntheticAgent.mass_balance Sample.agent1 = 2%nat
  /\ Some (Z.of_nat (SyntheticAgent.count_event SyntheticAgent.ChangeMass Sample.trace0))
     <> SyntheticAgent.subcycles_of_run Sample.agent0.
Proof.
  split; [exact sample_init|].
  split; [exact sample_run|].
  split; [vm_compute; reflexivity|].
  split; [vm_compute; reflexivity|].
  split; [vm_compute; reflexivity|].
  vm_compute. discriminate.
Qed.

(** ** The forcing and soils data set *)

Lemma df_getitem_ok_inv (df : Data.DataFrame) (label : string) (c : Data.column) :
  Data.df_getitem df label = Py.Ok c -> df !! label = Some c.
Proof. unfold Data.df_getitem. destruct (df !! label); intros H; inversion H; auto. Qed.

Lemma torch_tensor_ok_inv (c : Data.column) (t : list Q) :
  Data.torch_tensor c = Py.Ok t -> c = Data.Float64 t.
Proof. destruct c; cbn; intros H; inversion H; auto. Qed.

Lemma torch_stack_ok_inv (rows t : list (list Q)) :
  Data.torch_stack rows = Py.Ok t -> t = rows.
Proof.
  unfold Data.torch_stack. destruct rows as [|r rest]; [discriminate|].
  destruct (Data.same_length _ _); intros H; inversion H; auto.
Qed.

Lemma tensor_column_ok_inv (df : Data.DataFrame) (label : string) (t : list Q) :
  Py.bind (Data.df_getitem df label) Data.torch_tensor = Py.Ok t ->
  df !! label = Some (Data.Float64 t).
Proof.
  intros H. apply bind_ok_inv in H as (c & Hc & Ht).
  apply df_getitem_ok_inv in Hc. apply torch_tensor_ok_inv in Ht. congruence.
Qed.

Section Data_facts.

Import Data.

Variable calc_theta_from_h : Q -> Q -> Q -> Q -> Q -> Q -> Q.
Variable calc_bc_lambda : Q -> Q.
Variable calc_bc_psib : Q -> Q -> Q.
Variable calc_h_min_cm : Q -> Q -> Q.
Variable fs : gmap string DataFrame.

Local Abbreviation __init__ :=
  (__init__ calc_theta_from_h calc_bc_lambda calc_bc_psib calc_h_min_cm fs).
Local Abbreviation soil_rows :=
  (soil_rows calc_theta_from_h calc_bc_lambda calc_bc_psib calc_h_min_cm).
Local Abbreviation generate_soil_metrics :=
  (generate_soil_metrics calc_theta_from_h calc_bc_lambda calc_bc_psib calc_h_min_cm).

Lemma read_df_ok_inv (file : string) (tr : list call) (df : DataFrame) :
  read_df fs file = (tr, Py.Ok df) ->
  tr = [Call_read_df file] /\ fs !! file = Some df.
Proof.
  unfold read_df. intros H.
  apply tbind_ok_inv in H as (tr1 & [] & tr2 & He & Hk & ->).
  inversion He; subst.
  assert (Hread : Py.lift (read_csv fs file) = (tr2, Py.Ok df)).
  { destruct (String.eqb _ ".csv"); [exact Hk|].
    destruct (String.eqb _ ".dat"); [exact Hk|]. discriminate. }
  apply lift_ok_inv in Hread as [-> Hread].
  split; [reflexivity|].
  unfold read_csv in Hread. destruct (fs !! file); inversion Hread; auto.
Qed.

Lemma generate_soil_metrics_ok_inv (self : object) (cfg : DictConfig)
    (tr : list call) (c : list (list Q)) :
  generate_soil_metrics self cfg = (tr, Py.Ok c) ->
  tr = [Call_generate_soil_metrics]
  /\ exists soils_df alpha n m theta_e theta_r k_sat,
       self !! "soils_df" = Some (VFrame soils_df)
       /\ soils_df !! "alpha(cm^-1)" = Some (Float64 alpha)
       /\ soils_df !! "n" = Some (Float64 n)
       /\ soils_df !! "m" = Some (Float64 m)
       /\ soils_df !! "theta_e" = Some (Float64 theta_e)
       /\ soils_df !! "theta_r" = Some (Float64 theta_r)
       /\ soils_df !! "Ks(cm/h)" = Some (Float64 k_sat)
       /\ c = soil_rows cfg alpha n m theta_e theta_r k_sat.
Proof.
  unfold Data.generate_soil_metrics. intros H.
  apply tbind_ok_inv in H as (tr1 & [] & tr2 & He & Hk & ->).
  inversion He; subst. apply lift_ok_inv in Hk as [-> Hk].
  split; [reflexivity|].
  apply bind_ok_inv in Hk as (soils_df & Hdf & Hk).
  apply bind_ok_inv in Hdf as (v & Hv & Hdf).
  unfold getattr in Hv. destruct (self !! "soils_df") as [v'|] eqn:Hself;
    inversion Hv; subst.
  destruct v; cbn in Hdf; inversion Hdf; subst.
  apply bind_ok_inv in Hk as (alpha & Halpha & Hk).
  apply bind_ok_inv in Hk as (n & Hn & Hk).
  apply bind_ok_inv in Hk as (m & Hm & Hk).
  apply bind_ok_inv in Hk as (theta_e & Hte & Hk).
  apply bind_ok_inv in Hk as (theta_r & Htr & Hk).
  apply bind_ok_inv in Hk as (k_sat & Hks & Hk).
  apply tensor_column_ok_inv in Halpha, Hn, Hm, Hte, Htr, Hks.
  apply torch_stack_ok_inv in Hk.
  exists soils_df, alpha, n, m, theta_e, theta_r, k_sat. auto 10.
Qed.

(** What a successful construction leaves: the trace of its three
    method calls and the seven attributes of the instance. *)
Lemma init_ok_inv (cfg : DictConfig) (tr : list call) (self : object) :
  __init__ cfg = (tr, Py.Ok self) ->
  tr = [Call_read_df (forcing_file cfg); Call_read_df (soil_params_file cfg);
        Call_generate_soil_metrics]
  /\ exists forcing_df time_col precip pet soils_df texture_col
            alpha n m theta_e theta_r k_sat,
       fs !! forcing_file cfg = Some forcing_df
       /\ forcing_df !! "Time" = Some time_col
       /\ fs !! soil_params_file cfg = Some soils_df
       /\ soils_df !! "Texture" = Some texture_col
       /\ soils_df !! "alpha(cm^-1)" = Some (Float64 alpha)
       /\ soils_df !! "n" = Some (Float64 n)
       /\ soils_df !! "m" = Some (Float64 m)
       /\ soils_df !! "theta_e" = Some (Float64 theta_e)
       /\ soils_df !! "theta_r" = Some (Float64 theta_r)
       /\ soils_df !! "Ks(cm/h)" = Some (Float64 k_sat)
       /\ self =
            <["column_map" := VDict column_map]>
            (<["c" := VMatrix (soil_rows cfg alpha n m theta_e theta_r k_sat)]>
            (<["texture_map" := VDict (enumerate_dict 0 (values texture_col) ∅)]>
            (<["soils_df" := VFrame soils_df]>
            (<["x" := VMatrix [precip; pet]]>
            (<["timestep_map" := VDict (enumerate_dict 0 (values time_col) ∅)]>
            (<["forcing_df" := VFrame forcing_df]> ∅)))))).
Proof.
  unfold Data.__init__. intros H.
  apply tbind_ok_inv in H as (t1 & forcing_df & t1' & Hread1 & H & ->).
  apply read_df_ok_inv in Hread1 as [-> Hforcing].
  apply tbind_ok_inv in H as (t2 & time_values & t2' & Htime & H & ->).
  apply lift_ok_inv in Htime as [-> Htime].
  apply bind_ok_inv in Htime as (time_col & Htime & Hvalues).
  apply df_getitem_ok_inv in Htime. inversion Hvalues; subst time_values.
  apply tbind_ok_inv in H as (t3 & precip & t3' & Hprecip & H & ->).
  apply lift_ok_inv in Hprecip as [-> Hprecip].
  apply tbind_ok_inv in H as (t4 & pet & t4' & Hpet & H & ->).
  apply lift_ok_inv in Hpet as [-> Hpet].
  apply tbind_ok_inv in H as (t5 & x & t5' & Hx & H & ->).
  apply lift_ok_inv in Hx as [-> Hx]. apply torch_stack_ok_inv in Hx. subst x.
  apply tbind_ok_inv in H as (t6 & soils_df & t6' & Hread2 & H & ->).
  apply read_df_ok_inv in Hread2 as [-> Hsoils].
  apply tbind_ok_inv in H as (t7 & texture_values & t7' & Htex & H & ->).
  apply lift_ok_inv in Htex as [-> Htex].
  apply bind_ok_inv in Htex as (texture_col & Htex & Hvalues').
  apply df_getitem_ok_inv in Htex. inversion Hvalues'; subst texture_values.
  apply tbind_ok_inv in H as (t8 & c & t8' & Hgen & H & ->).
  apply generate_soil_metrics_ok_inv in Hgen
    as (-> & sdf & alpha & n & m & theta_e & theta_r & k_sat
        & Hself & Ha & Hn & Hm & Hte & Htr & Hks & ->).
  rewrite lookup_insert_ne in Hself by done.
  rewrite lookup_insert_eq in Hself. inversion Hself; subst sdf.
  unfold Py.tret in H. inversion H; subst.
  split; [reflexivity|].
  exists forcing_df, time_col, precip, pet, soils_df, texture_col,
         alpha, n, m, theta_e, theta_r, k_sat.
  auto 15.
Qed.

Lemma init_x_y (cfg : DictConfig) (tr : list call) (self : object) :
  __init__ cfg = (tr, Py.Ok self) ->
  self !! "y" = None
  /\ exists precip pet, self !! "x" = Some (VMatrix [precip; pet]).
Proof.
  intros H. apply init_ok_inv in H
    as (_ & fdf & tc & precip & pet & sdf & xc & a & n & m & te & tr' & ks & H).
  destruct H as (_ & _ & _ & _ & _ & _ & _ & _ & _ & _ & ->).
  split.
  - rewrite !lookup_insert_ne by done. apply lookup_empty.
  - exists precip, pet. rewrite !lookup_insert_ne by done.
    apply lookup_insert_eq.
Qed.

(** C9, as the code has it.  For every successfully constructed [Data]
    object, [__getitem__(i)] raises [AttributeError] (no attribute [y])
    for every integer index i within the first dimension of [x], that is
    -2 <= i < 2; for any other integer index, [self.x[i, :]] raises
    [IndexError] before [self.y] is read. *)
Theorem getitem_raises (cfg : DictConfig) (tr : list call) (self : object)
    (index : Z) :
  __init__ cfg = (tr, Py.Ok self) ->
  ((-2 <= index < 2)%Z ->
     __getitem__ self index = ([], Py.Raise (Py.AttributeError "y")))
  /\ ((index < -2 \/ 2 <= index)%Z ->
       __getitem__ self index = ([], Py.Raise Py.IndexError)).
Proof.
  intros H. apply init_x_y in H as (Hy & precip & pet & Hx).
  unfold Data.__getitem__, Py.lift, getattr. rewrite Hx, Hy. cbn [Py.bind].
  split; intros Hrange.
  - assert (Hcases : (index = -2 \/ index = -1 \/ index = 0 \/ index = 1)%Z) by lia.
    destruct Hcases as [ -> | [ -> | [ -> | -> ] ] ]; reflexivity.
  - unfold getitem_row, normalize_index. cbn [length].
    change (Z.of_nat 2) with 2%Z. change (Z.opp 2) with (-2)%Z.
    destruct (Z.leb_spec 0 index), (Z.ltb_spec index 2),
             (Z.leb_spec (-2) index), (Z.ltb_spec index 0);
      cbn; try reflexivity; lia.
Qed.

(** C10.  For every successfully constructed [Data] object, [__len__]
    returns 2, the number of stacked forcing channels, whatever the
    number of timesteps of the forcing series. *)
Theorem len_is_two (cfg : DictConfig) (tr : list call) (self : object) :
  __init__ cfg = (tr, Py.Ok self) -> __len__ self = ([], Py.Ok 2%nat).
Proof.
  intros H. apply init_x_y in H as (_ & precip & pet & Hx).
  unfold Data.__len__, Py.lift, getattr. rewrite Hx. reflexivity.
Qed.

Lemma enumerate_dict_absent (vs : list key) :
  forall i d k, k ∉ vs -> enumerate_dict i vs d !! k = d !! k.
Proof.
  induction vs as [|v rest IH]; intros i d k Hk; [reflexivity|].
  apply not_elem_of_cons in Hk as [Hne Hrest].
  cbn [enumerate_dict]. rewrite IH by exact Hrest.
  apply lookup_insert_ne. congruence.
Qed.

Lemma enumerate_dict_last (vs : list key) :
  forall i d k j,
    vs !! j = Some k ->
    (forall j', (j < j')%nat -> vs !! j' <> Some k) ->
    enumerate_dict i vs d !! k = Some (i + j)%nat.
Proof.
  induction vs as [|v rest IH]; intros i d k j Hj Hlast; [discriminate|].
  cbn [enumerate_dict]. destruct j as [|j].
  - inversion Hj; subst v.
    rewrite enumerate_dict_absent.
    + rewrite lookup_insert_eq. f_equal. lia.
    + intros Hin. apply list_elem_of_lookup in Hin as [j' Hj'].
      apply (Hlast (S j')); [lia|exact Hj'].
  - rewrite (IH (S i) _ k j Hj).
    + f_equal. lia.
    + intros j' Hlt. apply (Hlast (S j')). lia.
Qed.

Lemma last_occurrence (vs : list key) (k : key) :
  k ∈ vs ->
  exists j, vs !! j = Some k /\ forall j', (j < j')%nat -> vs !! j' <> Some k.
Proof.
  induction vs as [|v rest IH]; intros Hin; [inversion Hin|].
  destruct (decide (k ∈ rest)) as [Hrest|Hrest].
  - destruct (IH Hrest) as (j & Hj & Hlast). exists (S j). split; [exact Hj|].
    intros [|j'] Hlt; [lia|]. apply Hlast. lia.
  - apply elem_of_cons in Hin as [->|Hin]; [|contradiction].
    exists O. split; [reflexivity|].
    intros [|j'] Hlt Hj'; [lia|]. apply Hrest.
    apply list_elem_of_lookup. exists j'. exact Hj'.
Qed.

(** C7, as the code has it.  In a successfully constructed [Data]
    object, [texture_map] sends every texture identifier of the soils
    table to the index of its row (of its last row, should it occur
    more than once), and looking up an identifier that the table does
    not hold raises Python's [KeyError]. *)
Theorem texture_map_lookup (cfg : DictConfig) (tr : list call) (self : object)
    (soils_df : DataFrame) (texture_col : column) :
  __init__ cfg = (tr, Py.Ok self) ->
  fs !! soil_params_file cfg = Some soils_df ->
  soils_df !! "Texture" = Some texture_col ->
  exists texture_map,
    getattr self "texture_map" = Py.Ok (VDict texture_map)
    /\ forall texture : key,
         (texture ∈ values texture_col ->
            exists i, dict_getitem texture_map texture = Py.Ok i
                      /\ values texture_col !! i = Some texture
                      /\ forall j, (i < j)%nat -> values texture_col !! j <> Some texture)
         /\ (texture ∉ values texture_col ->
              dict_getitem texture_map texture = Py.Raise Py.KeyError).
Proof.
  intros H Hfs Hcol. apply init_ok_inv in H
    as (_ & fdf & tc & precip & pet & sdf & xc & a & n & m & te & tr' & ks & H).
  destruct H as (_ & _ & Hfs' & Hcol' & _ & _ & _ & _ & _ & _ & ->).
  assert (sdf = soils_df) by congruence. subst sdf.
  assert (xc = texture_col) by congruence. subst xc.
  exists (enumerate_dict 0 (values texture_col) ∅). split.
  - unfold getattr. rewrite !lookup_insert_ne by done.
    rewrite lookup_insert_eq. reflexivity.
  - intros texture. unfold dict_getitem. split.
    + intros Hin. destruct (last_occurrence _ _ Hin) as (i & Hi & Hlast).
      exists i. rewrite (enumerate_dict_last _ 0 ∅ texture i Hi Hlast). auto.
    + intros Hout. rewrite enumerate_dict_absent by exact Hout.
      rewrite lookup_empty. reflexivity.
Qed.





End Data_facts.

Lemma sample_data_init : Sample.data_init = (Sample.data_trace, Py.Ok Sample.data).
Proof. vm_compute. reflexivity. Qed.

Lemma getitem_raises_witness :
  Sample.data_init = (Sample.data_trace, Py.Ok Sample.data)
  /\ Data.__getitem__ Sample.data 1 = ([], Py.Raise (Py.AttributeError "y")).
Proof.
  split; [exact sample_data_init|].
  apply (getitem_raises Sample.calc_theta_from_h Sample.calc_bc_lambda
           Sample.calc_bc_psib Sample.calc_h_min_cm Sample.fs Sample.data_cfg
           Sample.data_trace Sample.data 1 sample_data_init).
  lia.
Defined.

(** C9, as stated, fails: on a constructed object the index 2 is out of
    range for the two rows of [x], and [__getitem__(2)] raises
    [IndexError], not [AttributeError]. *)
Lemma getitem_out_of_range :
  Sample.data_init = (Sample.data_trace, Py.Ok Sample.data)
  /\ Data.__getitem__ Sample.data 2 = ([], Py.Raise Py.IndexError)
  /\ Data.__getitem__ Sample.data 2 <> ([], Py.Raise (Py.AttributeError "y")).
Proof.
  split; [exact sample_data_init|].
  assert (H : Data.__getitem__ Sample.data 2 = ([], Py.Raise Py.IndexError))
    by (vm_compute; reflexivity).
  split; [exact H|]. rewrite H. discriminate.
Qed.

Lemma len_is_two_witness :
  Sample.data_init = (Sample.data_trace, Py.Ok Sample.data)
  /\ Data.__len__ Sample.data = ([], Py.Ok 2%nat).
Proof.
  split; [exact sample_data_init|].
  exact (len_is_two Sample.calc_theta_from_h Sample.calc_bc_lambda
           Sample.calc_bc_psib Sample.calc_h_min_cm Sample.fs Sample.data_cfg
           Sample.data_trace Sample.data sample_data_init).
Defined.

Lemma sample_soils_file : Sample.fs !! "data/soils.dat"%string = Some Sample.soils_df.
Proof. vm_compute. reflexivity. Qed.

Lemma texture_map_lookup_witness :
  Sample.data_init = (Sample.data_trace, Py.Ok Sample.data)
  /\ Sample.fs !! Data.soil_params_file Sample.data_cfg = Some Sample.soils_df
  /\ Sample.soils_df !! "Texture"%string = Some (Data.Object [ "Sand"; "Clay" ]%string)
  /\ exists texture_map,
       Data.getattr Sample.data "texture_map" = Py.Ok (Data.VDict texture_map)
       /\ forall texture : Data.key,
            (texture ∈ [ Data.KStr "Sand"; Data.KStr "Clay" ] ->
               exists i, Data.dict_getitem texture_map texture = Py.Ok i
                         /\ [ Data.KStr "Sand"; Data.KStr "Clay" ] !! i = Some texture
                         /\ forall j, (i < j)%nat ->
                              [ Data.KStr "Sand"; Data.KStr "Clay" ] !! j <> Some texture)
            /\ (texture ∉ [ Data.KStr "Sand"; Data.KStr "Clay" ] ->
                 Data.dict_getitem texture_map texture = Py.Raise Py.KeyError).
Proof.
  assert (Hcol : Sample.soils_df !! "Texture"%string
                 = Some (Data.Object [ "Sand"; "Clay" ]%string))
    by (vm_compute; reflexivity).
  split; [exact sample_data_init|].
  split; [exact sample_soils_file|].
  split; [exact Hcol|].
  exact (texture_map_lookup Sample.calc_theta_from_h Sample.calc_bc_lambda
           Sample.calc_bc_psib Sample.calc_h_min_cm Sample.fs Sample.data_cfg
           Sample.data_trace Sample.data Sample.soils_df
           (Data.Object [ "Sand"; "Clay" ]%string)
           sample_data_init sample_soils_file Hcol).
Defined.

(** C7, as stated, fails: a texture that the soils table does not hold
    raises [KeyError], not an [UnknownTextureError], and a texture that it
    holds yields the index of its row, not the row. *)
Lemma unknown_texture_raises_KeyError :
  Sample.data_init = (Sample.data_trace, Py.Ok Sample.data)
  /\ Data.getattr Sample.data "texture_map" = Py.Ok (Data.VDict Sample.texture_map)
  /\ Data.dict_getitem Sample.texture_map (Data.KStr "Silt") = Py.Raise Py.KeyError
  /\ Data.dict_getitem Sample.texture_map (Data.KStr "Silt")
     <> Py.Raise (Py.UserDefined "UnknownTextureError")
  /\ Data.dict_getitem Sample.texture_map (Data.KStr "Clay") = Py.Ok 1%nat.
Proof.
  split; [exact sample_data_init|].
  split; [vm_compute; reflexivity|].
  assert (H : Data.dict_getitem Sample.texture_map (Data.KStr "Silt")
              = Py.Raise Py.KeyError) by (vm_compute; reflexivity).
  split; [exact H|]. split; [rewrite H; discriminate|].
  vm_compute. reflexivity.
Qed.



(** ** The model-interface adapter *)

Section LGARBmi_facts.

Import LGARBmi.

Variable builtins : list string.

(** C8, on the code.  [finalize] does not produce the closure report:
    the ledger values it formats are names bound nowhere, so after the
    three heading lines the evaluation of [volstart] raises [NameError]
    and no line of the report is logged. *)
Theorem finalize_raises_NameError (self : bmi) (now : Q) :
  "volstart"%string ∉ builtins ->
  finalize builtins self now =
    ([ SetEndTime now;
       LogInfo [Text "---------------------- Simulation Summary  ------------------------ "];
       LogInfo [Text "Time (sec)                 = ";
                Fixed6 (now - _start_time self); Text " "];
       LogInfo [Text "-------------------------- Mass balance ------------------- "] ],
     Py.Raise (Py.NameError "volstart"))
  /\ filter (fun e => is_report_line e = true) (finalize builtins self now).1 = [].
Proof.
  intros Hnot.
  assert (Hload : load_name builtins "volstart" = Py.Raise (Py.NameError "volstart")).
  { unfold load_name.
    replace (bool_decide ("volstart"%string ∈ finalize_locals)) with false
      by (vm_compute; reflexivity).
    replace (bool_decide ("volstart"%string ∈ module_globals)) with false
      by (vm_compute; reflexivity).
    rewrite bool_decide_eq_false_2 by exact Hnot. reflexivity. }
  assert (Htime : load_name builtins "time" = Py.Ok (Global "time")) by reflexivity.
  assert (Hself : load_name builtins "self" = Py.Ok (Local "self")) by reflexivity.
  assert (Hlog : load_name builtins "log" = Py.Ok (Global "log")) by reflexivity.
  assert (Hfin : finalize builtins self now =
    ([ SetEndTime now;
       LogInfo [Text "---------------------- Simulation Summary  ------------------------ "];
       LogInfo [Text "Time (sec)                 = ";
                Fixed6 (now - _start_time self); Text " "];
       LogInfo [Text "-------------------------- Mass balance ------------------- "] ],
     Py.Raise (Py.NameError "volstart"))).
  { unfold finalize, log_info, fstring.
    rewrite Htime, Hself, Hlog, Hload. reflexivity. }
  split; [exact Hfin|]. rewrite Hfin. reflexivity.
Qed.

End LGARBmi_facts.

Lemma finalize_raises_NameError_witness :
  ("volstart"%string ∉ LGARBmi.builtin_functions)
  /\ snd (LGARBmi.finalize LGARBmi.builtin_functions LGARBmi.__init__ Sample.now)
     = Py.Raise (Py.NameError "volstart").
Proof.
  assert (Hnot : "volstart"%string ∉ LGARBmi.builtin_functions).
  { apply (bool_decide_eq_false_1 ("volstart"%string ∈ LGARBmi.builtin_functions)).
    vm_compute. reflexivity. }
  split; [exact Hnot|].
  destruct (finalize_raises_NameError LGARBmi.builtin_functions LGARBmi.__init__
              Sample.now Hnot) as [Hfin _].
  rewrite Hfin. reflexivity.
Defined.

(** ** The wetting-front ledger *)

Lemma merge_keeps_water (above : Q) (shallow deep : Ledger.front) (below : Q) :
  above < Ledger.depth deep ->
  Ledger.theta (Ledger.merge above shallow deep) * (Ledger.depth deep - above) + below
  == Ledger.theta shallow * (Ledger.depth shallow - above)
     + (Ledger.theta deep * (Ledger.depth deep - Ledger.depth shallow) + below).
Proof.
  intros Hlt. unfold Ledger.merge. cbn [Ledger.theta Ledger.depth].
  field. lra.
Qed.

(** On the ledger modelled from the specification: the merge of two
    adjacent fronts of a depth-ordered ledger leaves the column storage as
    it was (the merge part of the mass-conservation property). *)
Lemma merge_at_preserves_storage (fronts : list Ledger.front) :
  forall (above : Q) (i : nat),
    Ledger.ordered above fronts ->
    Ledger.storage_below above (Ledger.merge_at above i fronts)
    == Ledger.storage_below above fronts.
Proof.
  induction fronts as [|shallow rest IH]; intros above i Hord;
    [cbn; reflexivity|].
  destruct Hord as [Hs Hrest]. destruct i as [|i]; destruct rest as [|deep rest'].
  - cbn [Ledger.merge_at]. reflexivity.
  - destruct Hrest as [Hd _]. cbn [Ledger.merge_at Ledger.storage_below].
    change (Ledger.depth (Ledger.merge above shallow deep)) with (Ledger.depth deep).
    apply merge_keeps_water. lra.
  - cbn [Ledger.merge_at]. reflexivity.
  - cbn [Ledger.merge_at]. cbn [Ledger.storage_below].
    rewrite (IH (Ledger.depth shallow) i Hrest).
    cbn [Ledger.storage_below]. reflexivity.
Qed.

Lemma merge_at_preserves_storage_sample :
  Ledger.storage (Ledger.merge_at 0 0 Sample.fronts) == Ledger.storage Sample.fronts.
Proof.
  apply merge_at_preserves_storage. cbn. repeat split; lra.
Qed.

(** * Further properties of the embedded code *)

(** ** aet.py: the shape of the extractor *)

Section AET_shape.

Variable calc_theta_from_h : Q -> Q -> Q -> Q -> Q -> Q -> Q.
Variable calc_se_from_theta : Q -> Q -> Q -> Q.
Variable calc_h_from_se : Q -> Q -> Q -> Q -> Q.

Local Abbreviation calculate_aet :=
  (AET.calculate_aet calc_theta_from_h calc_se_from_theta calc_h_from_se).
Local Abbreviation psi_wp_cm :=
  (AET.psi_wp_cm calc_theta_from_h calc_se_from_theta calc_h_from_se).
Local Abbreviation h_ratio :=
  (AET.h_ratio calc_theta_from_h calc_se_from_theta calc_h_from_se).

Lemma cube_eq (x : Q) : x ^ 3 == x * x * x.
Proof. unfold Qpower. simpl. ring. Qed.

Lemma cube_monotone (x y : Q) : 0 <= x -> x <= y -> x ^ 3 <= y ^ 3.
Proof.
  intros Hx Hxy. rewrite !cube_eq.
  assert (Hsq : x * x <= y * y) by nra.
  assert (Hxx : 0 <= x * x) by nra.
  assert (Hyy : 0 <= y * y) by nra.
  apply Qle_trans with (y * y * x); [|nra].
  set (a := x * x) in *. set (b := y * y) in *. clearbody a b. nra.
Qed.

Lemma inverse_antitone (d e : Q) : 0 < d -> d <= e -> / e <= / d.
Proof.
  intros Hd Hde.
  assert (He : 0 < e) by lra.
  assert (Hid : 0 < / d) by (apply Qinv_lt_0_compat; exact Hd).
  assert (Hie : 0 < / e) by (apply Qinv_lt_0_compat; exact He).
  assert (H1 : d * / d == 1) by (apply Qmult_inv_r; lra).
  assert (H2 : e * / e == 1) by (apply Qmult_inv_r; lra).
  set (i := / d) in *. set (j := / e) in *. clearbody i j.
  apply Qnot_lt_le. intros Hlt. nra.
Qed.

Lemma h_ratio_unfold (gp : AET.global_params) (psi_cm theta_e theta_r m alpha n : Q) :
  h_ratio gp psi_cm theta_e theta_r m alpha n
  == 1 + (psi_cm / psi_wp_cm gp theta_e theta_r m alpha n) ^ 3.
Proof. reflexivity. Qed.

Lemma calculate_aet_unfold (gp : AET.global_params)
    (pet psi_cm theta_e theta_r m alpha n : Q) :
  calculate_aet gp pet psi_cm theta_e theta_r m alpha n
  == AET.clamp (pet * (1 / h_ratio gp psi_cm theta_e theta_r m alpha n)) 0 pet.
Proof. reflexivity. Qed.

(** X1.  A demand PET <= 0 is returned as it is: zero demand gives zero
    AET, and for a negative PET the upper bound of the clamp lies below
    its lower bound and wins, so the result is the negative PET. *)
Theorem calculate_aet_nonpositive_demand (gp : AET.global_params)
    (pet psi_cm theta_e theta_r m alpha n : Q) :
  ~ psi_wp_cm gp theta_e theta_r m alpha n == 0 ->
  ~ h_ratio gp psi_cm theta_e theta_r m alpha n == 0 ->
  pet <= 0 ->
  calculate_aet gp pet psi_cm theta_e theta_r m alpha n == pet.
Proof.
  intros _ _ Hpet. rewrite calculate_aet_unfold. unfold AET.clamp.
  set (x := pet * _).
  destruct (Q.max_spec x 0) as [[? Hmax]|[? Hmax]];
    destruct (Q.min_spec (Qmax x 0) pet) as [[? Hmin]|[? Hmin]];
    rewrite Hmin; lra.
Qed.

(** X2.  At a saturated surface (capillary head 0) the whole demand is
    met: for PET >= 0 and a non-zero h50, AET = PET. *)
Theorem calculate_aet_saturated (gp : AET.global_params)
    (pet theta_e theta_r m alpha n : Q) :
  ~ psi_wp_cm gp theta_e theta_r m alpha n == 0 ->
  0 <= pet ->
  calculate_aet gp pet 0 theta_e theta_r m alpha n == pet.
Proof.
  intros Hnz Hpet.
  unfold AET.calculate_aet, AET.actual_ET_demand_, AET.h_ratio, AET.pow3.
  set (h50 := psi_wp_cm _ _ _ _ _ _) in *.
  assert (Hzero : 0 / h50 == 0) by (unfold Qdiv; ring).
  assert (Hone : 1 + (0 / h50) ^ 3 == 1) by (rewrite cube_eq, Hzero; ring).
  assert (Hval : pet * (1 / (1 + (0 / h50) ^ 3)) == pet).
  { rewrite Hone. unfold Qdiv. change (/ 1) with 1. ring. }
  rewrite clamp_inside; [exact Hval|rewrite Hval; lra|rewrite Hval; lra].
Qed.

(** The reduced demand for heads of one sign: the clamp is idle. *)
Lemma calculate_aet_same_sign (gp : AET.global_params)
    (pet psi_cm theta_e theta_r m alpha n : Q) :
  0 <= pet ->
  0 <= psi_cm / psi_wp_cm gp theta_e theta_r m alpha n ->
  calculate_aet gp pet psi_cm theta_e theta_r m alpha n
  == pet * / (1 + (psi_cm / psi_wp_cm gp theta_e theta_r m alpha n) ^ 3).
Proof.
  intros Hpet Hratio.
  unfold AET.calculate_aet, AET.actual_ET_demand_, AET.h_ratio, AET.pow3.
  set (x := psi_cm / _) in *.
  pose proof (cube_nonneg _ Hratio) as Hcube.
  destruct (reduced_demand_between pet (1 + x ^ 3) Hpet) as [H0 H1]; [lra|].
  rewrite clamp_inside by assumption. unfold Qdiv. ring.
Qed.

(** X3.  The drier the surface, the smaller the AET: for PET >= 0, a
    positive h50 and heads 0 <= h1 <= h2, the AET at h2 is at most the
    AET at h1. *)
Theorem calculate_aet_antitone_in_head (gp : AET.global_params)
    (pet psi1 psi2 theta_e theta_r m alpha n : Q) :
  0 <= pet ->
  0 < psi_wp_cm gp theta_e theta_r m alpha n ->
  0 <= psi1 -> psi1 <= psi2 ->
  calculate_aet gp pet psi2 theta_e theta_r m alpha n
  <= calculate_aet gp pet psi1 theta_e theta_r m alpha n.
Proof.
  intros Hpet Hh50 H1 H12.
  set (h50 := psi_wp_cm gp theta_e theta_r m alpha n) in *.
  assert (Hi : 0 < / h50) by (apply Qinv_lt_0_compat; exact Hh50).
  assert (Hx1 : 0 <= psi1 / h50) by (unfold Qdiv; nra).
  assert (Hx12 : psi1 / h50 <= psi2 / h50) by (unfold Qdiv; nra).
  assert (Hx2 : 0 <= psi2 / h50) by lra.
  rewrite (calculate_aet_same_sign gp pet psi1) by assumption.
  rewrite (calculate_aet_same_sign gp pet psi2) by assumption.
  fold h50.
  pose proof (cube_monotone _ _ Hx1 Hx12) as Hcube.
  pose proof (cube_nonneg _ Hx1) as Hc1.
  assert (Hinv : / (1 + (psi2 / h50) ^ 3) <= / (1 + (psi1 / h50) ^ 3))
    by (apply inverse_antitone; lra).
  nra.
Qed.

(** X5.  More demand never yields less AET: for 0 <= PET1 <= PET2 and one
    soil state (with non-zero h50 and denominator), AET at PET1 is at most
    AET at PET2. *)
Theorem calculate_aet_monotone_in_demand (gp : AET.global_params)
    (pet1 pet2 psi_cm theta_e theta_r m alpha n : Q) :
  ~ psi_wp_cm gp theta_e theta_r m alpha n == 0 ->
  ~ h_ratio gp psi_cm theta_e theta_r m alpha n == 0 ->
  0 <= pet1 -> pet1 <= pet2 ->
  calculate_aet gp pet1 psi_cm theta_e theta_r m alpha n
  <= calculate_aet gp pet2 psi_cm theta_e theta_r m alpha n.
Proof.
  intros _ _ H1 H12. rewrite !calculate_aet_unfold. unfold AET.clamp.
  set (f := 1 / h_ratio gp psi_cm theta_e theta_r m alpha n). clearbody f.
  destruct (Q.max_spec (pet1 * f) 0) as [[? Ha]|[? Ha]];
    destruct (Q.min_spec (Qmax (pet1 * f) 0) pet1) as [[? Hb]|[? Hb]];
    destruct (Q.max_spec (pet2 * f) 0) as [[? Hc]|[? Hc]];
    destruct (Q.min_spec (Qmax (pet2 * f) 0) pet2) as [[? Hd]|[? Hd]];
    rewrite Hb, Hd; try rewrite Ha; try rewrite Hc;
    rewrite ?Ha, ?Hc in *; nra.
Qed.

End AET_shape.

Lemma calculate_aet_nonpositive_demand_witness :
  -1 <= 0 /\ Sample.aet (-1) 1000 == -1.
Proof.
  split; [lra|].
  apply (calculate_aet_nonpositive_demand Sample.calc_theta_from_h
           Sample.calc_se_from_theta Sample.calc_h_from_se Sample.gp (-1) 1000
           Sample.theta_e Sample.theta_r 1 Sample.alpha 1).
  - vm_compute. discriminate.
  - vm_compute. discriminate.
  - lra.
Defined.

Lemma calculate_aet_saturated_witness :
  0 <= 1 /\ Sample.aet 1 0 == 1.
Proof.
  split; [lra|].
  apply (calculate_aet_saturated Sample.calc_theta_from_h
           Sample.calc_se_from_theta Sample.calc_h_from_se Sample.gp 1
           Sample.theta_e Sample.theta_r 1 Sample.alpha 1).
  - vm_compute. discriminate.
  - lra.
Defined.

Lemma calculate_aet_antitone_in_head_witness :
  0 <= 1000 /\ 1000 <= 2000 /\ Sample.aet 1 2000 <= Sample.aet 1 1000.
Proof.
  split; [lra|]. split; [lra|].
  apply (calculate_aet_antitone_in_head Sample.calc_theta_from_h
           Sample.calc_se_from_theta Sample.calc_h_from_se Sample.gp 1 1000 2000
           Sample.theta_e Sample.theta_r 1 Sample.alpha 1).
  - lra.
  - vm_compute. reflexivity.
  - lra.
  - lra.
Defined.

Lemma calculate_aet_monotone_in_demand_witness :
  0 <= 1 /\ 1 <= 2 /\ Sample.aet 1 1000 <= Sample.aet 2 1000.
Proof.
  split; [lra|]. split; [lra|].
  apply (calculate_aet_monotone_in_demand Sample.calc_theta_from_h
           Sample.calc_se_from_theta Sample.calc_h_from_se Sample.gp 1 2 1000
           Sample.theta_e Sample.theta_r 1 Sample.alpha 1).
  - vm_compute. discriminate.
  - vm_compute. discriminate.
  - lra.
  - lra.
Defined.

(** ** Data.py: construction, shapes and the maps *)

Lemma same_length_spec (n : nat) (rows : list (list Q)) :
  Data.same_length n rows = true <-> forall r, r ∈ rows -> length r = n.
Proof.
  unfold Data.same_length. rewrite forallb_forall. split.
  - intros H r Hr. apply Nat.eqb_eq, H, list_elem_of_In, Hr.
  - intros H r Hr. apply Nat.eqb_eq, H, list_elem_of_In, Hr.
Qed.

Lemma torch_stack_ok_shape (rows t : list (list Q)) :
  Data.torch_stack rows = Py.Ok t ->
  t = rows /\ exists n, forall r, r ∈ rows -> length r = n.
Proof.
  unfold Data.torch_stack. destruct rows as [|r rest]; [discriminate|].
  destruct (Data.same_length _ _) eqn:E; intros H; inversion H; subst.
  split; [reflexivity|]. exists (length r). apply same_length_spec, E.
Qed.

Lemma torch_stack_same_length (rows : list (list Q)) (n : nat) :
  rows <> [] -> (forall r, r ∈ rows -> length r = n) ->
  Data.torch_stack rows = Py.Ok rows.
Proof.
  intros Hne Hall. unfold Data.torch_stack. destruct rows as [|r rest]; [congruence|].
  assert (Hr : length r = n) by (apply Hall; left).
  rewrite Hr. rewrite (proj2 (same_length_spec n (r :: rest)) Hall). reflexivity.
Qed.

Section Data_more.

Import Data.

Variable calc_theta_from_h : Q -> Q -> Q -> Q -> Q -> Q -> Q.
Variable calc_bc_lambda : Q -> Q.
Variable calc_bc_psib : Q -> Q -> Q.
Variable calc_h_min_cm : Q -> Q -> Q.
Variable fs : gmap string DataFrame.

Local Abbreviation __init__ :=
  (__init__ calc_theta_from_h calc_bc_lambda calc_bc_psib calc_h_min_cm fs).
Local Abbreviation soil_rows :=
  (soil_rows calc_theta_from_h calc_bc_lambda calc_bc_psib calc_h_min_cm).
Local Abbreviation generate_soil_metrics :=
  (generate_soil_metrics calc_theta_from_h calc_bc_lambda calc_bc_psib calc_h_min_cm).

Lemma read_df_accepted (file : string) (df : DataFrame) :
  WellFormed.accepted_suffix file -> fs !! file = Some df ->
  read_df fs file = ([Call_read_df file], Py.Ok df).
Proof.
  intros Hsfx Hfs. unfold read_df, read_csv. rewrite Hfs.
  destruct Hsfx as [-> | ->]; reflexivity.
Qed.

Lemma soil_rows_lengths (cfg : DictConfig) (alpha n m theta_e theta_r k_sat : list Q)
    (N : nat) :
  length alpha = N -> length n = N -> length m = N ->
  length theta_e = N -> length theta_r = N -> length k_sat = N ->
  forall r, r ∈ soil_rows cfg alpha n m theta_e theta_r k_sat -> length r = N.
Proof.
  intros Ha Hn Hm Hte Htr Hk r Hr. unfold Data.soil_rows in Hr.
  repeat (apply elem_of_cons in Hr as [-> | Hr]);
    rewrite ?length_fmap, ?length_zip_with, ?length_zip, ?length_fmap;
    try lia.
  inversion Hr.
Qed.

Lemma generate_soil_metrics_ok (self : object) (cfg : DictConfig)
    (soils_df : DataFrame) (alpha n m theta_e theta_r k_sat : list Q) :
  self !! "soils_df" = Some (VFrame soils_df) ->
  WellFormed.soil_columns soils_df alpha n m theta_e theta_r k_sat ->
  length n = length alpha -> length m = length alpha ->
  length theta_e = length alpha -> length theta_r = length alpha ->
  length k_sat = length alpha ->
  generate_soil_metrics self cfg =
    ([Call_generate_soil_metrics],
     Py.Ok (soil_rows cfg alpha n m theta_e theta_r k_sat)).
Proof.
  intros Hself (Ha & Hn & Hm & Hte & Htr & Hk) Ln Lm Lte Ltr Lk.
  unfold Data.generate_soil_metrics, getattr, df_getitem.
  rewrite Hself. cbn [Py.tbind Py.emit Py.bind as_frame Py.lift].
  rewrite Ha, Hn, Hm, Hte, Htr, Hk. cbn [Py.bind torch_tensor].
  rewrite (torch_stack_same_length _ (length alpha)).
  - reflexivity.
  - discriminate.
  - apply soil_rows_lengths; auto.
Qed.

(** X6.  The constructor succeeds on well-formed files: when both paths
    end in [.csv] or [.dat] and exist, the forcing frame has a [Time]
    column and numeric [P(mm/h)] and [PET(mm/h)] columns of one length, and
    the soils frame has a [Texture] column and the six numeric columns of
    one length, [__init__] returns an instance after two calls of
    [read_df] and one of [generate_soil_metrics]. *)
Theorem init_succeeds (cfg : DictConfig) (forcing_df soils_df : DataFrame)
    (time_col texture_col : column) (precip pet : list Q)
    (alpha n m theta_e theta_r k_sat : list Q) :
  WellFormed.accepted_suffix (forcing_file cfg) ->
  WellFormed.accepted_suffix (soil_params_file cfg) ->
  fs !! forcing_file cfg = Some forcing_df ->
  fs !! soil_params_file cfg = Some soils_df ->
  forcing_df !! "Time" = Some time_col ->
  forcing_df !! "P(mm/h)" = Some (Float64 precip) ->
  forcing_df !! "PET(mm/h)" = Some (Float64 pet) ->
  length pet = length precip ->
  soils_df !! "Texture" = Some texture_col ->
  WellFormed.soil_columns soils_df alpha n m theta_e theta_r k_sat ->
  length n = length alpha -> length m = length alpha ->
  length theta_e = length alpha -> length theta_r = length alpha ->
  length k_sat = length alpha ->
  exists self,
    __init__ cfg =
      ([Call_read_df (forcing_file cfg); Call_read_df (soil_params_file cfg);
        Call_generate_soil_metrics], Py.Ok self)
    /\ getattr self "x" = Py.Ok (VMatrix [precip; pet])
    /\ getattr self "c" =
         Py.Ok (VMatrix (soil_rows cfg alpha n m theta_e theta_r k_sat)).
Proof.
  intros Hs1 Hs2 Hf1 Hf2 Htime Hp Hpet Lpet Htex Hcols Ln Lm Lte Ltr Lk.
  eexists. unfold Data.__init__.
  rewrite (read_df_accepted _ _ Hs1 Hf1). cbn [Py.tbind].
  unfold df_getitem at 1. rewrite Htime. cbn [Py.bind Py.lift Py.tbind].
  unfold df_getitem at 1. rewrite Hp. cbn [Py.bind Py.lift Py.tbind torch_tensor].
  unfold df_getitem at 1. rewrite Hpet. cbn [Py.bind Py.lift Py.tbind torch_tensor].
  rewrite (torch_stack_same_length [precip; pet] (length precip)).
  2: discriminate.
  2: { intros r Hr. repeat (apply elem_of_cons in Hr as [-> | Hr]); auto.
       inversion Hr. }
  cbn [Py.lift Py.tbind].
  rewrite (read_df_accepted _ _ Hs2 Hf2). cbn [Py.tbind].
  unfold df_getitem at 1. rewrite Htex. cbn [Py.bind Py.lift Py.tbind].
  erewrite generate_soil_metrics_ok;
    [|rewrite lookup_insert_ne by done; apply lookup_insert_eq|eassumption..].
  cbn [Py.tbind Py.tret app].
  split; [reflexivity|]. unfold getattr. split.
  - rewrite !lookup_insert_ne by done. rewrite lookup_insert_eq. reflexivity.
  - rewrite lookup_insert_ne by done. rewrite lookup_insert_eq. reflexivity.
Qed.

Lemma generate_soil_metrics_ok_shape (self : object) (cfg : DictConfig)
    (tr : list call) (c : list (list Q)) :
  generate_soil_metrics self cfg = (tr, Py.Ok c) ->
  exists soils_df alpha n m theta_e theta_r k_sat,
    self !! "soils_df" = Some (VFrame soils_df)
    /\ WellFormed.soil_columns soils_df alpha n m theta_e theta_r k_sat
    /\ c = soil_rows cfg alpha n m theta_e theta_r k_sat
    /\ forall r, r ∈ c -> length r = length alpha.
Proof.
  unfold Data.generate_soil_metrics. intros H.
  apply tbind_ok_inv in H as (tr1 & [] & tr2 & He & Hk & ->).
  apply lift_ok_inv in Hk as [-> Hk].
  apply bind_ok_inv in Hk as (soils_df & Hdf & Hk).
  apply bind_ok_inv in Hdf as (v & Hv & Hdf).
  unfold getattr in Hv. destruct (self !! "soils_df") as [v'|] eqn:Hself;
    inversion Hv; subst.
  destruct v; cbn in Hdf; inversion Hdf; subst.
  apply bind_ok_inv in Hk as (alpha & Halpha & Hk).
  apply bind_ok_inv in Hk as (n & Hn & Hk).
  apply bind_ok_inv in Hk as (m & Hm & Hk).
  apply bind_ok_inv in Hk as (theta_e & Hte & Hk).
  apply bind_ok_inv in Hk as (theta_r & Htr & Hk).
  apply bind_ok_inv in Hk as (k_sat & Hks & Hk).
  apply tensor_column_ok_inv in Halpha, Hn, Hm, Hte, Htr, Hks.
  apply torch_stack_ok_shape in Hk as (-> & N & Hall).
  exists soils_df, alpha, n, m, theta_e, theta_r, k_sat.
  split; [reflexivity|]. split; [repeat split; assumption|].
  split; [reflexivity|].
  intros r Hr. rewrite (Hall r Hr). symmetry. apply Hall.
  unfold Data.soil_rows. do 3 right. left.
Qed.

(** What a successful construction tells about the files and the two
    tensors, with their shapes. *)
Lemma init_ok_shapes (cfg : DictConfig) (tr : list call) (self : object) :
  __init__ cfg = (tr, Py.Ok self) ->
  exists forcing_df time_col precip pet soils_df texture_col
         alpha n m theta_e theta_r k_sat,
    fs !! forcing_file cfg = Some forcing_df
    /\ forcing_df !! "Time" = Some time_col
    /\ forcing_df !! "P(mm/h)" = Some (Float64 precip)
    /\ forcing_df !! "PET(mm/h)" = Some (Float64 pet)
    /\ length pet = length precip
    /\ fs !! soil_params_file cfg = Some soils_df
    /\ soils_df !! "Texture" = Some texture_col
    /\ WellFormed.soil_columns soils_df alpha n m theta_e theta_r k_sat
    /\ (forall r, r ∈ soil_rows cfg alpha n m theta_e theta_r k_sat ->
          length r = length alpha)
    /\ self !! "x" = Some (VMatrix [precip; pet])
    /\ self !! "c" = Some (VMatrix (soil_rows cfg alpha n m theta_e theta_r k_sat))
    /\ self !! "timestep_map" = Some (VDict (enumerate_dict 0 (values time_col) ∅))
    /\ self !! "texture_map" = Some (VDict (enumerate_dict 0 (values texture_col) ∅))
    /\ self !! "column_map" = Some (VDict column_map).
Proof.
  unfold Data.__init__. intros H.
  apply tbind_ok_inv in H as (t1 & forcing_df & t1' & Hread1 & H & ->).
  apply read_df_ok_inv in Hread1 as [-> Hforcing].
  apply tbind_ok_inv in H as (t2 & time_values & t2' & Htime & H & ->).
  apply lift_ok_inv in Htime as [-> Htime].
  apply bind_ok_inv in Htime as (time_col & Htime & Hvalues).
  apply df_getitem_ok_inv in Htime. inversion Hvalues; subst time_values.
  apply tbind_ok_inv in H as (t3 & precip & t3' & Hprecip & H & ->).
  apply lift_ok_inv in Hprecip as [-> Hprecip].
  apply tensor_column_ok_inv in Hprecip.
  apply tbind_ok_inv in H as (t4 & pet & t4' & Hpet & H & ->).
  apply lift_ok_inv in Hpet as [-> Hpet].
  apply tensor_column_ok_inv in Hpet.
  apply tbind_ok_inv in H as (t5 & x & t5' & Hx & H & ->).
  apply lift_ok_inv in Hx as [-> Hx].
  apply torch_stack_ok_shape in Hx as (-> & T & Hxs).
  apply tbind_ok_inv in H as (t6 & soils_df & t6' & Hread2 & H & ->).
  apply read_df_ok_inv in Hread2 as [-> Hsoils].
  apply tbind_ok_inv in H as (t7 & texture_values & t7' & Htex & H & ->).
  apply lift_ok_inv in Htex as [-> Htex].
  apply bind_ok_inv in Htex as (texture_col & Htex & Hvalues').
  apply df_getitem_ok_inv in Htex. inversion Hvalues'; subst texture_values.
  apply tbind_ok_inv in H as (t8 & c & t8' & Hgen & H & ->).
  apply generate_soil_metrics_ok_shape in Hgen
    as (sdf & alpha & n & m & theta_e & theta_r & k_sat & Hself & Hcols & -> & Hshape).
  rewrite lookup_insert_ne in Hself by done.
  rewrite lookup_insert_eq in Hself. inversion Hself; subst sdf.
  unfold Py.tret in H. inversion H; subst.
  exists forcing_df, time_col, precip, pet, soils_df, texture_col,
         alpha, n, m, theta_e, theta_r, k_sat.
  destruct Hcols as (Ha & Hn & Hm & Hte & Htr & Hk).
  assert (Hlen : length pet = length precip).
  { rewrite (Hxs pet) by (right; left). rewrite (Hxs precip) by left. reflexivity. }
  repeat split; try assumption; try reflexivity; try exact Hshape.
  all: try (rewrite !lookup_insert_ne by done; apply lookup_insert_eq).
  all: apply lookup_insert_eq.
Qed.

Lemma read_df_ok_suffix (file : string) (tr : list call) (df : DataFrame) :
  read_df fs file = (tr, Py.Ok df) -> WellFormed.accepted_suffix file.
Proof.
  unfold read_df, WellFormed.accepted_suffix. cbn [Py.tbind Py.emit].
  destruct (String.eqb (suffix file) ".csv") eqn:Ecsv;
    [intros _; left; apply String.eqb_eq; exact Ecsv|].
  destruct (String.eqb (suffix file) ".dat") eqn:Edat;
    [intros _; right; apply String.eqb_eq; exact Edat|].
  cbn. discriminate.
Qed.

(** X27.  The constructor succeeds on well-formed files only: if
    [__init__] returns an instance, both paths end in [.csv] or [.dat] and
    exist, the forcing frame has a [Time] column and numeric [P(mm/h)] and
    [PET(mm/h)] columns of one length, and the soils frame has a [Texture]
    column and the six numeric columns, all of one length. *)
Theorem init_succeeds_only_on_well_formed_files (cfg : DictConfig)
    (tr : list call) (self : object) :
  __init__ cfg = (tr, Py.Ok self) ->
  WellFormed.accepted_suffix (forcing_file cfg)
  /\ WellFormed.accepted_suffix (soil_params_file cfg)
  /\ exists forcing_df soils_df time_col texture_col precip pet
            alpha n m theta_e theta_r k_sat,
       fs !! forcing_file cfg = Some forcing_df
       /\ fs !! soil_params_file cfg = Some soils_df
       /\ forcing_df !! "Time" = Some time_col
       /\ forcing_df !! "P(mm/h)" = Some (Float64 precip)
       /\ forcing_df !! "PET(mm/h)" = Some (Float64 pet)
       /\ length pet = length precip
       /\ soils_df !! "Texture" = Some texture_col
       /\ WellFormed.soil_columns soils_df alpha n m theta_e theta_r k_sat
       /\ length n = length alpha /\ length m = length alpha
       /\ length theta_e = length alpha /\ length theta_r = length alpha
       /\ length k_sat = length alpha.
Proof.
  intros H.
  assert (Hsfx : WellFormed.accepted_suffix (forcing_file cfg)
                 /\ WellFormed.accepted_suffix (soil_params_file cfg)).
  { pose proof H as H0. unfold Data.__init__ in H0.
    apply tbind_ok_inv in H0 as (t1 & forcing_df & t1' & Hread1 & H0 & _).
    split; [exact (read_df_ok_suffix _ _ _ Hread1)|].
    apply tbind_ok_inv in H0 as (t2 & ? & t2' & _ & H0 & _).
    apply tbind_ok_inv in H0 as (t3 & ? & t3' & _ & H0 & _).
    apply tbind_ok_inv in H0 as (t4 & ? & t4' & _ & H0 & _).
    apply tbind_ok_inv in H0 as (t5 & ? & t5' & _ & H0 & _).
    apply tbind_ok_inv in H0 as (t6 & soils_df & t6' & Hread2 & _ & _).
    exact (read_df_ok_suffix _ _ _ Hread2). }
  destruct Hsfx as [Hf Hs]. split; [exact Hf|]. split; [exact Hs|].
  apply init_ok_shapes in H
    as (fdf & tc & precip & pet & sdf & xc & alpha & n & m & te & tr' & ks & H).
  destruct H as (Hfs & Htime & Hp & Hpet & Hlen & Hss & Htex & Hcols & Hrows & _).
  exists fdf, sdf, tc, xc, precip, pet, alpha, n, m, te, tr', ks.
  repeat split; try assumption; try apply Hcols;
    apply Hrows; unfold Data.soil_rows; set_solver.
Qed.

(** X7.  The two tensors of a constructed instance are rectangular: [x]
    has the two rows precipitation and PET, both as long as the forcing
    series, and [c] has eleven rows, each with one entry per row of the
    soils table. *)
Theorem tensors_rectangular (cfg : DictConfig) (tr : list call) (self : object) :
  __init__ cfg = (tr, Py.Ok self) ->
  exists precip pet c N,
    getattr self "x" = Py.Ok (VMatrix [precip; pet])
    /\ length pet = length precip
    /\ getattr self "c" = Py.Ok (VMatrix c)
    /\ length c = 11%nat
    /\ forall r, r ∈ c -> length r = N.
Proof.
  intros H. apply init_ok_shapes in H
    as (fdf & tc & precip & pet & sdf & xc & alpha & n & m & te & tr' & ks & H).
  destruct H as (_ & _ & _ & _ & Hlen & _ & _ & _ & Hshape & Hx & Hc & _).
  exists precip, pet, (soil_rows cfg alpha n m te tr' ks), (length alpha).
  unfold getattr. rewrite Hx, Hc. auto.
Qed.

(** X8.  [column_map] names the rows of [c] in the order they were
    stacked: each of the six numeric columns of the soils file is the row
    of [c] found under its name in [column_map]. *)
Theorem column_map_names_rows (cfg : DictConfig) (tr : list call) (self : object) :
  __init__ cfg = (tr, Py.Ok self) ->
  exists soils_df cmap c,
    fs !! soil_params_file cfg = Some soils_df
    /\ getattr self "column_map" = Py.Ok (VDict cmap)
    /\ getattr self "c" = Py.Ok (VMatrix c)
    /\ forall label name,
         (label, name) ∈ [ ("theta_e", "theta_e"); ("theta_r", "theta_r");
                           ("alpha(cm^-1)", "alpha"); ("n", "n"); ("m", "m");
                           ("Ks(cm/h)", "k_sat") ]%string ->
         exists i col,
           dict_getitem cmap (KStr name) = Py.Ok i
           /\ soils_df !! label = Some (Float64 col)
           /\ c !! i = Some col.
Proof.
  intros H. apply init_ok_shapes in H
    as (fdf & tc & precip & pet & sdf & xc & alpha & n & m & te & tr' & ks & H).
  destruct H as (_ & _ & _ & _ & _ & Hfs & _ & Hcols & _ & _ & Hc & _ & _ & Hmap).
  destruct Hcols as (Ha & Hn & Hm & Hte & Htr & Hk).
  exists sdf, column_map, (soil_rows cfg alpha n m te tr' ks).
  unfold getattr. rewrite Hc, Hmap.
  split; [exact Hfs|]. split; [reflexivity|]. split; [reflexivity|].
  intros label name Hin.
  repeat (apply elem_of_cons in Hin as [Heq | Hin];
          [inversion Heq; subst; clear Heq|]).
  - exists 0%nat, te. split; [vm_compute; reflexivity|]. auto.
  - exists 1%nat, tr'. split; [vm_compute; reflexivity|]. auto.
  - exists 3%nat, alpha. split; [vm_compute; reflexivity|]. auto.
  - exists 4%nat, n. split; [vm_compute; reflexivity|]. auto.
  - exists 5%nat, m. split; [vm_compute; reflexivity|]. auto.
  - exists 6%nat, ks. split; [vm_compute; reflexivity|]. auto.
  - inversion Hin.
Qed.

Lemma enumerate_dict_range (vs : list key) :
  forall i d k j,
    enumerate_dict i vs d !! k = Some j ->
    d !! k = Some j \/ (i <= j < i + length vs)%nat.
Proof.
  induction vs as [|v rest IH]; intros i d k j H; [left; exact H|].
  cbn [enumerate_dict] in H. apply IH in H as [H|H]; [|right; cbn [length]; lia].
  destruct (decide (v = k)) as [->|Hne].
  - rewrite lookup_insert_eq in H. inversion H. right. cbn [length]. lia.
  - rewrite lookup_insert_ne in H by exact Hne. left. exact H.
Qed.

(** X9.  [timestep_map] inverts the [Time] column: when the times of the
    forcing file are pairwise distinct, looking up the time of row [i]
    yields [i], and every index the map returns is a row of the file. *)
Theorem timestep_map_inverts_time (cfg : DictConfig) (tr : list call)
    (self : object) (forcing_df : DataFrame) (time_col : column) :
  __init__ cfg = (tr, Py.Ok self) ->
  fs !! forcing_file cfg = Some forcing_df ->
  forcing_df !! "Time" = Some time_col ->
  NoDup (values time_col) ->
  exists timestep_map,
    getattr self "timestep_map" = Py.Ok (VDict timestep_map)
    /\ (forall i t, values time_col !! i = Some t ->
          dict_getitem timestep_map t = Py.Ok i)
    /\ (forall t i, dict_getitem timestep_map t = Py.Ok i ->
          values time_col !! i = Some t).
Proof.
  intros H Hfs Htime Hnodup. apply init_ok_shapes in H
    as (fdf & tc & precip & pet & sdf & xc & alpha & n & m & te & tr' & ks & H).
  destruct H as (Hfs' & Htime' & _ & _ & _ & _ & _ & _ & _ & _ & _ & Hmap & _).
  assert (fdf = forcing_df) by congruence. subst fdf.
  assert (tc = time_col) by congruence. subst tc.
  exists (enumerate_dict 0 (values time_col) ∅).
  unfold getattr. rewrite Hmap. split; [reflexivity|].
  assert (Hfwd : forall i t, values time_col !! i = Some t ->
            dict_getitem (enumerate_dict 0 (values time_col) ∅) t = Py.Ok i).
  { intros i t Hi. unfold dict_getitem.
    rewrite (enumerate_dict_last _ 0 ∅ t i Hi); [reflexivity|].
    intros j Hlt Hj.
    pose proof (NoDup_lookup _ _ _ _ Hnodup Hi Hj). lia. }
  split; [exact Hfwd|].
  intros t i Hget. unfold dict_getitem in Hget.
  destruct (enumerate_dict 0 (values time_col) ∅ !! t) as [j|] eqn:E;
    inversion Hget; subst j.
  destruct (decide (t ∈ values time_col)) as [Hin|Hout].
  - apply list_elem_of_lookup in Hin as [j Hj].
    pose proof (Hfwd j t Hj) as Hj'. unfold dict_getitem in Hj'.
    rewrite E in Hj'. inversion Hj'; subst. exact Hj.
  - rewrite enumerate_dict_absent in E by exact Hout.
    rewrite lookup_empty in E. discriminate.
Qed.

(** X10.  Every index that [texture_map] returns addresses an entry in
    each of the eleven rows of [c], provided the [Texture] column is as
    long as the numeric columns (as in any parsed table). *)
Theorem texture_index_in_bounds (cfg : DictConfig) (tr : list call)
    (self : object) (soils_df : DataFrame) (texture_col : column) (alpha : list Q) :
  __init__ cfg = (tr, Py.Ok self) ->
  fs !! soil_params_file cfg = Some soils_df ->
  soils_df !! "Texture" = Some texture_col ->
  soils_df !! "alpha(cm^-1)" = Some (Float64 alpha) ->
  length (values texture_col) = length alpha ->
  exists texture_map c,
    getattr self "texture_map" = Py.Ok (VDict texture_map)
    /\ getattr self "c" = Py.Ok (VMatrix c)
    /\ forall texture i,
         dict_getitem texture_map texture = Py.Ok i ->
         forall r, (r < 11)%nat -> is_Some (item c r i).
Proof.
  intros H Hfs Htex Halpha Hlen. apply init_ok_shapes in H
    as (fdf & tc & precip & pet & sdf & xc & alpha' & n & m & te & tr' & ks & H).
  destruct H as (_ & _ & _ & _ & _ & Hfs' & Htex' & Hcols & Hshape & _ & Hc & _ & Hmap & _).
  assert (sdf = soils_df) by congruence. subst sdf.
  assert (xc = texture_col) by congruence. subst xc.
  assert (alpha' = alpha) by (destruct Hcols as (Ha & _); congruence). subst alpha'.
  exists (enumerate_dict 0 (values texture_col) ∅), (soil_rows cfg alpha n m te tr' ks).
  unfold getattr. rewrite Hmap, Hc. split; [reflexivity|]. split; [reflexivity|].
  intros texture i Hget r Hr. unfold dict_getitem in Hget.
  destruct (enumerate_dict 0 (values texture_col) ∅ !! texture) as [j|] eqn:E;
    inversion Hget; subst j.
  apply enumerate_dict_range in E as [E|E]; [rewrite lookup_empty in E; discriminate|].
  assert (Hrow : exists row, soil_rows cfg alpha n m te tr' ks !! r = Some row).
  { apply lookup_lt_is_Some. unfold Data.soil_rows. cbn [length]. lia. }
  destruct Hrow as [row Hrow]. unfold item. rewrite Hrow. cbn.
  apply lookup_lt_is_Some.
  rewrite (Hshape row) by (apply list_elem_of_lookup; eauto). lia.
Qed.

Lemma tensor_column_cases (df : DataFrame) (label : string) :
  Py.bind (df_getitem df label) torch_tensor =
    match df !! label with
    | Some (Float64 v) => Py.Ok v
    | Some (Object _) => Py.Raise Py.TypeError
    | None => Py.Raise Py.KeyError
    end.
Proof. unfold df_getitem. destruct (df !! label) as [[v|v]|]; reflexivity. Qed.

(** X11.  [generate_soil_metrics] on a soils frame that lacks one of its
    six numeric columns raises [KeyError], provided none of the six is a
    text column (which would raise [TypeError] first or instead). *)
Theorem generate_soil_metrics_missing_column (self : object) (cfg : DictConfig)
    (soils_df : DataFrame) (label : string) :
  self !! "soils_df" = Some (VFrame soils_df) ->
  label ∈ [ "alpha(cm^-1)"; "n"; "m"; "theta_e"; "theta_r"; "Ks(cm/h)" ]%string ->
  soils_df !! label = None ->
  (forall l v,
     l ∈ [ "alpha(cm^-1)"; "n"; "m"; "theta_e"; "theta_r"; "Ks(cm/h)" ]%string ->
     soils_df !! l <> Some (Object v)) ->
  generate_soil_metrics self cfg = ([Call_generate_soil_metrics], Py.Raise Py.KeyError).
Proof.
  intros Hself Hlabel Hmissing Hnotext.
  unfold Data.generate_soil_metrics, getattr. rewrite Hself.
  cbn [Py.tbind Py.emit Py.bind as_frame Py.lift].
  rewrite !tensor_column_cases.
  destruct (soils_df !! "alpha(cm^-1)"%string) as [[v1|v1]|] eqn:E1; cbn [Py.bind];
    [|exfalso; apply (Hnotext "alpha(cm^-1)"%string v1); [repeat constructor|exact E1]|reflexivity].
  destruct (soils_df !! "n"%string) as [[v2|v2]|] eqn:E2; cbn [Py.bind];
    [|exfalso; apply (Hnotext "n"%string v2); [repeat constructor|exact E2]|reflexivity].
  destruct (soils_df !! "m"%string) as [[v3|v3]|] eqn:E3; cbn [Py.bind];
    [|exfalso; apply (Hnotext "m"%string v3); [repeat constructor|exact E3]|reflexivity].
  destruct (soils_df !! "theta_e"%string) as [[v4|v4]|] eqn:E4; cbn [Py.bind];
    [|exfalso; apply (Hnotext "theta_e"%string v4); [repeat constructor|exact E4]|reflexivity].
  destruct (soils_df !! "theta_r"%string) as [[v5|v5]|] eqn:E5; cbn [Py.bind];
    [|exfalso; apply (Hnotext "theta_r"%string v5); [repeat constructor|exact E5]|reflexivity].
  destruct (soils_df !! "Ks(cm/h)"%string) as [[v6|v6]|] eqn:E6; cbn [Py.bind];
    [|exfalso; apply (Hnotext "Ks(cm/h)"%string v6); [repeat constructor|exact E6]|reflexivity].
  exfalso.
  repeat (apply elem_of_cons in Hlabel as [-> | Hlabel]; [congruence|]).
  inversion Hlabel.
Qed.

End Data_more.

Lemma init_succeeds_witness :
  WellFormed.accepted_suffix (Data.forcing_file Sample.data_cfg)
  /\ WellFormed.accepted_suffix (Data.soil_params_file Sample.data_cfg)
  /\ WellFormed.soil_columns Sample.soils_df
       [ 1 # 25; 1 # 100 ] [ 3; 5 # 4 ] [ 2 # 3; 1 # 5 ]
       [ 2 # 5; 1 # 2 ] [ 1 # 20; 1 # 10 ] [ 20; 1 # 20 ]
  /\ exists self,
       Sample.data_init = (Sample.data_trace, Py.Ok self)
       /\ Data.getattr self "x"
          = Py.Ok (Data.VMatrix [ [ 0; 1 # 10; 0 ]; [ 1 # 20; 0; 1 # 25 ] ]).
Proof.
  assert (Hf : WellFormed.accepted_suffix (Data.forcing_file Sample.data_cfg))
    by (left; vm_compute; reflexivity).
  assert (Hs : WellFormed.accepted_suffix (Data.soil_params_file Sample.data_cfg))
    by (right; vm_compute; reflexivity).
  assert (Hc : WellFormed.soil_columns Sample.soils_df
                 [ 1 # 25; 1 # 100 ] [ 3; 5 # 4 ] [ 2 # 3; 1 # 5 ]
                 [ 2 # 5; 1 # 2 ] [ 1 # 20; 1 # 10 ] [ 20; 1 # 20 ])
    by (repeat split; vm_compute; reflexivity).
  split; [exact Hf|]. split; [exact Hs|]. split; [exact Hc|].
  destruct (init_succeeds Sample.calc_theta_from_h Sample.calc_bc_lambda
              Sample.calc_bc_psib Sample.calc_h_min_cm Sample.fs Sample.data_cfg
              Sample.forcing_df Sample.soils_df
              (Data.Object [ "2016-10-14 14:00:00"; "2016-10-14 15:00:00";
                             "2016-10-14 16:00:00" ]%string)
              (Data.Object [ "Sand"; "Clay" ]%string)
              [ 0; 1 # 10; 0 ] [ 1 # 20; 0; 1 # 25 ]
              [ 1 # 25; 1 # 100 ] [ 3; 5 # 4 ] [ 2 # 3; 1 # 5 ]
              [ 2 # 5; 1 # 2 ] [ 1 # 20; 1 # 10 ] [ 20; 1 # 20 ]
              Hf Hs)
    as (self & Hinit & Hx & _);
    [vm_compute; reflexivity | vm_compute; reflexivity | vm_compute; reflexivity
    | vm_compute; reflexivity | vm_compute; reflexivity | reflexivity
    | vm_compute; reflexivity | exact Hc
    | reflexivity | reflexivity | reflexivity | reflexivity | reflexivity |].
  exists self. split; [exact Hinit|exact Hx].
Defined.

Lemma init_succeeds_only_on_well_formed_files_witness :
  Sample.data_init = (Sample.data_trace, Py.Ok Sample.data)
  /\ WellFormed.accepted_suffix (Data.forcing_file Sample.data_cfg)
  /\ WellFormed.accepted_suffix (Data.soil_params_file Sample.data_cfg).
Proof.
  split; [exact sample_data_init|].
  destruct (init_succeeds_only_on_well_formed_files Sample.calc_theta_from_h
              Sample.calc_bc_lambda Sample.calc_bc_psib Sample.calc_h_min_cm Sample.fs
              Sample.data_cfg Sample.data_trace Sample.data sample_data_init)
    as (Hf & Hs & _).
  split; [exact Hf|exact Hs].
Defined.

Lemma tensors_rectangular_witness :
  Sample.data_init = (Sample.data_trace, Py.Ok Sample.data)
  /\ exists precip pet c N,
       Data.getattr Sample.data "x" = Py.Ok (Data.VMatrix [precip; pet])
       /\ length pet = length precip
       /\ Data.getattr Sample.data "c" = Py.Ok (Data.VMatrix c)
       /\ length c = 11%nat
       /\ forall r, r ∈ c -> length r = N.
Proof.
  split; [exact sample_data_init|].
  exact (tensors_rectangular Sample.calc_theta_from_h Sample.calc_bc_lambda
           Sample.calc_bc_psib Sample.calc_h_min_cm Sample.fs Sample.data_cfg
           Sample.data_trace Sample.data sample_data_init).
Defined.

Lemma column_map_names_rows_witness :
  Sample.data_init = (Sample.data_trace, Py.Ok Sample.data)
  /\ exists cmap c i,
       Data.getattr Sample.data "column_map" = Py.Ok (Data.VDict cmap)
       /\ Data.getattr Sample.data "c" = Py.Ok (Data.VMatrix c)
       /\ Data.dict_getitem cmap (Data.KStr "k_sat") = Py.Ok i
       /\ c !! i = Some [ 20; 1 # 20 ].
Proof.
  split; [exact sample_data_init|].
  destruct (column_map_names_rows Sample.calc_theta_from_h Sample.calc_bc_lambda
              Sample.calc_bc_psib Sample.calc_h_min_cm Sample.fs Sample.data_cfg
              Sample.data_trace Sample.data sample_data_init)
    as (soils_df & cmap & c & Hfs & Hmap & Hc & Hrows).
  destruct (Hrows "Ks(cm/h)"%string "k_sat"%string) as (i & col & Hi & Hcol & Hrow).
  { repeat constructor. }
  exists cmap, c, i. split; [exact Hmap|]. split; [exact Hc|]. split; [exact Hi|].
  rewrite Hrow. f_equal.
  assert (Hdf : soils_df = Sample.soils_df).
  { apply (inj Some). rewrite <- Hfs. vm_compute. reflexivity. }
  subst soils_df. 
  assert (Hk : Sample.soils_df !! "Ks(cm/h)"%string = Some (Data.Float64 [ 20; 1 # 20 ]))
    by (vm_compute; reflexivity).
  rewrite Hk in Hcol. congruence.
Defined.

Lemma timestep_map_inverts_time_witness :
  Sample.data_init = (Sample.data_trace, Py.Ok Sample.data)
  /\ exists timestep_map,
       Data.getattr Sample.data "timestep_map" = Py.Ok (Data.VDict timestep_map)
       /\ Data.dict_getitem timestep_map (Data.KStr "2016-10-14 15:00:00") = Py.Ok 1%nat.
Proof.
  split; [exact sample_data_init|].
  destruct (timestep_map_inverts_time Sample.calc_theta_from_h Sample.calc_bc_lambda
              Sample.calc_bc_psib Sample.calc_h_min_cm Sample.fs Sample.data_cfg
              Sample.data_trace Sample.data Sample.forcing_df
              (Data.Object [ "2016-10-14 14:00:00"; "2016-10-14 15:00:00";
                             "2016-10-14 16:00:00" ]%string)
              sample_data_init)
    as (tm & Hmap & Hinv & _).
  - vm_compute. reflexivity.
  - vm_compute. reflexivity.
  - apply (bool_decide_eq_true_1 _). vm_compute. reflexivity.
  - exists tm. split; [exact Hmap|]. apply Hinv. reflexivity.
Defined.

Lemma texture_index_in_bounds_witness :
  Sample.data_init = (Sample.data_trace, Py.Ok Sample.data)
  /\ exists texture_map c,
       Data.getattr Sample.data "texture_map" = Py.Ok (Data.VDict texture_map)
       /\ Data.getattr Sample.data "c" = Py.Ok (Data.VMatrix c)
       /\ forall texture i,
            Data.dict_getitem texture_map texture = Py.Ok i ->
            forall r, (r < 11)%nat -> is_Some (Data.item c r i).
Proof.
  split; [exact sample_data_init|].
  apply (texture_index_in_bounds Sample.calc_theta_from_h Sample.calc_bc_lambda
           Sample.calc_bc_psib Sample.calc_h_min_cm Sample.fs Sample.data_cfg
           Sample.data_trace Sample.data Sample.soils_df
           (Data.Object [ "Sand"; "Clay" ]%string) [ 1 # 25; 1 # 100 ]
           sample_data_init).
  - vm_compute. reflexivity.
  - vm_compute. reflexivity.
  - vm_compute. reflexivity.
  - reflexivity.
Defined.

Lemma generate_soil_metrics_missing_column_witness :
  Scenario.soils_df_without_n !! "n"%string = None
  /\ Data.generate_soil_metrics Sample.calc_theta_from_h Sample.calc_bc_lambda
       Sample.calc_bc_psib Sample.calc_h_min_cm Scenario.data_without_n Sample.data_cfg
     = ([Data.Call_generate_soil_metrics], Py.Raise Py.KeyError).
Proof.
  split; [vm_compute; reflexivity|].
  apply (generate_soil_metrics_missing_column Sample.calc_theta_from_h
           Sample.calc_bc_lambda Sample.calc_bc_psib Sample.calc_h_min_cm
           Scenario.data_without_n Sample.data_cfg Scenario.soils_df_without_n "n"%string).
  - vm_compute. reflexivity.
  - repeat constructor.
  - vm_compute. reflexivity.
  - intros l v Hl.
    repeat (apply elem_of_cons in Hl as [->|Hl]; [vm_compute; discriminate|]).
    apply elem_of_nil in Hl. destruct Hl.
Defined.

(** ** SyntheticAgent.py: batches, aborted runs and outputs *)

Lemma batches_fuel_spec {A} (fuel : nat) :
  forall (bs : nat) (l : list A),
    (1 <= bs)%nat -> (length l <= fuel)%nat ->
    concat (SyntheticAgent.batches_fuel fuel bs l) = l
    /\ Forall (fun b => (1 <= length b <= bs)%nat) (SyntheticAgent.batches_fuel fuel bs l)
    /\ (forall i b, SyntheticAgent.batches_fuel fuel bs l !! i = Some b ->
          (S i < length (SyntheticAgent.batches_fuel fuel bs l))%nat ->
          length b = bs).
Proof.
  induction fuel as [|fuel IH]; intros bs l Hbs Hlen.
  - destruct l; [|cbn in Hlen; lia]. cbn. repeat split; [constructor|].
    intros i b H. rewrite lookup_nil in H. discriminate.
  - destruct l as [|a l]; [cbn; repeat split; [constructor|];
      intros i b H; rewrite lookup_nil in H; discriminate|].
    cbn [SyntheticAgent.batches_fuel].
    set (l0 := a :: l) in *.
    assert (Hdrop : (length (drop bs l0) <= fuel)%nat).
    { rewrite length_drop. subst l0. cbn [length] in *. lia. }
    destruct (IH bs (drop bs l0) Hbs Hdrop) as (Hcat & Hall & Hfull).
    split; [cbn [concat]; rewrite Hcat; apply take_drop|].
    split.
    + constructor; [|exact Hall]. rewrite length_take. subst l0. cbn [length]. lia.
    + intros [|i] b Hb Hi; cbn in Hb.
      * inversion Hb; subst b. cbn [length] in Hi.
        destruct (SyntheticAgent.batches_fuel fuel bs (drop bs l0)) as [|b' rest] eqn:E;
          [cbn in Hi; lia|].
        rewrite length_take.
        destruct (Nat.le_gt_cases bs (length l0)) as [Hle|Hgt]; [lia|].
        rewrite drop_ge in E by lia.
        destruct fuel; discriminate.
      * cbn [length] in Hi. apply (Hfull i b Hb). lia.
Qed.

(** The loader splits the data set into consecutive batches without
    losing or reordering an item. *)
Lemma DataLoader_partitions {A} (data : list A) (batch_size : Z)
    (batches : list (list A)) :
  SyntheticAgent.DataLoader data batch_size = Py.Ok batches ->
  concat batches = data
  /\ Forall (fun b => (1 <= length b <= Z.to_nat batch_size)%nat) batches
  /\ (forall i b, batches !! i = Some b -> (S i < length batches)%nat ->
        length b = Z.to_nat batch_size).
Proof.
  unfold SyntheticAgent.DataLoader.
  destruct (Z.leb_spec batch_size 0) as [Hle|Hgt]; [discriminate|].
  intros H. inversion H; subst. apply batches_fuel_spec; lia.
Qed.

Lemma int_below_one (q : Q) : q < 1 -> (Py.int q <= 0)%Z.
Proof.
  intros Hq. unfold Py.int.
  assert (Hnum : (Qnum q < Z.pos (Qden q))%Z).
  { unfold Qlt in Hq. simpl in Hq. lia. }
  assert (Hzero : (Z.quot (Z.pos (Qden q) - 1) (Z.pos (Qden q)) = 0)%Z)
    by (apply Z.quot_small; lia).
  rewrite <- Hzero. apply Z.quot_le_mono; lia.
Qed.

Lemma count_event_app (ev : SyntheticAgent.event) (t1 t2 : list SyntheticAgent.event) :
  SyntheticAgent.count_event ev (t1 ++ t2)
  = (SyntheticAgent.count_event ev t1 + SyntheticAgent.count_event ev t2)%nat.
Proof. unfold SyntheticAgent.count_event. rewrite filter_app, length_app. reflexivity. Qed.

Lemma count_event_iterations_other (ev : SyntheticAgent.event) :
  ev = SyntheticAgent.ReportMass \/ ev = SyntheticAgent.SaveData ->
  forall i n,
    SyntheticAgent.count_event ev (SyntheticAgent.iterations_trace i n) = 0%nat.
Proof.
  intros Hev i n. revert i. induction n as [|n IH]; intros i; [reflexivity|].
  unfold SyntheticAgent.count_event in *. cbn [SyntheticAgent.iterations_trace].
  rewrite !filter_cons_False by (destruct Hev; subst; discriminate). apply IH.
Qed.

Section SyntheticAgent_more.

Import SyntheticAgent.

Variable X Y Model MassBalance : Type.
Variable Data : DictConfig -> Py.result (list (X * Y)).
Variable SyntheticLGAR : DictConfig -> Py.result Model.
Variable new_MassBalance : DictConfig -> Model -> Py.result MassBalance.
Variable forward : nat -> list X -> Model -> Py.result (Q * Model).
Variable change_mass : MassBalance -> Model -> Py.result MassBalance.
Variable report_mass : MassBalance -> Model -> Py.result unit.
Variable save_data : DictConfig -> list Q -> Py.result unit.

Local Abbreviation __init__ := (__init__ Data SyntheticLGAR new_MassBalance).
Local Abbreviation run := (run forward change_mass report_mass save_data).
Local Abbreviation loop := (loop forward change_mass).
Local Abbreviation iteration := (iteration forward change_mass).
Local Abbreviation ledger_after := (ledger_after forward change_mass).
Local Abbreviation runoffs := (SyntheticOutputs.runoffs forward change_mass).

Lemma configure_subcycles_minibatch (c c' : DictConfig) :
  configure_subcycles c = Py.Ok c' -> minibatch c' = minibatch c.
Proof.
  unfold configure_subcycles. intros Hc.
  destruct (Py.truediv 1 (hr_to_sec c)); cbn [Py.bind] in Hc; [|discriminate].
  destruct (Py.truediv (forcing_resolution c) (hr_to_sec c));
    cbn [Py.bind] in Hc; [|discriminate].
  destruct (Py.truediv _ _); cbn [Py.bind] in Hc; [|discriminate].
  inversion Hc. reflexivity.
Qed.

(** X12.  A constructed agent runs over the whole data set: the batches
    of its loader concatenate, in order, to the rows [Data] returned for
    the agent's configuration; the batch size is
    [int(minibatch * 24)], the product taken in float arithmetic, and at
    least 1; no batch is empty, none holds more rows than the batch size,
    and every batch but the last is full.  The configuration numbers are
    doubles of moderate size. *)
Theorem init_loader_covers_data (c : DictConfig) (a : agent X Y Model MassBalance) :
  Float64.moderate (hr_to_sec c) = true ->
  Float64.moderate (subcycle_length c) = true ->
  Float64.moderate_or_zero (forcing_resolution c) = true ->
  Float64.moderate_or_zero (minibatch c) = true ->
  __init__ c = Py.Ok a ->
  exists data,
    Data (cfg a) = Py.Ok data
    /\ concat (data_loader a) = data
    /\ hourly_mini_batch a = Py.int (Float64.mul (minibatch c) 24)
    /\ (1 <= hourly_mini_batch a)%Z
    /\ Forall (fun b => (1 <= length b <= Z.to_nat (hourly_mini_batch a))%nat)
         (data_loader a)
    /\ (forall i b, data_loader a !! i = Some b ->
          (S i < length (data_loader a))%nat ->
          length b = Z.to_nat (hourly_mini_batch a)).
Proof.
  unfold SyntheticAgent.__init__. intros _ _ _ _ H.
  destruct (configure_subcycles c) as [c'|] eqn:Hc; [|discriminate].
  cbn [Py.bind] in H.
  destruct (Data c') as [data|] eqn:Hdata; [|discriminate]. cbn [Py.bind] in H.
  destruct (DataLoader data (Py.int (Float64.mul (minibatch c') 24)))
    as [loader|] eqn:Hloader; [|discriminate].
  cbn [Py.bind] in H.
  destruct (SyntheticLGAR c') as [mdl|]; [|discriminate]. cbn [Py.bind] in H.
  destruct (new_MassBalance c' mdl) as [mb|]; [|discriminate]. cbn [Py.bind] in H.
  inversion H; subst a; clear H. cbn [cfg data_loader hourly_mini_batch].
  rewrite (configure_subcycles_minibatch _ _ Hc) in *.
  exists data. split; [exact Hdata|].
  destruct (DataLoader_partitions _ _ _ Hloader) as (Hcat & Hall & Hfull).
  split; [exact Hcat|]. split; [reflexivity|]. split.
  - unfold DataLoader in Hloader.
    destruct (Z.leb_spec (Py.int (Float64.mul (minibatch c) 24)) 0); [discriminate|lia].
  - split; [exact Hall|exact Hfull].
Qed.

(** X13.  A minibatch whose float product with 24 is below 1 leaves no
    room for a single forcing row: when the configuration numbers are
    doubles of moderate size and the data set is built, the constructor
    raises [ValueError] (batch size [int(minibatch * 24) <= 0]); the
    model is not built. *)
Theorem init_rejects_small_minibatch (c c' : DictConfig) (data : list (X * Y)) :
  Float64.moderate (hr_to_sec c) = true ->
  Float64.moderate (subcycle_length c) = true ->
  Float64.moderate_or_zero (forcing_resolution c) = true ->
  Float64.moderate_or_zero (minibatch c) = true ->
  configure_subcycles c = Py.Ok c' ->
  Data c' = Py.Ok data ->
  Float64.mul (minibatch c) 24 < 1 ->
  __init__ c = Py.Raise Py.ValueError.
Proof.
  intros _ _ _ _ Hc Hdata Hmb. unfold SyntheticAgent.__init__.
  rewrite Hc. cbn [Py.bind]. rewrite Hdata. cbn [Py.bind].
  rewrite (configure_subcycles_minibatch _ _ Hc). unfold DataLoader.
  pose proof (int_below_one _ Hmb) as Hint.
  destruct (Z.leb_spec (Py.int (Float64.mul (minibatch c) 24)) 0); [reflexivity|lia].
Qed.

Lemma iteration_ok (i : nat) (batch : list (X * Y))
    (st : run_state Y Model MassBalance) (runoff : Q) (mdl : Model) (mb : MassBalance) :
  forward i (batch.*1) (rs_model st) = Py.Ok (runoff, mdl) ->
  change_mass (rs_mass_balance st) mdl = Py.Ok mb ->
  iteration i batch st =
    ([Forward i; ChangeMass; Sleep],
     Py.Ok {| rs_model := mdl; rs_mass_balance := mb;
              y_hat_ := <[i := runoff]> (y_hat_ st);
              y_t_ := <[i := batch.*2]> (y_t_ st) |}).
Proof.
  intros Hf Hm. unfold SyntheticAgent.iteration. rewrite Hf.
  cbn [Py.tbind Py.emit Py.lift]. rewrite Hm. reflexivity.
Qed.

Lemma loop_aborted (pre : list (list (X * Y))) (batch : list (X * Y))
    (post : list (list (X * Y))) (e : Py.exn) :
  forall i st mdl mb,
    ledger_after i pre (rs_model st) (rs_mass_balance st) = Py.Ok (mdl, mb) ->
    forward (i + length pre) (batch.*1) mdl = Py.Raise e ->
    loop i (pre ++ batch :: post) st =
      (iterations_trace i (length pre) ++ [Forward (i + length pre)], Py.Raise e).
Proof.
  induction pre as [|b pre IH]; intros i st mdl mb Hledger Hfail.
  - cbn in Hledger. inversion Hledger; subst.
    cbn [app length SyntheticAgent.loop iterations_trace].
    rewrite Nat.add_0_r in *. unfold SyntheticAgent.iteration. rewrite Hfail.
    reflexivity.
  - cbn [SyntheticAgent.ledger_after] in Hledger.
    destruct (forward i (b.*1) (rs_model st)) as [[runoff m1]|] eqn:Hf;
      [|discriminate].
    cbn [Py.bind snd] in Hledger.
    destruct (change_mass (rs_mass_balance st) m1) as [mb1|] eqn:Hm;
      [|discriminate].
    cbn [Py.bind] in Hledger.
    cbn [app SyntheticAgent.loop].
    rewrite (iteration_ok _ _ _ _ _ _ Hf Hm). cbn [Py.tbind].
    cbn [length] in Hfail. rewrite <- Nat.add_succ_comm in Hfail.
    erewrite IH; [|exact Hledger|exact Hfail].
    cbn [length iterations_trace]. rewrite <- Nat.add_succ_comm. reflexivity.
Qed.

(** X14.  A forward pass that raises stops the run: when the batches
    before it hold one row each, the passes over them succeed and the
    pass over batch k raises an exception other than
    [KeyboardInterrupt], [run] raises the same exception; the ledger has
    been updated k times, and neither [report_mass] nor [save_data] is
    called. *)
Theorem run_aborts_on_forward_error (a : agent X Y Model MassBalance)
    (pre : list (list (X * Y))) (batch : list (X * Y)) (post : list (list (X * Y)))
    (mdl : Model) (mb : MassBalance) (e : Py.exn) :
  data_loader a = pre ++ batch :: post ->
  Forall (fun b => length b = 1%nat) pre ->
  e <> SyntheticOutputs.KeyboardInterrupt ->
  ledger_after 0 pre (model a) (mass_balance a) = Py.Ok (mdl, mb) ->
  forward (length pre) (batch.*1) mdl = Py.Raise e ->
  exists tr,
    run a = (tr, Py.Raise e)
    /\ tr = iterations_trace 0 (length pre) ++ [Forward (length pre)]
    /\ count_event ChangeMass tr = length pre
    /\ count_event ReportMass tr = 0%nat
    /\ count_event SaveData tr = 0%nat.
Proof.
  intros Hloader _ _ Hledger Hfail. eexists. split; [|split; [reflexivity|]].
  - unfold SyntheticAgent.run. rewrite Hloader.
    erewrite loop_aborted; [reflexivity|exact Hledger|exact Hfail].
  - rewrite !count_event_app, count_iterations_trace.
    rewrite !count_event_iterations_other by auto.
    unfold count_event. rewrite !filter_cons_False by discriminate.
    rewrite filter_nil. cbn [length]. repeat split; lia.
Qed.

Lemma loop_outputs (loader : list (list (X * Y))) :
  forall i st tr st',
    loop i loader st = (tr, Py.Ok st') ->
    (i + length loader <= length (y_hat_ st))%nat ->
    exists ys,
      runoffs i loader (rs_model st) (rs_mass_balance st) = Py.Ok ys
      /\ length ys = length loader
      /\ y_hat_ st' = take i (y_hat_ st) ++ ys ++ drop (i + length loader) (y_hat_ st).
Proof.
  induction loader as [|batch rest IH]; intros i st tr st' H Hlen.
  - cbn in H. inversion H; subst. exists []. cbn [length app].
    rewrite Nat.add_0_r, take_drop. auto.
  - cbn [SyntheticAgent.loop] in H. cbn [length] in Hlen.
    apply tbind_ok_inv in H as (t1 & st1 & t2 & Hit & Hrest & ->).
    pose proof Hit as Hit'.
    apply iteration_completed in Hit' as (_ & runoff & Hfwd & Hmb).
    rewrite (iteration_ok _ _ _ _ _ _ Hfwd Hmb) in Hit.
    injection Hit as Htr Hst1.
    apply IH in Hrest as (ys & Hys & Hlys & Hy).
    2: { rewrite <- Hst1. cbn [y_hat_]. rewrite length_insert. lia. }
    exists (runoff :: ys). cbn [SyntheticOutputs.runoffs].
    rewrite Hfwd. cbn [Py.bind snd fst]. rewrite Hmb. cbn [Py.bind].
    rewrite Hys. cbn [Py.bind length].
    split; [reflexivity|]. split; [lia|].
    rewrite Hy. rewrite <- Hst1. cbn [y_hat_].
    rewrite (take_S_r _ _ runoff) by (apply list_lookup_insert_eq; lia).
    rewrite take_insert_ge by lia.
    rewrite drop_insert_lt by lia.
    rewrite <- app_assoc. cbn [app].
    replace (i + S (length rest))%nat with (S i + length rest)%nat by lia.
    reflexivity.
Qed.

(** X15.  A completed run hands [save_data] exactly one runoff value per
    batch, in the order of the batches: the value returned by the forward
    pass of batch [i] is stored in slot [i], and no slot keeps its initial
    zero or is written twice. *)
Theorem run_saves_one_runoff_per_batch
    (a a' : agent X Y Model MassBalance) (tr : list event) :
  run a = (tr, Py.Ok a') ->
  exists ys,
    runoffs 0 (data_loader a) (model a) (mass_balance a) = Py.Ok ys
    /\ length ys = length (data_loader a)
    /\ save_data (cfg a) ys = Py.Ok tt.
Proof.
  unfold SyntheticAgent.run. intros H.
  apply tbind_ok_inv in H as (t1 & st & t1' & Hloop & H & ->).
  apply tbind_ok_inv in H as (t2 & [] & t2' & _ & H & ->).
  apply tbind_ok_inv in H as (t3 & [] & t3' & _ & H & ->).
  apply tbind_ok_inv in H as (t4 & [] & t4' & _ & H & ->).
  apply tbind_ok_inv in H as (t5 & [] & t5' & Hsave & H & ->).
  apply lift_ok_inv in Hsave as [_ Hsave].
  apply loop_outputs in Hloop as (ys & Hys & Hlen & Hy).
  2: { cbn [y_hat_]. rewrite length_replicate. lia. }
  cbn [rs_model rs_mass_balance y_hat_] in *.
  exists ys. split; [exact Hys|]. split; [exact Hlen|].
  rewrite Hy in Hsave. cbn [take app] in Hsave.
  rewrite drop_ge in Hsave by (rewrite length_replicate; lia).
  rewrite app_nil_r in Hsave. exact Hsave.
Qed.

End SyntheticAgent_more.

Lemma init_loader_covers_data_witness :
  Float64.moderate_or_zero (SyntheticAgent.minibatch Sample.cfg0) = true
  /\ Sample.init = Py.Ok Sample.agent0
  /\ exists data,
       Sample.Dataset (SyntheticAgent.cfg Sample.agent0) = Py.Ok data
       /\ concat (SyntheticAgent.data_loader Sample.agent0) = data
       /\ SyntheticAgent.hourly_mini_batch Sample.agent0 = 1%Z.
Proof.
  split; [vm_compute; reflexivity|]. split; [exact sample_init|].
  destruct (init_loader_covers_data (Q * Q) Q unit nat Sample.Dataset
              Sample.SyntheticLGAR Sample.new_MassBalance Sample.cfg0 Sample.agent0)
    as (data & Hdata & Hcat & Hmb & _);
    [vm_compute; reflexivity|vm_compute; reflexivity|vm_compute; reflexivity
    |vm_compute; reflexivity|exact sample_init|].
  exists data. split; [exact Hdata|]. split; [exact Hcat|].
  rewrite Hmb. vm_compute. reflexivity.
Defined.

Lemma init_rejects_small_minibatch_witness :
  Float64.moderate_or_zero (SyntheticAgent.minibatch Scenario.cfg_small) = true
  /\ Float64.mul (SyntheticAgent.minibatch Scenario.cfg_small) 24 < 1
  /\ SyntheticAgent.__init__ Sample.Dataset Sample.SyntheticLGAR Sample.new_MassBalance
       Scenario.cfg_small = Py.Raise Py.ValueError.
Proof.
  split; [vm_compute; reflexivity|]. split; [vm_compute; reflexivity|].
  apply (init_rejects_small_minibatch (Q * Q) Q unit nat Sample.Dataset
           Sample.SyntheticLGAR Sample.new_MassBalance Scenario.cfg_small
           Scenario.cfg_small_configured Sample.forcing).
  - vm_compute. reflexivity.
  - vm_compute. reflexivity.
  - vm_compute. reflexivity.
  - vm_compute. reflexivity.
  - vm_compute. reflexivity.
  - reflexivity.
  - vm_compute. reflexivity.
Defined.

Lemma run_aborts_on_forward_error_witness :
  Scenario.RuntimeError <> SyntheticOutputs.KeyboardInterrupt
  /\ exists tr,
       SyntheticAgent.run Scenario.forward_failing Sample.change_mass Sample.report_mass
         Sample.save_data Sample.agent0 = (tr, Py.Raise Scenario.RuntimeError)
       /\ SyntheticAgent.count_event SyntheticAgent.ChangeMass tr = 1%nat
       /\ SyntheticAgent.count_event SyntheticAgent.ReportMass tr = 0%nat
       /\ SyntheticAgent.count_event SyntheticAgent.SaveData tr = 0%nat.
Proof.
  split; [discriminate|].
  destruct (run_aborts_on_forward_error (Q * Q) Q unit nat Scenario.forward_failing
              Sample.change_mass Sample.report_mass Sample.save_data Sample.agent0
              [ [ ((1 # 10, 0), 0) ] ] [ ((0, 1 # 20), 0) ] [] tt 1%nat
              Scenario.RuntimeError)
    as (tr & Hrun & _ & Hc & Hr & Hs).
  - reflexivity.
  - repeat constructor.
  - discriminate.
  - vm_compute. reflexivity.
  - vm_compute. reflexivity.
  - exists tr. split; [exact Hrun|]. split; [exact Hc|]. split; [exact Hr|exact Hs].
Defined.

Lemma run_saves_one_runoff_per_batch_witness :
  Sample.run Sample.agent0 = (Sample.trace0, Py.Ok Sample.agent1)
  /\ exists ys,
       SyntheticOutputs.runoffs Sample.forward Sample.change_mass 0
         (SyntheticAgent.data_loader Sample.agent0) tt 0%nat = Py.Ok ys
       /\ length ys = 2%nat
       /\ Sample.save_data (SyntheticAgent.cfg Sample.agent0) ys = Py.Ok tt.
Proof.
  split; [exact sample_run|].
  exact (run_saves_one_runoff_per_batch (Q * Q) Q unit nat Sample.forward
           Sample.change_mass Sample.report_mass Sample.save_data
           Sample.agent0 Sample.agent1 Sample.trace0 sample_run).
Defined.

(** ** LGARBmi.py: initialisation and the time loop *)

Section BmiAdapter_facts.

Import PyState BmiAdapter.

Variable Model : Type.
Variable LGAR : DictConfig -> Py.result Model.
Variable sft_coupled : Model -> bool.
Variable frozen_factor_hydraulic_conductivity : Model -> Py.result Model.
Variable fs : gmap string Data.DataFrame.
Variable __debug__ : bool.

Local Abbreviation object := (gmap string (value Model)).

Variable eval_config : string -> stateful object DictConfig.

Local Abbreviation initialize := (initialize Model LGAR fs __debug__ eval_config).
Local Abbreviation update := (update Model sft_coupled frozen_factor_hydraulic_conductivity).
Local Abbreviation update_until_body :=
  (update_until_body Model sft_coupled frozen_factor_hydraulic_conductivity).
Local Abbreviation update_until :=
  (update_until Model sft_coupled frozen_factor_hydraulic_conductivity).

Lemma getattr_present (self : object) (name : string) (v : value Model) :
  self !! name = Some v -> getattr Model name self = (self, Py.Ok v).
Proof. intros H. unfold getattr. rewrite H. reflexivity. Qed.

Lemma getattr_absent (self : object) (name : string) :
  self !! name = None -> getattr Model name self = (self, Py.Raise (Py.AttributeError name)).
Proof. intros H. unfold getattr. rewrite H. reflexivity. Qed.

(** X16.  With assertions enabled, [initialize] returns normally only
    if evaluating the configuration string itself gives the instance an
    attribute [x]: no statement of the class sets one, and the closing
    assertion reads [self.x].  So whenever the instance has no [x] once
    the string is evaluated, [initialize] ends in an exception. *)
Theorem initialize_never_completes (config_file : string) (self : object) :
  __debug__ = true ->
  fst (eval_config config_file self) !! "x" = None ->
  snd (initialize config_file self) <> Py.Ok tt.
Proof.
  intros Hdebug Hx. unfold BmiAdapter.initialize, sbind, slift, setattr, smodify.
  destruct (eval_config config_file self) as [self0 [cfg|e]]; [|discriminate].
  cbn [fst] in Hx.
  destruct (LGAR cfg) as [mdl|e]; [|discriminate].
  destruct (snd (ReadForcing.read_forcing_data fs (forcing_file cfg)))
    as [[[dates precipitation] PET]|e]; [|discriminate].
  destruct (Py.truediv (endtime cfg) (timestep cfg)) as [ratio|e]; [|discriminate].
  destruct (variables cfg) as [v|]; [|discriminate].
  rewrite Hdebug.
  rewrite getattr_present with (v := VInt (Py.int ratio)).
  2: { rewrite lookup_insert_ne by done. apply lookup_insert_eq. }
  rewrite getattr_absent; [discriminate|].
  rewrite !lookup_insert_ne by done. exact Hx.
Qed.

(** X17.  With assertions enabled: when the configuration string
    evaluates to a configuration with a [variables] node and leaves the
    instance without an attribute [x], the model is built, the forcing
    file is read, and the end time and the timestep are doubles of
    moderate size (the end time may be zero), [initialize] raises
    [AttributeError] for [x] at its closing assertion; the instance is left
    with the model, both forcing series, the four input variables, each
    still [None], and [nsteps = int(endtime / timestep)], the quotient
    taken in float arithmetic. *)
Theorem initialize_stops_at_assertion (config_file : string) (self self0 : object)
    (cfg : DictConfig) (v : option Z) (mdl : Model) (tr : list Data.call)
    (dates : list Data.key) (precipitation PET : list Q) :
  __debug__ = true ->
  eval_config config_file self = (self0, Py.Ok cfg) ->
  self0 !! "x" = None ->
  variables cfg = Some v ->
  LGAR cfg = Py.Ok mdl ->
  ReadForcing.read_forcing_data fs (forcing_file cfg)
    = (tr, Py.Ok (dates, precipitation, PET)) ->
  Float64.moderate (timestep cfg) = true ->
  Float64.moderate_or_zero (endtime cfg) = true ->
  exists self',
    initialize config_file self = (self', Py.Raise (Py.AttributeError "x"))
    /\ self' !! "_model" = Some (VModel mdl)
    /\ self' !! "precipitation" = Some (VTensor precipitation)
    /\ self' !! "PET" = Some (VTensor PET)
    /\ self' !! "_values" = Some (VValues input_values)
    /\ self' !! "nsteps"
       = Some (VInt (Py.int (Float64.div (endtime cfg) (timestep cfg)))).
Proof.
  intros Hdebug Heval Hx Hvars Hmdl Hread Hts _. apply moderate_nonzero in Hts.
  eexists.
  unfold BmiAdapter.initialize, sbind, slift, setattr, smodify.
  rewrite Heval, Hmdl, Hread. cbn [snd].
  rewrite (truediv_defined _ _ Hts). rewrite Hvars, Hdebug.
  rewrite getattr_present
    with (v := VInt (Py.int (Float64.div (endtime cfg) (timestep cfg)))).
  2: { rewrite lookup_insert_ne by done. apply lookup_insert_eq. }
  rewrite getattr_absent.
  2: { rewrite !lookup_insert_ne by done. exact Hx. }
  split; [reflexivity|].
  repeat split;
    (rewrite !lookup_insert_ne by done; apply lookup_insert_eq).
Qed.

(** Whatever happens from the division on, [initialize] has by then
    stored the input variables and the end time. *)
Lemma initialize_sets_values (config_file : string) (self self0 : object)
    (cfg : DictConfig) (mdl : Model) (tr : list Data.call)
    (dates : list Data.key) (precipitation PET : list Q) :
  eval_config config_file self = (self0, Py.Ok cfg) ->
  LGAR cfg = Py.Ok mdl ->
  ReadForcing.read_forcing_data fs (forcing_file cfg)
    = (tr, Py.Ok (dates, precipitation, PET)) ->
  fst (initialize config_file self) !! "_values" = Some (VValues input_values)
  /\ fst (initialize config_file self) !! "_end_time" = Some (VFloat (endtime cfg)).
Proof.
  intros Heval Hmdl Hread.
  unfold BmiAdapter.initialize, sbind, slift, sret, setattr, smodify.
  rewrite Heval, Hmdl, Hread. cbn [snd].
  destruct (Py.truediv (endtime cfg) (timestep cfg)) as [ratio|e].
  2: { cbn [fst]. split; repeat (rewrite lookup_insert_ne by done); apply lookup_insert_eq. }
  destruct (variables cfg) as [v|].
  2: { cbn [fst]. split; repeat (rewrite lookup_insert_ne by done); apply lookup_insert_eq. }
  destruct __debug__.
  2: { cbn [fst]. split; repeat (rewrite lookup_insert_ne by done); apply lookup_insert_eq. }
  rewrite getattr_present with (v := VInt (Py.int ratio)).
  2: { rewrite lookup_insert_ne by done. apply lookup_insert_eq. }
  unfold getattr.
  destruct (_ !! "x"%string) as [x|].
  2: { cbn [fst]. split; repeat (rewrite lookup_insert_ne by done); apply lookup_insert_eq. }
  destruct (shape0 Model x) as [rows|e];
    [destruct (Py.int ratio <=? rows)%Z|];
    cbn [fst]; split; repeat (rewrite lookup_insert_ne by done); apply lookup_insert_eq.
Qed.

Lemma update_cases (self : object) :
  (exists e, update self = (self, Py.Raise e))
  \/ update self = (self, Py.Ok tt)
  \/ exists mdl r, update self = (<["_model" := VModel mdl]> self, r).
Proof.
  unfold BmiAdapter.update, sbind, getattr.
  destruct (self !! "_model"%string) as [v|]; [|left; eexists; reflexivity].
  destruct v; try (left; eexists; reflexivity).
  destruct (sft_coupled m); [|right; left; reflexivity].
  unfold slift. destruct (frozen_factor_hydraulic_conductivity m) as [m'|e].
  - right. right. exists m'. eexists. reflexivity.
  - left. eexists. reflexivity.
Qed.

Lemma update_until_body_cases (time : Z) (self : object) :
  (exists e, update_until_body time self = (self, Py.Raise e))
  \/ update_until_body time self = update self.
Proof.
  unfold BmiAdapter.update_until_body, sbind, getattr, slift, set_value, sret.
  destruct (self !! "precipitation"%string) as [p|]; [|left; eexists; reflexivity].
  destruct (getitem Model p time) as [pt|e]; [|left; eexists; reflexivity].
  destruct (self !! "PET"%string) as [pe|]; [|left; eexists; reflexivity].
  destruct (getitem Model pe time) as [et|e]; [|left; eexists; reflexivity].
  right. reflexivity.
Qed.

Lemma update_until_body_frame (time : Z) (self : object) (name : string) :
  name <> "_model"%string ->
  fst (update_until_body time self) !! name = self !! name.
Proof.
  intros Hname.
  destruct (update_until_body_cases time self) as [[e ->]| ->]; [reflexivity|].
  destruct (update_cases self) as [[e ->]|[->|(mdl & r & ->)]]; try reflexivity.
  cbn [fst]. apply lookup_insert_ne. congruence.
Qed.

Lemma update_until_frame (time : Z) (self : object) (name : string) :
  name <> "_model"%string ->
  fst (update_until time self) !! name = self !! name.
Proof.
  intros Hname. unfold BmiAdapter.update_until.
  generalize (Z.to_nat time) as k. intros k. revert self.
  induction k as [|k IH]; intros self; [reflexivity|].
  cbn [repeat_body]. unfold sbind.
  pose proof (update_until_body_frame time self name Hname) as Hbody.
  destruct (update_until_body time self) as [s' [[]|e]]; cbn [fst] in *.
  - rewrite IH. exact Hbody.
  - exact Hbody.
Qed.

(** X18.  [update_until] never stores a forcing value: [set_value] has no
    body, so whatever the time and the state, and whether the loop ends
    normally or in an exception, every attribute other than [_model] is
    after the call what it was before. *)
Theorem update_until_keeps_attributes (time : Z) (self : object) (name : string) :
  name <> "_model"%string ->
  fst (update_until time self) !! name = self !! name.
Proof. exact (update_until_frame time self name). Qed.

(** X19.  The loop of [update_until] reads element [time] of the series
    at every pass: called with a positive [time] that is not below the
    length of the precipitation series (for instance with the number of
    forcing rows), it raises [IndexError] at once and leaves the instance
    untouched. *)
Theorem update_until_out_of_range (time : Z) (self : object) (precipitation : list Q) :
  self !! "precipitation" = Some (VTensor precipitation) ->
  (0 < time)%Z ->
  (Z.of_nat (length precipitation) <= time)%Z ->
  update_until time self = (self, Py.Raise Py.IndexError).
Proof.
  intros Hp Hpos Hlen. unfold BmiAdapter.update_until.
  destruct (Z.to_nat time) as [|k] eqn:Hk; [lia|].
  cbn [repeat_body]. unfold sbind at 1.
  unfold BmiAdapter.update_until_body, sbind, slift.
  rewrite (getattr_present _ _ _ Hp).
  unfold getitem, Data.normalize_index.
  destruct (Z.leb_spec 0 time), (Z.ltb_spec time (Z.of_nat (length precipitation))),
           (Z.leb_spec (- Z.of_nat (length precipitation)) time), (Z.ltb_spec time 0);
    cbn; try reflexivity; lia.
Qed.

(** X20.  Without soil-freeze-thaw coupling the time loop does nothing:
    for a model with [sft_coupled] unset and a [time] inside both series,
    [update_until(time)] returns normally and leaves the instance exactly
    as it was. *)
Theorem update_until_without_coupling (time : Z) (self : object)
    (precipitation PET : list Q) (mdl : Model) :
  self !! "precipitation" = Some (VTensor precipitation) ->
  self !! "PET" = Some (VTensor PET) ->
  self !! "_model" = Some (VModel mdl) ->
  sft_coupled mdl = false ->
  (time < Z.of_nat (length precipitation))%Z ->
  (time < Z.of_nat (length PET))%Z ->
  update_until time self = (self, Py.Ok tt).
Proof.
  intros Hp He Hm Hsft Hlp Hle. unfold BmiAdapter.update_until.
  destruct (Z.le_gt_cases time 0) as [Hneg|Hpos].
  { replace (Z.to_nat time) with O by lia. reflexivity. }
  assert (Hbody : update_until_body time self = (self, Py.Ok tt)).
  { unfold BmiAdapter.update_until_body, sbind, slift, set_value, sret.
    rewrite (getattr_present _ _ _ Hp).
    assert (Hget : forall t, (time < Z.of_nat (length t))%Z ->
              exists q, getitem Model (VTensor t) time = Py.Ok q).
    { intros t Ht. unfold getitem, Data.normalize_index.
      destruct (Z.leb_spec 0 time), (Z.ltb_spec time (Z.of_nat (length t)));
        try lia. cbn [andb Py.bind].
      destruct (lookup_lt_is_Some_2 t (Z.to_nat time)) as [q Hq]; [lia|].
      rewrite Hq. eauto. }
    destruct (Hget _ Hlp) as [pt ->]. rewrite (getattr_present _ _ _ He).
    destruct (Hget _ Hle) as [et ->].
    unfold BmiAdapter.update, sbind. rewrite (getattr_present _ _ _ Hm).
    rewrite Hsft. reflexivity. }
  generalize (Z.to_nat time) as k. intros k.
  induction k as [|k IH]; [reflexivity|].
  cbn [repeat_body]. unfold sbind. rewrite Hbody. exact IH.
Qed.

(** X26.  The adapter never exposes a forcing value: on the instance
    [initialize] leaves behind when the configuration parses, the model is
    built, the forcing file is read and the timestep is not zero, and
    after any [update_until], [get_value_ptr] returns [None] for each of
    the four input variables and raises [KeyError] for every other name,
    and [get_end_time] returns the configured end time. *)
Theorem get_value_ptr_stays_None (config_file : string) (self self0 : object)
    (cfg : DictConfig) (mdl : Model) (tr : list Data.call)
    (dates : list Data.key) (precipitation PET : list Q) (time : Z) (name : string) :
  self !! "x" = None ->
  eval_config config_file self = (self0, Py.Ok cfg) ->
  LGAR cfg = Py.Ok mdl ->
  ReadForcing.read_forcing_data fs (forcing_file cfg)
    = (tr, Py.Ok (dates, precipitation, PET)) ->
  ~ timestep cfg == 0 ->
  let self' := fst (update_until time (fst (initialize config_file self))) in
  (name ∈ [ "precipitation_rate"; "potential_evapotranspiration_rate";
            "soil_moisture_wetting_fronts"; "soil_depth_wetting_fronts" ]%string ->
     snd (get_value_ptr Model name self') = Py.Ok None)
  /\ (name ∉ [ "precipitation_rate"; "potential_evapotranspiration_rate";
               "soil_moisture_wetting_fronts"; "soil_depth_wetting_fronts" ]%string ->
        snd (get_value_ptr Model name self') = Py.Raise Py.KeyError)
  /\ snd (get_end_time Model self') = Py.Ok (VFloat (endtime cfg)).
Proof.
  intros _ Hcfg Hmdl Hread _ self'.
  destruct (initialize_sets_values config_file self self0 cfg mdl tr dates
              precipitation PET Hcfg Hmdl Hread) as (Hv & Hend).
  assert (Hv' : self' !! "_values"%string = Some (VValues input_values)).
  { subst self'. rewrite update_until_frame by discriminate. exact Hv. }
  assert (Hend' : self' !! "_end_time"%string = Some (VFloat (endtime cfg))).
  { subst self'. rewrite update_until_frame by discriminate. exact Hend. }
  clearbody self'.
  unfold get_value_ptr, get_end_time, sbind.
  rewrite (getattr_present _ _ _ Hv'), (getattr_present _ _ _ Hend').
  split; [|split; [|reflexivity]].
  - intros Hin. unfold input_values.
    repeat (apply elem_of_cons in Hin as [->|Hin]; [vm_compute; reflexivity|]).
    apply elem_of_nil in Hin. destruct Hin.
  - intros Hout.
    assert (Hnone : input_values !! name = None).
    { unfold input_values.
      rewrite !lookup_insert_ne; [apply lookup_empty|..];
        intros <-; apply Hout; repeat constructor. }
    rewrite Hnone. reflexivity.
Qed.

End BmiAdapter_facts.

Lemma initialize_never_completes_witness :
  fst (Scenario.eval_config "cfg" Scenario.bmi0) !! "x"%string = None
  /\ snd (Scenario.initialize "cfg" Scenario.bmi0) <> Py.Ok tt.
Proof.
  split; [vm_compute; reflexivity|].
  apply (initialize_never_completes bool Scenario.LGAR Sample.fs true
           Scenario.eval_config "cfg" Scenario.bmi0).
  - reflexivity.
  - vm_compute. reflexivity.
Defined.

Lemma initialize_stops_at_assertion_witness :
  Scenario.bmi0 !! "x"%string = None
  /\ Float64.moderate (BmiAdapter.timestep Scenario.bmi_cfg) = true
  /\ exists self',
       Scenario.initialize "cfg" Scenario.bmi0 = (self', Py.Raise (Py.AttributeError "x"))
       /\ self' !! "precipitation"%string = Some (BmiAdapter.VTensor [ 0; 1 # 10; 0 ])
       /\ self' !! "nsteps"%string = Some (BmiAdapter.VInt 3).
Proof.
  split; [vm_compute; reflexivity|]. split; [vm_compute; reflexivity|].
  destruct (initialize_stops_at_assertion bool Scenario.LGAR Sample.fs true
              Scenario.eval_config "cfg" Scenario.bmi0 Scenario.bmi0
              Scenario.bmi_cfg None false []
              [ Data.KStr "2016-10-14 14:00:00"; Data.KStr "2016-10-14 15:00:00";
                Data.KStr "2016-10-14 16:00:00" ]
              [ 0; 1 # 10; 0 ] [ 1 # 20; 0; 1 # 25 ])
    as (self' & Hinit & _ & Hp & _ & _ & Hn).
  - reflexivity.
  - reflexivity.
  - vm_compute. reflexivity.
  - reflexivity.
  - reflexivity.
  - vm_compute. reflexivity.
  - vm_compute. reflexivity.
  - vm_compute. reflexivity.
  - exists self'. split; [exact Hinit|]. split; [exact Hp|].
    rewrite Hn. vm_compute. reflexivity.
Defined.

Lemma update_until_keeps_attributes_witness :
  "_values"%string <> "_model"%string
  /\ fst (Scenario.update_until 2 Scenario.bmi1) !! "_values"%string
     = Scenario.bmi1 !! "_values"%string.
Proof.
  split; [discriminate|].
  apply (update_until_keeps_attributes bool Scenario.sft_coupled
           Scenario.frozen_factor_hydraulic_conductivity 2 Scenario.bmi1 "_values").
  discriminate.
Defined.

Lemma update_until_out_of_range_witness :
  Scenario.bmi1 !! "precipitation"%string = Some (BmiAdapter.VTensor [ 0; 1 # 10; 0 ])
  /\ Scenario.update_until 3 Scenario.bmi1 = (Scenario.bmi1, Py.Raise Py.IndexError).
Proof.
  split; [vm_compute; reflexivity|].
  apply (update_until_out_of_range bool Scenario.sft_coupled
           Scenario.frozen_factor_hydraulic_conductivity 3 Scenario.bmi1 [ 0; 1 # 10; 0 ]).
  - vm_compute. reflexivity.
  - lia.
  - simpl. lia.
Defined.

Lemma update_until_without_coupling_witness :
  Scenario.bmi1 !! "_model"%string = Some (BmiAdapter.VModel false)
  /\ Scenario.update_until 2 Scenario.bmi1 = (Scenario.bmi1, Py.Ok tt).
Proof.
  split; [vm_compute; reflexivity|].
  apply (update_until_without_coupling bool Scenario.sft_coupled
           Scenario.frozen_factor_hydraulic_conductivity 2 Scenario.bmi1
           [ 0; 1 # 10; 0 ] [ 1 # 20; 0; 1 # 25 ] false).
  - vm_compute. reflexivity.
  - vm_compute. reflexivity.
  - vm_compute. reflexivity.
  - reflexivity.
  - simpl. lia.
  - simpl. lia.
Defined.

Lemma get_value_ptr_stays_None_witness :
  Scenario.bmi0 !! "x"%string = None
  /\ ~ BmiAdapter.timestep Scenario.bmi_cfg == 0
  /\ snd (BmiAdapter.get_value_ptr bool "precipitation_rate"
            (fst (Scenario.update_until 2
                    (fst (Scenario.initialize "cfg" Scenario.bmi0)))))
     = Py.Ok None.
Proof.
  split; [vm_compute; reflexivity|]. split; [vm_compute; discriminate|].
  destruct (get_value_ptr_stays_None bool Scenario.LGAR Scenario.sft_coupled
              Scenario.frozen_factor_hydraulic_conductivity Sample.fs true
              Scenario.eval_config "cfg" Scenario.bmi0 Scenario.bmi0
              Scenario.bmi_cfg false []
              [ Data.KStr "2016-10-14 14:00:00"; Data.KStr "2016-10-14 15:00:00";
                Data.KStr "2016-10-14 16:00:00" ]
              [ 0; 1 # 10; 0 ] [ 1 # 20; 0; 1 # 25 ] 2 "precipitation_rate")
    as (Hin & _ & _).
  - vm_compute. reflexivity.
  - reflexivity.
  - reflexivity.
  - vm_compute. reflexivity.
  - vm_compute. discriminate.
  - apply Hin. repeat constructor.
Defined.

(** ** DifferentiableLGAR.py: construction and training *)

Section DifferentiableLGAR_facts.

Import DifferentiableLGAR.

Variable calc_theta_from_h : Q -> Q -> Q -> Q -> Q -> Q -> Q.
Variable calc_bc_lambda : Q -> Q.
Variable calc_bc_psib : Q -> Q -> Q.
Variable calc_h_min_cm : Q -> Q -> Q.
Variable fs : gmap string Data.DataFrame.
Variable Model : Type.
Variable dpLGAR : DictConfig -> Py.result Model.
Variable alpha n ksat : Model -> list Q.
Variable forward : Model -> list (list Q) -> list (list Q) -> Py.result (list (list Q)).
Variable train_mode : Model -> Model.
Variable zero_grad : Model -> Model.
Variable calculate_nse : list (list Q) -> list (list Q) -> Py.result Q.
Variable criterion : list (list Q) -> list (list Q) -> Py.result Q.
Variable backward : Model -> Q -> Py.result Model.
Variable step : Model -> Py.result Model.

Local Abbreviation __init__ :=
  (__init__ calc_theta_from_h calc_bc_lambda calc_bc_psib calc_h_min_cm fs
     Model dpLGAR alpha n ksat).
Local Abbreviation train_one_epoch :=
  (train_one_epoch Model forward zero_grad calculate_nse criterion backward step).
Local Abbreviation train :=
  (train Model forward train_mode zero_grad calculate_nse criterion backward step).

(** X21.  The agent cannot be constructed with the [Data] class of
    [lgartorch/data/Data.py]: [__init__] calls [Data(cfg, alpha, n, ksat)]
    while that constructor takes [cfg] alone, so once the configuration is
    derived and the model is built the call raises [TypeError]; no
    configuration yields an agent. *)
Theorem agent_cannot_be_constructed (cfg0 : DictConfig) :
  (forall a, __init__ cfg0 <> Py.Ok a)
  /\ (forall cfg1 mdl,
        configure_steps cfg0 = Py.Ok cfg1 -> dpLGAR cfg1 = Py.Ok mdl ->
        __init__ cfg0 = Py.Raise Py.TypeError).
Proof.
  unfold DifferentiableLGAR.__init__. split.
  - intros a. destruct (configure_steps cfg0) as [cfg1|e]; [|discriminate].
    cbn [Py.bind]. destruct (dpLGAR cfg1) as [mdl|e]; discriminate.
  - intros cfg1 mdl H1 H2. rewrite H1. cbn [Py.bind]. rewrite H2. reflexivity.
Qed.

(** X22.  The configuration entries that [__init__] derives: a zero
    [hr_to_sec] or a zero [forcing_resolution] raises
    [ZeroDivisionError] ([time_per_step] is then zero); for doubles of
    moderate size (the end time may be zero) the four entries are set,
    with [time_per_step = forcing_resolution / hr_to_sec * hr_to_sec] and
    [nsteps = int(endtime * hr_to_sec / time_per_step)], every operation
    rounded as float arithmetic rounds it. *)
Theorem configure_steps_defined (cfg : DictConfig) :
  (hr_to_sec cfg == 0 \/ forcing_resolution cfg == 0 ->
     configure_steps cfg = Py.Raise Py.ZeroDivisionError)
  /\ (Float64.moderate (hr_to_sec cfg) = true ->
      Float64.moderate (forcing_resolution cfg) = true ->
      Float64.moderate_or_zero (endtime cfg) = true ->
      exists cfg',
        configure_steps cfg = Py.Ok cfg'
        /\ time_per_step cfg'
           = Some (Float64.mul (Float64.div (forcing_resolution cfg) (hr_to_sec cfg))
                     (hr_to_sec cfg))
        /\ nsteps cfg'
           = Some (Py.int (Float64.div
                             (Float64.mul (endtime cfg) (hr_to_sec cfg))
                             (Float64.mul
                                (Float64.div (forcing_resolution cfg) (hr_to_sec cfg))
                                (hr_to_sec cfg))))).
Proof.
  unfold configure_steps. split.
  - intros Hz. unfold Py.truediv at 1.
    destruct (Qeq_bool (hr_to_sec cfg) 0) eqn:Eh; [reflexivity|]. cbn [Py.bind].
    destruct Hz as [Hz|Hz]; [apply Qeq_bool_iff in Hz; congruence|].
    unfold Float64.div, Float64.mul.
    rewrite (round_zero (forcing_resolution cfg / hr_to_sec cfg))
      by (rewrite Hz; unfold Qdiv; ring).
    rewrite (round_zero (0 * hr_to_sec cfg)) by ring.
    reflexivity.
  - intros Hh Hf _. apply moderate_nonzero in Hh, Hf.
    rewrite (truediv_defined _ _ Hh). cbn [Py.bind].
    rewrite truediv_defined.
    + cbn [Py.bind]. eexists. split; [reflexivity|]. split; reflexivity.
    + apply mul_nonzero; [|exact Hh]. apply div_nonzero; assumption.
Qed.

(** X23.  Training cannot pass the first item of a [Data] instance: for
    an agent that holds an instance built by [Data.__init__], the loader
    of [train_one_epoch] fetches item 0, [__getitem__] raises
    [AttributeError] for [y], and no gradient is reset, no forward pass
    made and no optimizer step taken; [train] with at least one epoch
    fails in the same way. *)
Theorem training_stops_at_first_item (a : agent Model)
    (dcfg : Data.DictConfig) (tr : list Data.call) :
  Data.__init__ calc_theta_from_h calc_bc_lambda calc_bc_psib calc_h_min_cm fs dcfg
    = (tr, Py.Ok (data a)) ->
  train_one_epoch a = ([], Py.Raise (Py.AttributeError "y"))
  /\ ((0 < epochs (cfg a))%Z ->
        train a = ([], Py.Raise (Py.AttributeError "y"))).
Proof.
  intros Hinit. apply init_x_y in Hinit as (Hy & precip & pet & Hx).
  assert (Hepoch : forall a0 : agent Model, data a0 = data a ->
            train_one_epoch a0 = ([], Py.Raise (Py.AttributeError "y"))).
  { intros a0 Hd. unfold DifferentiableLGAR.train_one_epoch.
    unfold Data.__len__, Data.__getitem__, Py.lift, Data.getattr.
    rewrite Hd, Hx. cbn [Py.bind snd Py.tbind Data.len length seq].
    cbn [DifferentiableLGAR.epoch_loop].
    unfold Data.__getitem__, Py.lift, Data.getattr.
    rewrite Hx. cbn. rewrite Hy. reflexivity. }
  split; [apply Hepoch; reflexivity|].
  intros Hpos. unfold DifferentiableLGAR.train.
  destruct (Z.to_nat (epochs (cfg a))) as [|k] eqn:Hk; [lia|].
  cbn [train_epochs]. rewrite Hepoch by reflexivity. reflexivity.
Qed.

End DifferentiableLGAR_facts.

Lemma agent_cannot_be_constructed_witness :
  DifferentiableLGAR.configure_steps Scenario.train_cfg = Py.Ok Scenario.train_cfg_configured
  /\ Scenario.new_agent = Py.Raise Py.TypeError.
Proof.
  assert (H : DifferentiableLGAR.configure_steps Scenario.train_cfg
              = Py.Ok Scenario.train_cfg_configured) by (vm_compute; reflexivity).
  split; [exact H|].
  destruct (agent_cannot_be_constructed Sample.calc_theta_from_h Sample.calc_bc_lambda
              Sample.calc_bc_psib Sample.calc_h_min_cm Sample.fs unit Scenario.dpLGAR
              Scenario.parameter Scenario.parameter Scenario.parameter Scenario.train_cfg)
    as [_ Hraise].
  exact (Hraise Scenario.train_cfg_configured tt H eq_refl).
Defined.

Lemma configure_steps_defined_witness :
  Float64.moderate (DifferentiableLGAR.hr_to_sec Scenario.train_cfg_63) = true
  /\ Float64.moderate (DifferentiableLGAR.forcing_resolution Scenario.train_cfg_63) = true
  /\ exists cfg',
       DifferentiableLGAR.configure_steps Scenario.train_cfg_63 = Py.Ok cfg'
       /\ DifferentiableLGAR.nsteps cfg' = Some 399%Z.
Proof.
  assert (Hh : Float64.moderate (DifferentiableLGAR.hr_to_sec Scenario.train_cfg_63) = true)
    by (vm_compute; reflexivity).
  assert (Hf : Float64.moderate
                 (DifferentiableLGAR.forcing_resolution Scenario.train_cfg_63) = true)
    by (vm_compute; reflexivity).
  split; [exact Hh|]. split; [exact Hf|].
  destruct (configure_steps_defined Scenario.train_cfg_63) as [_ Hok].
  destruct (Hok Hh Hf) as (cfg' & Hcfg & _ & Hn); [vm_compute; reflexivity|].
  exists cfg'. split; [exact Hcfg|]. rewrite Hn. vm_compute. reflexivity.
Defined.

Lemma training_stops_at_first_item_witness :
  Sample.data_init = (Sample.data_trace, Py.Ok (DifferentiableLGAR.data Scenario.training_agent))
  /\ Scenario.train_one_epoch Scenario.training_agent
     = ([], Py.Raise (Py.AttributeError "y"))
  /\ Scenario.train Scenario.training_agent = ([], Py.Raise (Py.AttributeError "y")).
Proof.
  split; [exact sample_data_init|].
  destruct (training_stops_at_first_item Sample.calc_theta_from_h Sample.calc_bc_lambda
              Sample.calc_bc_psib Sample.calc_h_min_cm Sample.fs unit Scenario.forward
              (fun m => m) (fun m => m) Scenario.loss Scenario.loss Scenario.backward
              Scenario.step Scenario.training_agent Sample.data_cfg Sample.data_trace
              sample_data_init)
    as [Hepoch Htrain].
  split; [exact Hepoch|]. apply Htrain. vm_compute. reflexivity.
Defined.

(** ** read.py against Data.py *)

Section Readers.

Variable calc_theta_from_h : Q -> Q -> Q -> Q -> Q -> Q -> Q.
Variable calc_bc_lambda : Q -> Q.
Variable calc_bc_psib : Q -> Q -> Q.
Variable calc_h_min_cm : Q -> Q -> Q.
Variable calc_theta_from_h_df : Q -> Data.DataFrame -> Data.column.
Variable calc_bc_lambda_psib_cm : Data.DataFrame -> Data.DataFrame.
Variable calc_h_min_cm_df : Data.DataFrame -> Data.DataFrame.
Variable fs : gmap string Data.DataFrame.

(** X24.  The two forcing readers agree on a [.csv] file: whenever
    [Data.__init__] succeeds on a forcing file whose name ends in [.csv],
    [read_forcing_data] succeeds on the same file without logging, and
    the precipitation and PET series it returns are the two rows of
    [x]. *)
Theorem read_forcing_data_agrees_with_Data (cfg : Data.DictConfig)
    (tr : list Data.call) (self : Data.object) :
  Data.suffix (Data.forcing_file cfg) = ".csv"%string ->
  Data.__init__ calc_theta_from_h calc_bc_lambda calc_bc_psib calc_h_min_cm fs cfg
    = (tr, Py.Ok self) ->
  exists time precip pet,
    ReadForcing.read_forcing_data fs (Data.forcing_file cfg)
      = ([], Py.Ok (time, precip, pet))
    /\ Data.getattr self "x" = Py.Ok (Data.VMatrix [precip; pet])
    /\ Data.getattr self "timestep_map"
       = Py.Ok (Data.VDict (Data.enumerate_dict 0 time ∅)).
Proof.
  intros _ H. apply init_ok_shapes in H
    as (fdf & tc & precip & pet & sdf & xc & alpha & n & m & te & tr' & ks & H).
  destruct H as (Hfs & Htime & Hp & Hpet & _ & _ & _ & _ & _ & Hx & _ & Hmap & _).
  exists (Data.values tc), precip, pet.
  unfold ReadForcing.read_forcing_data, Data.getattr, Data.df_getitem.
  rewrite Hfs, Htime, Hp, Hpet, Hx, Hmap. auto.
Qed.


End Readers.

Lemma read_forcing_data_agrees_with_Data_witness :
  Data.suffix (Data.forcing_file Sample.data_cfg) = ".csv"%string
  /\ Sample.data_init = (Sample.data_trace, Py.Ok Sample.data)
  /\ exists time precip pet,
       ReadForcing.read_forcing_data Sample.fs (Data.forcing_file Sample.data_cfg)
         = ([], Py.Ok (time, precip, pet))
       /\ Data.getattr Sample.data "x" = Py.Ok (Data.VMatrix [precip; pet])
       /\ Data.getattr Sample.data "timestep_map"
          = Py.Ok (Data.VDict (Data.enumerate_dict 0 time ∅)).
Proof.
  split; [vm_compute; reflexivity|]. split; [exact sample_data_init|].
  apply (read_forcing_data_agrees_with_Data Sample.calc_theta_from_h Sample.calc_bc_lambda
           Sample.calc_bc_psib Sample.calc_h_min_cm Sample.fs Sample.data_cfg
           Sample.data_trace Sample.data).
  - vm_compute. reflexivity.
  - exact sample_data_init.
Defined.

